(** * mi48: host-side driver of the MI48 thermal image processor

    A shallow embedding of [mi48.go] and [constants.go]: the frame codec
    ([readPacket]), the transaction engine ([sendCommand], [readRegister],
    [writeRegister]), the session operations built on it and the streaming
    loop of [StartStream], followed by the properties of the driver's
    specification.

    Go values are modelled as follows.
    - [[]byte] is [list byte], [string] is [string]; [string(b)] and
      [[]byte(s)] are [string_of_list_byte] and [list_byte_of_string].
    - [uint8], [uint16] and [int] are [Z]; conversions write the wrap-around
      out ([uint8], [uint16]).
    - [float64] is the primitive binary64 type [float].
    - A method on [*MI48] is a function from the receiver's state to an
      [outcome] and the state left behind. *)

From Stdlib Require Import ZArith List Bool Lia.
From Stdlib.Strings Require Import String Ascii Byte.
From Stdlib Require Import Floats Uint63.
Import ListNotations.

Local Open Scope string_scope.
Local Open Scope list_scope.
Local Open Scope Z_scope.

(** ** Integers of fixed width *)

Definition uint8 (z : Z) : Z := z mod 256.
Definition uint16 (z : Z) : Z := z mod 65536.

Definition byteZ (b : byte) : Z := Z.of_N (Byte.to_N b).

Definition zbyte (z : Z) : byte :=
  match Byte.of_N (Z.to_N (uint8 z)) with
  | Some b => b
  | None => x00
  end.

(** [len(s)] of a string and of a byte slice, as Go's [int]. *)
Definition slen (s : string) : Z := Z.of_nat (String.length s).
Definition blen (b : list byte) : Z := Z.of_nat (List.length b).

(** ** Errors

    [fmt.Errorf("...: %w", err)] wraps a cause under a message; the leaves are
    the errors of [io], [encoding/hex] and of the serial port. *)

Inductive error : Type :=
| EOF                      (* io.EOF *)
| ErrUnexpectedEOF         (* io.ErrUnexpectedEOF *)
| ErrPortWrite             (* the port refused a write *)
| InvalidByteError (b : byte)   (* hex.InvalidByteError *)
| ErrLength                (* hex.ErrLength *)
| Errorf (msg : string)
| Wrapf (msg : string) (cause : error).

(** What a call comes to: a value, an [error], a panic of the runtime (index
    or slice out of range), a goroutine blocked for good on a mutex or a full
    channel, or a loop of the model that used up its fuel. *)
Inductive outcome (A : Type) : Type :=
| Ok (a : A)
| Err (e : error)
| Panic
| Blocked
| OutOfFuel.

Arguments Ok {A} a.
Arguments Err {A} e.
Arguments Panic {A}.
Arguments Blocked {A}.
Arguments OutOfFuel {A}.

(** ** fmt and encoding/hex *)

Definition upperhex (d : Z) : ascii :=
  if d <? 10 then ascii_of_N (Z.to_N (48 + d)) else ascii_of_N (Z.to_N (55 + d)).

(** The digits of [n] in base 16, most significant first ([%X]). *)
Fixpoint fmtX_digits (fuel : nat) (n : Z) (acc : string) : string :=
  match fuel with
  | O => acc
  | S fuel' =>
      let acc' := String (upperhex (n mod 16)) acc in
      if n / 16 =? 0 then acc' else fmtX_digits fuel' (n / 16) acc'
  end.

Definition fmtX (n : Z) : string :=
  fmtX_digits (S (Z.to_nat (Z.log2 n))) n "".

Fixpoint pad (c : ascii) (k : nat) (s : string) : string :=
  match k with
  | O => s
  | S k' => String c (pad c k' s)
  end.

(** [%0wX] of a non-negative integer: zero-padded to at least [w] digits. *)
Definition fmt0X (w : nat) (n : Z) : string :=
  let s := fmtX n in pad "0" (w - String.length s) s.

(** The digits of a non-negative [n] in base 10 ([%d]). *)
Fixpoint fmtD_digits (fuel : nat) (n : Z) (acc : string) : string :=
  match fuel with
  | O => acc
  | S fuel' =>
      let acc' := String (ascii_of_N (Z.to_N (48 + n mod 10))) acc in
      if n / 10 =? 0 then acc' else fmtD_digits fuel' (n / 10) acc'
  end.

Definition fmtD (n : Z) : string :=
  fmtD_digits (S (Z.to_nat (Z.log2 n))) n "".

(** [%wd]: padded with spaces to at least [w] characters. *)
Definition fmtWD (w : nat) (n : Z) : string :=
  let s := fmtD n in pad " " (w - String.length s) s.

(** [%X] of a byte slice: two upper-case digits for each byte. *)
Fixpoint fmtX_bytes (b : list byte) : string :=
  match b with
  | [] => ""
  | x :: rest =>
      String (upperhex (byteZ x / 16)) (String (upperhex (byteZ x mod 16)) (fmtX_bytes rest))
  end.

(** [hex.DecodeString]: [reverseHexTable] and the pairing loop of [Decode]. *)
Definition fromHexChar (b : byte) : option Z :=
  let c := byteZ b in
  if (48 <=? c) && (c <=? 57) then Some (c - 48)
  else if (65 <=? c) && (c <=? 70) then Some (c - 55)
  else if (97 <=? c) && (c <=? 102) then Some (c - 87)
  else None.

Fixpoint hexDecode (src : list byte) : (list byte + error) :=
  match src with
  | [] => inl []
  | [p] =>
      match fromHexChar p with
      | None => inr (InvalidByteError p)
      | Some _ => inr ErrLength
      end
  | p :: q :: rest =>
      match fromHexChar p with
      | None => inr (InvalidByteError p)
      | Some a =>
          match fromHexChar q with
          | None => inr (InvalidByteError q)
          | Some b =>
              match hexDecode rest with
              | inl out => inl (zbyte (Z.lor (Z.shiftl a 4) b) :: out)
              | inr e => inr e
              end
          end
      end
  end.

Definition DecodeString (s : string) : (list byte + error) :=
  hexDecode (list_byte_of_string s).

(** [binary.BigEndian.Uint16]; it panics on a slice shorter than two bytes. *)
Definition BigEndian_Uint16 (b : list byte) : option Z :=
  match b with
  | b0 :: b1 :: _ => Some (Z.lor (byteZ b1) (Z.shiftl (byteZ b0) 8))
  | _ => None
  end.

(** ** The serial port, the mutex and the receiver

    [serial.Port] is outside the repository; it is modelled as the byte
    stream the driver is tested against: [rx] holds the bytes the device will
    deliver, a read drains them from the front and an exhausted stream reads
    as [io.EOF]; [tx] collects the argument of every successful [Write], in
    order; [wfail] makes every [Write] fail. *)

Record Port : Type := mkPort {
  rx : list byte;
  tx : list (list byte);
  wfail : bool
}.

(** Ghost trace of what a goroutine does to the shared objects. *)
Inductive event : Type :=
| EvWrite    (* serialPort.Write *)
| EvRead     (* io.ReadFull on the port, or serialPort.Read *)
| EvLock     (* readMutex.Lock returned *)
| EvUnlock.  (* readMutex.Unlock *)

Record MI48 : Type := mkMI48 {
  serialPort : Port;
  CameraModel : string;
  SerialInfo : string;
  FirmwareVersion : string;
  MaxFPS : float;
  cameraType : Z;
  readMutex : bool;        (* [true] while the mutex is locked *)
  events : list event      (* ghost: the trace so far, oldest first *)
}.

Definition withPort (p : Port) (m : MI48) : MI48 :=
  mkMI48 p (CameraModel m) (SerialInfo m) (FirmwareVersion m) (MaxFPS m)
         (cameraType m) (readMutex m) (events m).

Definition withMutex (b : bool) (m : MI48) : MI48 :=
  mkMI48 (serialPort m) (CameraModel m) (SerialInfo m) (FirmwareVersion m)
         (MaxFPS m) (cameraType m) b (events m).

Definition logEvent (e : event) (m : MI48) : MI48 :=
  mkMI48 (serialPort m) (CameraModel m) (SerialInfo m) (FirmwareVersion m)
         (MaxFPS m) (cameraType m) (readMutex m) (events m ++ [e]).

Definition withRx (l : list byte) (m : MI48) : MI48 :=
  withPort (mkPort l (tx (serialPort m)) (wfail (serialPort m))) m.

(** [m.serialPort.Write(p)]. *)
Definition port_Write (p : list byte) (m : MI48) : option error * MI48 :=
  let m := logEvent EvWrite m in
  if wfail (serialPort m) then (Some ErrPortWrite, m)
  else (None, withPort (mkPort (rx (serialPort m)) (tx (serialPort m) ++ [p]) false) m).

(** [io.ReadFull(m.serialPort, buf)]: fills [buf] or fails; a partial read
    leaves its bytes at the front of [buf]. An empty [buf] reads nothing. *)
Definition io_ReadFull (buf : list byte) (m : MI48)
  : list byte * option error * MI48 :=
  let n := List.length buf in
  match n with
  | O => (buf, None, m)
  | S _ =>
      let avail := rx (serialPort m) in
      let m' := logEvent EvRead (withRx (skipn n avail) m) in
      if (n <=? List.length avail)%nat then (firstn n avail, None, m')
      else
        match avail with
        | [] => (buf, Some EOF, m')
        | _ :: _ => (avail ++ skipn (List.length avail) buf, Some ErrUnexpectedEOF, m')
        end
  end.

(** [m.serialPort.Read(buf)]: one read, of as many bytes as there are, up to
    [len(buf)]. *)
Definition port_Read (buf : list byte) (m : MI48)
  : list byte * option error * MI48 :=
  let n := List.length buf in
  let avail := rx (serialPort m) in
  let m' := logEvent EvRead (withRx (skipn n avail) m) in
  match avail with
  | [] => (buf, Some EOF, m')
  | _ :: _ => (firstn n avail ++ skipn (List.length avail) buf, None, m')
  end.

(** ** Frame codec: [readPacket] *)

Definition marker : string := "   #".

(** The header loop of [readPacket]:
    [for ; string(header)[:4] != "   #"; _, err = io.ReadFull(port, header)]. *)
Fixpoint readHeader (fuel : nat) (header : list byte) (err : option error)
  (m : MI48) : outcome (list byte) * MI48 :=
  if negb (substring 0 4 (string_of_list_byte header) =? marker)%string then
    match err with
    | Some e => (Err (Wrapf "failed to read header from serial port" e), m)
    | None =>
        match fuel with
        | O => (OutOfFuel, m)
        | S fuel' =>
            let '(header', err', m') := io_ReadFull header m in
            readHeader fuel' header' err' m'
        end
    end
  else (Ok header, m).

Definition readPacket (m : MI48) : outcome (string * list byte) * MI48 :=
  match readHeader (S (S (List.length (rx (serialPort m))))) (repeat x00 12) None m with
  | (Ok header, m1) =>
      let header := skipn 4 header in
      let packetType := string_of_list_byte (skipn 4 header) in
      match DecodeString (string_of_list_byte (firstn 4 header)) with
      | inr e => (Err (Wrapf "failed to decode packet length" e), m1)
      | inl len =>
          match BigEndian_Uint16 len with
          | None => (Panic, m1)
          | Some l =>
              let dataLength := uint16 (l - 8) in
              let '(data, err, m2) :=
                io_ReadFull (repeat x00 (Z.to_nat dataLength)) m1 in
              match err with
              | Some e => (Err (Wrapf "failed to read data from serial port" e), m2)
              | None =>
                  let '(_, err, m3) := port_Read (repeat x00 4) m2 in
                  match err with
                  | Some e => (Err (Wrapf "failed to read CRC from serial port" e), m3)
                  | None => (Ok (packetType, data), m3)
                  end
              end
          end
      end
  | (Err e, m1) => (Err e, m1)
  | (Panic, m1) => (Panic, m1)
  | (Blocked, m1) => (Blocked, m1)
  | (OutOfFuel, m1) => (OutOfFuel, m1)
  end.

(** ** Transaction engine: [sendCommand] *)

(** [fmt.Sprintf("   #%04X%s", len(cmd), cmd)]. *)
Definition frameCommand (cmd : string) : string :=
  marker ++ fmt0X 4 (slen cmd) ++ cmd.

(** The response loop of [sendCommand]:
    [for packetType := ""; packetType != cmdType; packetType, data, err = m.readPacket()].
    On an error [readPacket] hands back the empty type and no data. *)
Fixpoint awaitResponse (fuel : nat) (cmdType packetType : string)
  (data : list byte) (err : option error) (m : MI48)
  : outcome (list byte) * MI48 :=
  if negb (packetType =? cmdType)%string then
    match err with
    | Some e => (Err (Wrapf "failed to read response" e), m)
    | None =>
        match fuel with
        | O => (OutOfFuel, m)
        | S fuel' =>
            match readPacket m with
            | (Ok (packetType', data'), m') =>
                awaitResponse fuel' cmdType packetType' data' None m'
            | (Err e, m') => awaitResponse fuel' cmdType "" [] (Some e) m'
            | (Panic, m') => (Panic, m')
            | (Blocked, m') => (Blocked, m')
            | (OutOfFuel, m') => (OutOfFuel, m')
            end
        end
    end
  else
    (match err with None => Ok data | Some e => Err e end, m).

Definition sendCommand (cmd : string) (m : MI48) : outcome (list byte) * MI48 :=
  if (String.length cmd <? 4)%nat then (Panic, m)
  else
    let cmdType := substring 0 4 cmd in
    let cmd := frameCommand cmd in
    let (err, m1) := port_Write (list_byte_of_string cmd) m in
    match err with
    | Some e => (Err (Wrapf "failed to write to serial port" e), m1)
    | None =>
        (* m.readMutex.Lock(); defer m.readMutex.Unlock() *)
        if readMutex m1 then (Blocked, m1)
        else
          let m2 := logEvent EvLock (withMutex true m1) in
          let (r, m3) :=
            awaitResponse (S (S (List.length (rx (serialPort m2)))))
                          cmdType "" [] None m2 in
          (r, logEvent EvUnlock (withMutex false m3))
    end.

(** ** A small monad for the methods of [*MI48] *)

Definition M (A : Type) : Type := MI48 -> outcome A * MI48.

Definition ret {A : Type} (a : A) : M A := fun m => (Ok a, m).
Definition fail {A : Type} (e : error) : M A := fun m => (Err e, m).
Definition panic {A : Type} : M A := fun m => (Panic, m).

Definition bind {A B : Type} (c : M A) (k : A -> M B) : M B :=
  fun m =>
    match c m with
    | (Ok a, m') => k a m'
    | (Err e, m') => (Err e, m')
    | (Panic, m') => (Panic, m')
    | (Blocked, m') => (Blocked, m')
    | (OutOfFuel, m') => (OutOfFuel, m')
    end.

(** [if err != nil { return fmt.Errorf(msg + ": %w", err) }]. *)
Definition wrap {A : Type} (msg : string) (c : M A) : M A :=
  fun m =>
    match c m with
    | (Err e, m') => (Err (Wrapf msg e), m')
    | r => r
    end.

Notation "x <- c ;; k" := (bind c (fun x => k))
  (at level 61, c at next level, right associativity).
Notation "c ;;; k" := (bind c (fun _ => k))
  (at level 61, right associativity).

(** [b[i]] on a byte slice, as a number; out of range it panics. *)
Definition index (b : list byte) (i : nat) : M Z :=
  match nth_error b i with
  | Some x => ret (byteZ x)
  | None => panic
  end.

(** ** constants.go *)

Record register : Type := mkRegister {
  Address : Z;      (* uint8 *)
  Length : Z;       (* int *)
  ReadOnly : bool
}.

Definition FRAME_MODE := mkRegister 0xB1 1 false.
Definition FW_VERSION := mkRegister 0xB2 2 true.
Definition FRAME_RATE := mkRegister 0xB4 1 false.
Definition POWER_DOWN_1 := mkRegister 0xB5 1 false.
Definition STATUS := mkRegister 0xB6 1 true.
Definition CLK_SPEED := mkRegister 0xB7 1 false.
Definition SENXOR_TYPE := mkRegister 0xBA 1 true.
Definition SENSITIVITY_FACTOR := mkRegister 0xC2 1 false.
Definition EMISSIVITY := mkRegister 0xCA 1 false.
Definition OFFSET_CORR := mkRegister 0xCB 1 false.
Definition SENXOR_ID := mkRegister 0xE0 6 true.
Definition FILTER_CONTROL := mkRegister 0xD0 1 false.
Definition FILTER_SETTING_1_LSB := mkRegister 0xD1 1 false.
Definition FILTER_SETTING_1_MSB := mkRegister 0xD2 1 false.
Definition FILTER_SETTING_2 := mkRegister 0xD3 1 false.
Definition NETD_CONFIG := mkRegister 0xD4 1 false.
Definition NETD_FACTOR := mkRegister 0xD5 1 false.
Definition NETD_PIXEL_X := mkRegister 0xD6 1 false.
Definition NETD_PIXEL_Y := mkRegister 0xD7 1 false.
Definition USER_FLASH_CTRL := mkRegister 0xD8 1 false.

Definition GET_SINGLE_FRAME : Z := 1.
Definition CONTNIUOUS_STREAM : Z := 2.
Definition NO_HEADER : Z := 32.
Definition LOW_NETD_ROW_IN_HEADER : Z := 64.

(** The package [image], as far as the driver uses it. *)
Module image.

Record Point : Type := mkPoint { X : Z; Y : Z }.
Record Rectangle : Type := mkRectangle { Min : Point; Max : Point }.

(** [image.Rect]: the corners are put in order. *)
Definition Rect (x0 y0 x1 y1 : Z) : Rectangle :=
  let (x0, x1) := if x1 <? x0 then (x1, x0) else (x0, x1) in
  let (y0, y1) := if y1 <? y0 then (y1, y0) else (y0, y1) in
  mkRectangle (mkPoint x0 y0) (mkPoint x1 y1).

Definition ZR : Rectangle := mkRectangle (mkPoint 0 0) (mkPoint 0 0).

Definition Dx (r : Rectangle) : Z := X (Max r) - X (Min r).
Definition Dy (r : Rectangle) : Z := Y (Max r) - Y (Min r).

(** The field [Rect] of the source is [Bounds] here, [Rect] being the
    function above. *)
Record Gray16 : Type := mkGray16 {
  Pix : list byte;
  Stride : Z;
  Bounds : Rectangle
}.

(** [image.NewGray16]: two bytes for each pixel of [r]. *)
Definition NewGray16 (r : Rectangle) : Gray16 :=
  mkGray16 (repeat x00 (Z.to_nat (2 * Dx r * Dy r))) (2 * Dx r) r.

End image.

(** A Go map literal, as its list of entries; a key that is absent looks up
    as [None] ([v, ok := m[k]] with [ok] false). *)
Fixpoint lookup {V : Type} (k : Z) (entries : list (Z * V)) : option V :=
  match entries with
  | [] => None
  | (k', v) :: rest => if k =? k' then Some v else lookup k rest
  end.

Definition cameraTypes : list (Z * string) :=
  [ (0, "MI0801 non-MP"); (1, "MI0801"); (2, "MI0301"); (3, "MI0802");
    (8, "panther") ].

Definition sensorSizes : list (Z * image.Rectangle) :=
  [ (0, image.Rect 0 0 80 62); (1, image.Rect 0 0 80 62);
    (2, image.Rect 0 0 32 32); (3, image.Rect 0 0 80 62);
    (8, image.Rect 0 0 160 120) ].

(** ** Register transactions *)

(** [fmt.Sprintf("WREG%02X%02XXXXX", address, value)] and
    [fmt.Sprintf("RREG%02XXXXXXX", address)]: after the last [%02X] the
    remaining [X]s are literal filler. *)
Definition wregCommand (address value : Z) : string :=
  "WREG" ++ fmt0X 2 address ++ fmt0X 2 value ++ "XXXX".

Definition rregCommand (address : Z) : string :=
  "RREG" ++ fmt0X 2 address ++ "XXXXXX".

Definition writeRegister (reg : register) (value : Z) : M unit :=
  if ReadOnly reg then fail (Errorf "register is read-only")
  else
    wrap "failed to write register"
      (sendCommand (wregCommand (Address reg) value)) ;;;
    ret tt.

(** The loop of [readRegister]:
    [for i := uint8(0); i < uint8(reg.Length); i++]. *)
Fixpoint readRegister_loop (fuel : nat) (reg : register) (i : Z)
  (responseData : list byte) : M (list byte) :=
  if i <? uint8 (Length reg) then
    match fuel with
    | O => fun m => (OutOfFuel, m)
    | S fuel' =>
        response <- wrap "failed to read register"
          (sendCommand (rregCommand (uint8 (Address reg + i)))) ;;
        if blen response =? 0 then
          fail (Errorf "failed to read register: invalid response length (0)")
        else
          readRegister_loop fuel' reg (uint8 (i + 1)) (responseData ++ response)
    end
  else ret responseData.

Definition readRegister (reg : register) : M (list byte) :=
  responseData <- readRegister_loop 256 reg 0 [] ;;
  match DecodeString (string_of_list_byte responseData) with
  | inr e => fail (Wrapf "failed to decode register value" e)
  | inl value => ret value
  end.

(** ** float64 and the conversions of Go

    Arithmetic and comparisons are the binary64 ones of [PrimFloat]. A
    conversion of a float to an integer type truncates toward zero; when the
    truncated value does not fit, Go leaves the result to the implementation,
    and the model takes the one of amd64 (the smallest integer of the
    intermediate width). *)

(** The decimal constants of the source, each the binary64 value nearest to
    it. *)
Definition f0_05 : float := 0x1.999999999999ap-5%float.   (* 0.05 *)
Definition f25_5 : float := 0x1.98p+4%float.              (* 25.5 *)
Definition f28_57 : float := 0x1.c91eb851eb852p+4%float.  (* 28.57 *)

(** The integer part of a finite float. *)
Definition truncate (f : float) : option Z :=
  match Prim2SF f with
  | S754_zero _ => Some 0
  | S754_finite s mant e =>
      let a := if 0 <=? e then Z.pos mant * 2 ^ e else Z.pos mant / 2 ^ (- e) in
      Some (if s then - a else a)
  | S754_infinity _ => None
  | S754_nan => None
  end.

Definition float_to_signed (width : Z) (f : float) : Z :=
  match truncate f with
  | Some z => if (- 2 ^ (width - 1) <=? z) && (z <? 2 ^ (width - 1)) then z
              else - 2 ^ (width - 1)
  | None => - 2 ^ (width - 1)
  end.

(** [int(f)] and [uint8(f)] for a [float64] [f]. *)
Definition int_of_float (f : float) : Z := float_to_signed 64 f.
Definition uint8_of_float (f : float) : Z := uint8 (float_to_signed 32 f).

(** [float64(z)] for an [int] [z], rounded to the nearest float. [Uint63]
    holds the magnitudes up to [2^63 - 1]; the one [int] beyond them,
    [-2^63], is a float as it stands. *)
Definition float_of_int (z : Z) : float :=
  if z <? 0 then
    if z =? - 2 ^ 63 then (- 0x1p+63)%float
    else (- of_uint63 (Uint63.of_Z (- z)))%float
  else of_uint63 (Uint63.of_Z z).

(** [math.Round]: to the nearest integer, halves away from zero; zeros,
    infinities and NaN are returned as they are. *)
Definition math_Round (x : float) : float :=
  match Prim2SF x with
  | S754_finite s mant e =>
      if 0 <=? e then x
      else
        let q := Z.pos mant / 2 ^ (- e) in
        let r := Z.pos mant mod 2 ^ (- e) in
        let a := of_uint63 (Uint63.of_Z (if 2 ^ (- e) <=? 2 * r then q + 1 else q)) in
        if s then (- a)%float else a
  | _ => x
  end.

Definition math_Abs (x : float) : float := PrimFloat.abs x.

(** ** Session operations *)

Definition setCameraType (t : Z) (m : MI48) : MI48 :=
  mkMI48 (serialPort m) (CameraModel m) (SerialInfo m) (FirmwareVersion m)
         (MaxFPS m) t (readMutex m) (events m).

Definition setCameraModel (s : string) (m : MI48) : MI48 :=
  mkMI48 (serialPort m) s (SerialInfo m) (FirmwareVersion m)
         (MaxFPS m) (cameraType m) (readMutex m) (events m).

Definition setSerialInfo (s : string) (m : MI48) : MI48 :=
  mkMI48 (serialPort m) (CameraModel m) s (FirmwareVersion m)
         (MaxFPS m) (cameraType m) (readMutex m) (events m).

Definition setFirmwareVersion (s : string) (m : MI48) : MI48 :=
  mkMI48 (serialPort m) (CameraModel m) (SerialInfo m) s
         (MaxFPS m) (cameraType m) (readMutex m) (events m).

Definition setMaxFPS (f : float) (m : MI48) : MI48 :=
  mkMI48 (serialPort m) (CameraModel m) (SerialInfo m) (FirmwareVersion m)
         f (cameraType m) (readMutex m) (events m).

Definition getMaxFPS : M float :=
  cameraType <- wrap "failed to get camera type" (readRegister SENXOR_TYPE) ;;
  c <- index cameraType 0 ;;
  if c =? 0 then ret f25_5
  else if c =? 1 then ret f25_5
  else if c =? 2 then ret f28_57
  else (* We don't know *) ret 0%float.

Definition SetTemperatureOffset (offset : float) : M unit :=
  let offsetValue := (offset / f0_05)%float in
  if (offsetValue <? 0)%float then
    writeRegister OFFSET_CORR (uint8_of_float (256 - math_Abs offsetValue)%float)
  else
    writeRegister OFFSET_CORR (uint8_of_float offsetValue).

(** [SetFramerate] hands back its rate and its error side by side. *)
Definition SetFramerate (frameRate : float) (m : MI48)
  : (float * outcome unit) * MI48 :=
  if (frameRate =? 0)%float || (MaxFPS m <? frameRate)%float then
    ((0%float,
      Err (Errorf "invalid target frame rate, must be 0 < target < MaxFPS")), m)
  else
    let optimalDivisor := (MaxFPS m / frameRate)%float in
    let divisor := int_of_float (math_Round optimalDivisor) in
    let (err, m') := writeRegister FRAME_RATE (uint8 divisor) m in
    (((MaxFPS m / float_of_int divisor)%float, err), m').

Definition GetFramerate : M float :=
  divisorData <- wrap "failed to read frame rate" (readRegister FRAME_RATE) ;;
  divisor <- index divisorData 0 ;;
  if divisor =? 0 then fail (Errorf "invalid frame rate divisor: 0")
  else fun m => (Ok (MaxFPS m / float_of_int divisor)%float, m).

Record FilterSettings : Type := mkFilterSettings {
  Temporal : Z;         (* uint16 *)
  RollingAverage : Z;   (* uint8 *)
  Median : Z            (* medianFilterMode *)
}.

Definition MEDIAN_DISABLED : Z := 0.
Definition MEDIAN_KERNEL_SIZE_3 : Z := 3.
Definition MEDIAN_KERNEL_SIZE_5 : Z := 5.

Definition DefaultFilterSettings : FilterSettings :=
  mkFilterSettings 125 4 MEDIAN_DISABLED.

Record NETDConfig : Type := mkNETDConfig {
  Enabled : bool;
  RowInFrame : bool;
  Factor : Z;   (* uint8 *)
  X : Z;        (* uint8 *)
  Y : Z         (* uint8 *)
}.

Definition DefaultNETDConfig : NETDConfig := mkNETDConfig false false 0x14 0 0.

Definition SetFilters (filterSettings : FilterSettings) : M unit :=
  let fltCtrl := 0 in
  let fltSet1Lsb := 0 in
  let fltSet1Msb := 0 in
  let fltSet2 := 0 in
  let '(fltCtrl, fltSet1Lsb, fltSet1Msb) :=
    if 0 <? Temporal filterSettings then
      (Z.lor fltCtrl 0x03,
       uint8 (Z.land (Temporal filterSettings) 0xFF),
       uint8 (Z.shiftr (Z.land (Temporal filterSettings) 0xFF00) 8))
    else (fltCtrl, fltSet1Lsb, fltSet1Msb) in
  let '(fltCtrl, fltSet2) :=
    if 0 <? RollingAverage filterSettings then
      (Z.lor fltCtrl 0x04, RollingAverage filterSettings)
    else (fltCtrl, fltSet2) in
  let fltCtrl :=
    if 0 <? Median filterSettings then
      let fltCtrl := Z.lor fltCtrl 0x40 in
      if 3 <? Median filterSettings then Z.lor fltCtrl 0x20 else fltCtrl
    else fltCtrl in
  wrap "failed to set filter settings" (writeRegister FILTER_SETTING_1_LSB fltSet1Lsb) ;;;
  wrap "failed to set filter settings" (writeRegister FILTER_SETTING_1_MSB fltSet1Msb) ;;;
  wrap "failed to set filter settings" (writeRegister FILTER_SETTING_2 fltSet2) ;;;
  wrap "failed to set filter control" (writeRegister FILTER_CONTROL fltCtrl) ;;;
  ret tt.

(** The local [netd_config] of [SetNETD], the byte composed for the
    configuration register. *)
Definition netd_config (netdConfig : NETDConfig) : Z :=
  let netd_config := 0x00 in
  if Enabled netdConfig then
    let netd_config := Z.lor netd_config 0x01 in
    if RowInFrame netdConfig then Z.lor netd_config 0x02 else netd_config
  else netd_config.

Definition SetNETD (netdConfig : NETDConfig) : M unit :=
  wrap "failed to set NETD factor" (writeRegister NETD_FACTOR (Factor netdConfig)) ;;;
  wrap "failed to set NETD pixel Y" (writeRegister NETD_PIXEL_Y (Y netdConfig)) ;;;
  wrap "failed to set NETD pixel X" (writeRegister NETD_PIXEL_X (X netdConfig)) ;;;
  wrap "failed to set NETD config" (writeRegister NETD_CONFIG (netd_config netdConfig)) ;;;
  ret tt.

Definition getFirmwareVersion : M string :=
  firmwareVersion <- wrap "failed to read firmware version" (readRegister FW_VERSION) ;;
  v0 <- index firmwareVersion 0 ;;
  v1 <- index firmwareVersion 1 ;;
  ret (fmtD (Z.land (Z.shiftr v0 4) 0xF) ++ "." ++ fmtD (Z.land v0 0xF) ++ "."
       ++ fmtD v1)%string.

Definition getCameraID : M string :=
  sensorType <- wrap "failed to read camera ID" (readRegister SENXOR_ID) ;;
  s1 <- index sensorType 1 ;;
  s0 <- index sensorType 0 ;;
  s2 <- index sensorType 2 ;;
  ret ("Week: " ++ fmtWD 2 s1 ++ "; Year: " ++ fmtWD 4 (s0 + 2000)
       ++ "; Fab: " ++ fmt0X 2 s2 ++ "; Serial: " ++ fmtX_bytes (skipn 3 sensorType))%string.

Definition getCameraType : M Z :=
  cameraType <- wrap "failed to get camera type" (readRegister SENXOR_TYPE) ;;
  index cameraType 0.

(** [x, err = call()] on a field of the receiver: the field is assigned
    whatever the call hands back, the zero value on a failure. *)
Definition assign {A : Type} (set : A -> MI48 -> MI48) (zero : A) (c : M A) : M unit :=
  fun m =>
    match c m with
    | (Ok a, m') => (Ok tt, set a m')
    | (Err e, m') => (Err e, set zero m')
    | (Panic, m') => (Panic, m')
    | (Blocked, m') => (Blocked, m')
    | (OutOfFuel, m') => (OutOfFuel, m')
    end.

Definition init : M unit :=
  assign setCameraType 0 getCameraType ;;;
  (fun m =>
     match lookup (cameraType m) cameraTypes with
     | Some model => (Ok tt, setCameraModel model m)
     | None => (Err (Errorf "unknown camera type"), setCameraModel "" m)
     end) ;;;
  assign setSerialInfo "" getCameraID ;;;
  assign setFirmwareVersion "" getFirmwareVersion ;;;
  assign setMaxFPS 0%float getMaxFPS ;;;
  SetFilters DefaultFilterSettings ;;;
  SetTemperatureOffset 0%float ;;;
  SetNETD DefaultNETDConfig ;;;
  ret tt.

(** [Open] once the port [p] is there: [camera := MI48{serialPort: p}] and
    [camera.init()]. *)
Definition Open (p : Port) : outcome unit * MI48 :=
  init (mkMI48 p "" "" "" 0%float 0 false []).

(** ** Streaming: [StartStream] and its goroutine *)

(** The channel [videoStream], [make(chan *image.Gray16, 10)]: the frames
    sent and not yet received, oldest first, and whether it was closed. No
    receiver runs in the model, so a send on a full buffer blocks. *)
Record Stream : Type := mkStream {
  videoStream : list image.Gray16;
  closed : bool
}.

Definition close (ch : Stream) : Stream := mkStream (videoStream ch) true.

Definition sensorSize (t : Z) : image.Rectangle :=
  match lookup t sensorSizes with
  | Some r => r
  | None => image.ZR
  end.

(** The goroutine of [StartStream]. [done i] tells whether
    [streamContext.Done()] is ready when iteration [i] looks at it. The
    goroutine ends by returning, which closes the channel, or it blocks. *)
Fixpoint streamLoop (fuel : nat) (done : nat -> bool) (i : nat) (ch : Stream)
  (m : MI48) : outcome unit * Stream * MI48 :=
  match fuel with
  | O => (OutOfFuel, ch, m)
  | S fuel' =>
      if done i then (Ok tt, close ch, m)
      else if readMutex m then (Blocked, ch, m)   (* m.readMutex.Lock() *)
      else
        let m1 := logEvent EvLock (withMutex true m) in
        match readPacket m1 with
        | (Ok (packetType, data), m2) =>
            if (packetType =? "GFRA")%string then
              let frame := image.NewGray16 (sensorSize (cameraType m2)) in
              if blen data <? blen (image.Pix frame) then (Ok tt, close ch, m2)
              else
                (* Drop headers *)
                let frame :=
                  image.mkGray16
                    (skipn (List.length data - List.length (image.Pix frame)) data)
                    (image.Stride frame) (image.Bounds frame) in
                if (List.length (videoStream ch) <? 10)%nat then
                  streamLoop fuel' done (S i)
                             (mkStream (videoStream ch ++ [frame]) (closed ch)) m2
                else (Blocked, ch, m2)
            else streamLoop fuel' done (S i) ch m2
        | (Err e, m2) => (Ok tt, close ch, m2)
        | (Panic, m2) => (Panic, close ch, m2)
        | (Blocked, m2) => (Blocked, ch, m2)
        | (OutOfFuel, m2) => (OutOfFuel, ch, m2)
        end
  end.

(** [StartStream] up to the [go] statement: the frame mode is switched to
    continuous and the channel is made; the goroutine is [streamLoop] on it. *)
Definition StartStream : M Stream :=
  wrap "failed to start stream" (writeRegister FRAME_MODE (uint8 CONTNIUOUS_STREAM)) ;;;
  ret (mkStream [] false).

(** ** Port discovery: [getSerialPort]

    [VENDOR_ID] and [PRODUCT_IDs] are declared outside the files at hand, and
    [strings.EqualFold] and the port enumerator are library code: the three
    are parameters, and the enumerator's result is the argument. *)

(** [enumerator.PortDetails], the fields the driver reads. *)
Record PortDetails : Type := mkPortDetails {
  Name : string;
  VID : string;
  PID : string
}.

(** [slices.Contains]. *)
Definition slices_Contains (l : list string) (x : string) : bool :=
  existsb (String.eqb x) l.

Section Discovery.

Variable VENDOR_ID : string.
Variable PRODUCT_IDs : list string.
Variable EqualFold : string -> string -> bool.

(** The test [getSerialPort] applies to a port. *)
Definition isMI48 (port : PortDetails) : bool :=
  EqualFold (VID port) VENDOR_ID && slices_Contains PRODUCT_IDs (PID port).

(** [for _, port := range portDetails]. *)
Fixpoint getSerialPort_range (portDetails : list PortDetails) : string * option error :=
  match portDetails with
  | [] => ("", None)
  | port :: rest =>
      if isMI48 port then (Name port, None) else getSerialPort_range rest
  end.

(** [getSerialPort], on what [enumerator.GetDetailedPortsList] returned. *)
Definition getSerialPort (listed : list PortDetails + error) : string * option error :=
  match listed with
  | inr err => ("", Some (Wrapf "failed to autodecte MI48 serial port" err))
  | inl portDetails => getSerialPort_range portDetails
  end.

(** The start of [Open]: the name handed to [serial.Open], or the error
    [Open] returns before it. *)
Definition Open_portName (serialPort : list string) (listed : list PortDetails + error)
  : string + error :=
  match serialPort with
  | [] =>
      match getSerialPort listed with
      | (_, Some err) => inr (Wrapf "failed to Open MI48 device" err)
      | (portName, None) => inl portName
      end
  | first :: _ => inl first
  end.

End Discovery.

(** ** The consumer: [cv.Read]

    [gocv.Mat] is outside the repository: [Read] is modelled by the calls
    [mat.SetShortAt(row, col, value)] it makes, in order. *)

(** [Point{x, y}.In(r)]. *)
Definition Point_In (x y : Z) (r : image.Rectangle) : bool :=
  (image.X (image.Min r) <=? x) && (x <? image.X (image.Max r))
  && (image.Y (image.Min r) <=? y) && (y <? image.Y (image.Max r)).

(** [p.PixOffset(x, y)]. *)
Definition Gray16_PixOffset (p : image.Gray16) (x y : Z) : Z :=
  (y - image.Y (image.Min (image.Bounds p))) * image.Stride p
  + (x - image.X (image.Min (image.Bounds p))) * 2.

(** [p.At(x, y).(color.Gray16).Y]: the big-endian 16-bit value at the pixel,
    0 outside the rectangle; [None] when the two bytes are not in [Pix]
    (the slice expression panics). *)
Definition Gray16_At (p : image.Gray16) (x y : Z) : option Z :=
  if negb (Point_In x y (image.Bounds p)) then Some 0
  else
    let i := Gray16_PixOffset p x y in
    if (i <? 0) || (blen (image.Pix p) <? i + 2) then None
    else
      match nth_error (image.Pix p) (Z.to_nat i),
            nth_error (image.Pix p) (Z.to_nat (i + 1)) with
      | Some s0, Some s1 => Some (Z.lor (Z.shiftl (byteZ s0) 8) (byteZ s1))
      | _, _ => None
      end.

Module cv.

(** [int16(v)] of a [uint16]. *)
Definition int16 (v : Z) : Z :=
  let u := v mod 65536 in if u <? 32768 then u else u - 65536.

(** [frame := <-src]: the oldest frame in the channel; [nil] from a channel
    that is closed and drained; otherwise the receiver blocks. *)
Definition receive (src : Stream) : outcome (option image.Gray16) * Stream :=
  match videoStream src with
  | frame :: rest => (Ok (Some frame), mkStream rest (closed src))
  | [] => if closed src then (Ok None, src) else (Blocked, src)
  end.

(** [for x := bounds.Min.X; x < bounds.Max.X; x++], with [n] columns to go. *)
Fixpoint Read_columns (n : nat) (frame : image.Gray16) (y x : Z)
  (calls : list (Z * Z * Z)) : outcome (list (Z * Z * Z)) :=
  match n with
  | O => Ok calls
  | S n' =>
      match Gray16_At frame x y with
      | None => Panic
      | Some v => Read_columns n' frame y (x + 1) (calls ++ [(y, x, int16 v)])
      end
  end.

(** [for y := bounds.Min.Y; y < bounds.Max.Y; y++], with [n] rows to go. *)
Fixpoint Read_rows (n : nat) (frame : image.Gray16) (y : Z)
  (calls : list (Z * Z * Z)) : outcome (list (Z * Z * Z)) :=
  match n with
  | O => Ok calls
  | S n' =>
      let bounds := image.Bounds frame in
      match Read_columns (Z.to_nat (image.X (image.Max bounds) - image.X (image.Min bounds)))
                         frame y (image.X (image.Min bounds)) calls with
      | Ok calls' => Read_rows n' frame (y + 1) calls'
      | other => other
      end
  end.

(** [Read(src, mat)]: the calls to [mat.SetShortAt]. A [nil] frame panics at
    [frame.Bounds()]. *)
Definition Read (src : Stream) : outcome (list (Z * Z * Z)) * Stream :=
  match receive src with
  | (Ok (Some frame), src') =>
      let bounds := image.Bounds frame in
      (Read_rows (Z.to_nat (image.Y (image.Max bounds) - image.Y (image.Min bounds)))
                 frame (image.Y (image.Min bounds)) [],
       src')
  | (Ok None, src') => (Panic, src')
  | (Err e, src') => (Err e, src')
  | (Panic, src') => (Panic, src')
  | (Blocked, src') => (Blocked, src')
  | (OutOfFuel, src') => (OutOfFuel, src')
  end.

End cv.

(** ** Simulated sessions, devices and traces *)

(** A fresh session on a port that will deliver [input]: nothing written
    yet, the mutex free, the fields at their zero values. *)
Definition session0 (input : list byte) : MI48 :=
  mkMI48 (mkPort input [] false) "" "" "" 0%float 0 false [].

(** The bytes of one frame as the device sends it: marker, length field,
    type tag, payload and trailer. *)
Definition wireFrame (len : Z) (tag payload trailer : list byte) : list byte :=
  list_byte_of_string marker ++ list_byte_of_string (fmt0X 4 len)
    ++ tag ++ payload ++ trailer.

(** The state a goroutine leaves after it read the port down to [rest]. *)
Definition afterReads (rest : list byte) (evs : list event) (m : MI48) : MI48 :=
  mkMI48 (mkPort rest (tx (serialPort m)) (wfail (serialPort m)))
         (CameraModel m) (SerialInfo m) (FirmwareVersion m) (MaxFPS m)
         (cameraType m) (readMutex m) (events m ++ evs).

(** The reads one frame costs: header, payload (none when it is empty) and
    trailer. *)
Definition frameReads (payload : list byte) : list event :=
  match payload with
  | [] => [EvRead; EvRead]
  | _ :: _ => [EvRead; EvRead; EvRead]
  end.

(** The integers [0 .. n-1]. *)
Definition zrange (n : nat) : list Z := map Z.of_nat (seq 0 n).

(** Whether the length field [%04X] of [l] has four characters that decode,
    as [readPacket] decodes them, to [l] again. *)
Definition lengthFieldOk (l : Z) : bool :=
  match list_byte_of_string (fmt0X 4 l) with
  | [c0; c1; c2; c3] =>
      match hexDecode [c0; c1; c2; c3] with
      | inl len =>
          match BigEndian_Uint16 len with
          | Some l' => l' =? l
          | None => false
          end
      | inr _ => false
      end
  | _ => false
  end.

(** A well-formed frame: the length field counts the type tag, the payload
    and the trailer. *)
Definition reply (tag : string) (payload trailer : list byte) : list byte :=
  wireFrame (blen payload + 8) (list_byte_of_string tag) payload trailer.

(** The state after request/response exchanges that wrote [frames] and read
    the port down to [rest]. *)
Definition afterExchange (frames : list (list byte)) (rest : list byte)
  (evs : list event) (m : MI48) : MI48 :=
  mkMI48 (mkPort rest (tx (serialPort m) ++ frames) false)
         (CameraModel m) (SerialInfo m) (FirmwareVersion m) (MaxFPS m)
         (cameraType m) false (events m ++ evs).

(** The trace of an exchange that is answered by the first frame. *)
Definition exchangeEvents (payload : list byte) : list event :=
  [EvWrite; EvLock] ++ frameReads payload ++ [EvUnlock].

(** What the device sends in answer to a series of register reads: for each
    read one [RREG] frame, given by its payload and its trailer. *)
Definition answer : Type := (list byte * (byte * byte * byte * byte))%type.

Definition answerFrame (a : answer) : list byte :=
  let '(p, (t0, t1, t2, t3)) := a in reply "RREG" p [t0; t1; t2; t3].

Definition answers (l : list answer) : list byte := List.concat (map answerFrame l).

Definition answerOk (a : answer) : Prop := fst a <> [] /\ blen (fst a) <= 65527.

Definition payloads (l : list answer) : list byte := List.concat (map fst l).

(** The command frames of [n] single-address reads from [address + i] on. *)
Definition readFrames (address : Z) (i n : nat) : list (list byte) :=
  map (fun j => list_byte_of_string
                  (frameCommand (rregCommand (uint8 (address + Z.of_nat j)))))
      (seq i n).

Definition answerEvents (l : list answer) : list event :=
  List.concat (map (fun a => exchangeEvents (fst a)) l).

(** A trailer for simulated frames, the bytes of [CRC_]. *)
Definition crc0 : byte * byte * byte * byte := (x43, x52, x43, x5f).

(** The acknowledgement of a register write: a [WREG] frame. *)
Definition ackFrame (a : answer) : list byte :=
  let '(p, (t0, t1, t2, t3)) := a in reply "WREG" p [t0; t1; t2; t3].

(** [m'] differs from [m] by reads of the port only: bytes were drained from
    the front of the stream and the trace grew by [EvRead]s. *)
Definition readsOnly (m m' : MI48) : Prop :=
  tx (serialPort m') = tx (serialPort m)
  /\ wfail (serialPort m') = wfail (serialPort m)
  /\ CameraModel m' = CameraModel m
  /\ SerialInfo m' = SerialInfo m
  /\ FirmwareVersion m' = FirmwareVersion m
  /\ MaxFPS m' = MaxFPS m
  /\ cameraType m' = cameraType m
  /\ readMutex m' = readMutex m
  /\ (List.length (rx (serialPort m')) <= List.length (rx (serialPort m)))%nat
  /\ exists evs, events m' = events m ++ evs /\ Forall (eq EvRead) evs.

(** Replaying a goroutine's trace: [guarded needsLock held tr] tells whether
    every event of [tr] that [needsLock] happens while the goroutine holds
    the mutex, [held] being whether it holds it at the start; [heldAfter]
    tells whether it holds it at the end. *)
Fixpoint guarded (needsLock : event -> bool) (held : bool) (tr : list event)
  : bool :=
  match tr with
  | [] => true
  | EvLock :: tr' => guarded needsLock true tr'
  | EvUnlock :: tr' => guarded needsLock false tr'
  | e :: tr' => (negb (needsLock e) || held) && guarded needsLock held tr'
  end.

Fixpoint heldAfter (held : bool) (tr : list event) : bool :=
  match tr with
  | [] => held
  | EvLock :: tr' => heldAfter true tr'
  | EvUnlock :: tr' => heldAfter false tr'
  | _ :: tr' => heldAfter held tr'
  end.

Definition isAccess (e : event) : bool :=
  match e with EvWrite | EvRead => true | _ => false end.

Definition isRead (e : event) : bool :=
  match e with EvRead => true | _ => false end.

(** A simulated device that answers the nineteen exchanges of [init]: the
    camera type [typeCode] (two hex digits), six bytes of camera ID, two of
    firmware version, the camera type again, and nine acknowledgements. *)
Definition device (typeCode : string) : list byte :=
  answers
    (map (fun p => (list_byte_of_string p, crc0))
         [typeCode; "18"; "0C"; "A1"; "00"; "12"; "34"; "32"; "07"; typeCode])
  ++ List.concat (repeat (ackFrame ([], crc0)) 9).

(** Whether rounding [maxFPS/actualRate] gives back the divisor [d] that
    produced [actualRate = maxFPS/d]. *)
Definition divisorReproduced (maxFPS : float) (d : Z) : bool :=
  int_of_float (math_Round (maxFPS / (maxFPS / float_of_int d))%float) =? d.

(** A frame of any type on the stream: its type tag, and its payload and
    trailer. *)
Definition tagged : Type := (string * answer)%type.

Definition taggedFrame (f : tagged) : list byte :=
  let '(tag, (p, (t0, t1, t2, t3))) := f in reply tag p [t0; t1; t2; t3].

Definition taggedFrames (l : list tagged) : list byte :=
  List.concat (map taggedFrame l).

(** A well-formed frame whose type is not the one a command waits for. *)
Definition otherThan (cmdType : string) (f : tagged) : Prop :=
  String.length (fst f) = 4%nat /\ fst f <> cmdType /\ blen (fst (snd f)) <= 65527.

Definition taggedReads (l : list tagged) : list event :=
  List.concat (map (fun f => frameReads (fst (snd f))) l).

(** Twelve bytes that do not start with the marker: what the header loop of
    [readPacket] reads and drops in one step. *)
Definition noMarker (block : list byte) : Prop :=
  List.length block = 12%nat
  /\ (substring 0 4 (string_of_list_byte block) =? marker)%string = false.

(** Whether the two characters of [%02X] of [b] decode, as [hexDecode]
    decodes a pair, to [b] again. *)
Definition hexByteOk (b : Z) : bool :=
  match list_byte_of_string (fmt0X 2 b) with
  | [c0; c1] =>
      match fromHexChar c0, fromHexChar c1 with
      | Some a, Some d => (Z.lor (Z.shiftl a 4) d =? b) && (byteZ (zbyte b) =? b)
      | _, _ => false
      end
  | _ => false
  end.

(** The answers of a device that reports each register as the two hex digits
    of its byte: the byte and the trailer of each answer. *)
Definition hexAnswers (l : list (Z * (byte * byte * byte * byte))) : list answer :=
  map (fun v => (list_byte_of_string (fmt0X 2 (fst v)), snd v)) l.

(** The port and the mutex of a session between two exchanges: what has
    been written, what is left to read, a port that takes writes and a free
    mutex. *)
Definition portAt (m : MI48) (written : list (list byte)) (left : list byte)
  : Prop :=
  tx (serialPort m) = written /\ rx (serialPort m) = left
  /\ wfail (serialPort m) = false /\ readMutex m = false.

(** [m'] has the identity fields of [m]. *)
Definition sameIdentity (m m' : MI48) : Prop :=
  cameraType m' = cameraType m /\ CameraModel m' = CameraModel m
  /\ MaxFPS m' = MaxFPS m.

(** The acknowledgements of a series of register writes. *)
Definition ackFrames (l : list answer) : list byte := List.concat (map ackFrame l).

(** [MaxFPS] as [getMaxFPS] derives it from a camera type code. *)
Definition maxFPSOf (t : Z) : float :=
  if t =? 0 then f25_5 else if t =? 1 then f25_5 else if t =? 2 then f28_57
  else 0%float.

(** Whether the temperature offset of [k] steps, given as [float64(k)/20],
    is written to the register as [k] or as [k - 1]. *)
Definition offsetWithinOneStep (k : Z) : bool :=
  let q := (float_of_int k / 20 / f0_05)%float in
  let v := if (q <? 0)%float then uint8_of_float (256 - abs q)%float
           else uint8_of_float q in
  (v =? k) || (v =? k - 1).

(** The value [cv.Read] hands to [SetShortAt] for the pixel [(x, y)] of a
    frame that is [w] pixels wide: the two bytes at [2 * (y * w + x)],
    big-endian, as an [int16]. *)
Definition pixelValue (pix : list byte) (w x y : Z) : Z :=
  cv.int16 (Z.lor (Z.shiftl (byteZ (nth (Z.to_nat (2 * (y * w + x))) pix x00)) 8)
                  (byteZ (nth (Z.to_nat (2 * (y * w + x) + 1)) pix x00))).

(** The calls of [cv.Read] on a frame of [w] by [h] pixels: row by row, and
    within a row column by column. *)
Definition rowMajorCalls (pix : list byte) (w h : Z) : list (Z * Z * Z) :=
  flat_map
    (fun j => map (fun k => (Z.of_nat j, Z.of_nat k,
                             pixelValue pix w (Z.of_nat k) (Z.of_nat j)))
                  (seq 0 (Z.to_nat w)))
    (seq 0 (Z.to_nat h)).

(** * Properties *)

(** Reduction of the projections of a session through its updates, and of
    nothing else. *)
Ltac session_simpl :=
  unfold afterExchange, afterReads, logEvent, withMutex, withRx, withPort,
         setCameraType, setCameraModel, setSerialInfo, setFirmwareVersion,
         setMaxFPS;
  cbn [serialPort rx tx wfail CameraModel SerialInfo FirmwareVersion MaxFPS
       cameraType readMutex events fst snd].

Lemma lengthFieldOk_all :
  forallb (fun h => forallb (fun lo => lengthFieldOk (256 * h + lo)) (zrange 256))
          (zrange 256) = true.
Proof. vm_compute. reflexivity. Qed.

Lemma zrange_In (n : nat) (z : Z) : 0 <= z < Z.of_nat n -> In z (zrange n).
Proof.
  intros H. unfold zrange. apply in_map_iff. exists (Z.to_nat z). split.
  - lia.
  - apply in_seq. lia.
Qed.

Lemma lengthField_roundtrip (l : Z) :
  0 <= l < 65536 -> lengthFieldOk l = true.
Proof.
  intros H.
  pose proof lengthFieldOk_all as A.
  rewrite forallb_forall in A.
  specialize (A (l / 256)).
  rewrite forallb_forall in A.
  assert (E : l = 256 * (l / 256) + l mod 256) by (apply Z.div_mod; lia).
  rewrite E at 1. apply A.
  - apply zrange_In. split.
    + apply Z.div_pos; lia.
    + apply Z.div_lt_upper_bound; lia.
  - apply zrange_In. pose proof (Z.mod_pos_bound l 256). lia.
Qed.

Lemma afterReads_compose (m : MI48) r1 e1 r2 e2 :
  afterReads r2 e2 (afterReads r1 e1 m) = afterReads r2 (e1 ++ e2) m.
Proof. unfold afterReads. simpl. rewrite <- app_assoc. reflexivity. Qed.

Lemma ReadFull_exact (m : MI48) (data tl : list byte) :
  rx (serialPort m) = data ++ tl -> data <> [] ->
  io_ReadFull (repeat x00 (List.length data)) m
  = (data, None, afterReads tl [EvRead] m).
Proof.
  intros Hrx Hne. unfold io_ReadFull. rewrite repeat_length.
  destruct data as [|d data']; [congruence|].
  cbn [List.length]. rewrite Hrx.
  assert (L : (S (List.length data') <=? List.length ((d :: data') ++ tl))%nat = true).
  { apply Nat.leb_le. rewrite length_app. simpl. lia. }
  rewrite L.
  change (S (List.length data')) with (List.length (d :: data')).
  rewrite firstn_app, firstn_all, Nat.sub_diag, firstn_O, app_nil_r.
  rewrite skipn_app, skipn_all, Nat.sub_diag, skipn_O.
  reflexivity.
Qed.

Lemma port_Read_trailer (m : MI48) (t0 t1 t2 t3 : byte) (tl : list byte) :
  rx (serialPort m) = t0 :: t1 :: t2 :: t3 :: tl ->
  port_Read (repeat x00 4) m
  = ([t0; t1; t2; t3], None, afterReads tl [EvRead] m).
Proof.
  intros Hrx. unfold port_Read. rewrite Hrx. simpl.
  replace (skipn (List.length tl) []) with (@nil byte) by (destruct (List.length tl); reflexivity).
  reflexivity.
Qed.

Lemma marker_seen (t : list byte) :
  (substring 0 4 (string_of_list_byte (x20 :: x20 :: x20 :: x23 :: t)) =? marker)%string = true.
Proof. destruct t; reflexivity. Qed.

(** [readPacket] on a stream that starts with a whole frame: the type tag and
    [uint16(len - 8)] bytes of payload come back, and four trailer bytes are
    consumed. *)
Lemma readPacket_frame (m : MI48) (l : Z) (tag payload rest : list byte)
  (t0 t1 t2 t3 : byte) :
  0 <= l < 65536 ->
  List.length tag = 4%nat ->
  List.length payload = Z.to_nat (uint16 (l - 8)) ->
  rx (serialPort m) = wireFrame l tag payload [t0; t1; t2; t3] ++ rest ->
  readPacket m
  = (Ok (string_of_list_byte tag, payload),
     afterReads rest (frameReads payload) m).
Proof.
  intros Hl Htag Hpay Hrx.
  pose proof (lengthField_roundtrip l Hl) as Hf.
  unfold lengthFieldOk in Hf.
  destruct (list_byte_of_string (fmt0X 4 l)) as [|c0 [|c1 [|c2 [|c3 [|? ?]]]]] eqn:Ec;
    try discriminate.
  destruct (hexDecode [c0; c1; c2; c3]) as [len|] eqn:Ed; try discriminate.
  destruct (BigEndian_Uint16 len) as [l'|] eqn:Eu; try discriminate.
  apply Z.eqb_eq in Hf. subst l'.
  destruct tag as [|g0 [|g1 [|g2 [|g3 [|? ?]]]]]; try discriminate.
  unfold wireFrame in Hrx. rewrite Ec in Hrx. cbn [list_byte_of_string marker] in Hrx.
  change (list_byte_of_string marker) with [x20; x20; x20; x23] in Hrx.
  cbn [app] in Hrx. rewrite <- app_assoc in Hrx.
  unfold readPacket.
  remember (S (List.length (rx (serialPort m)))) as fuel eqn:Ef. clear Ef.
  cbn [readHeader].
  change (negb (substring 0 4 (string_of_list_byte (repeat x00 12)) =? marker)%string)
    with true. cbv iota.
  pose proof (ReadFull_exact m [x20; x20; x20; x23; c0; c1; c2; c3; g0; g1; g2; g3]
                (payload ++ [t0; t1; t2; t3] ++ rest)) as R.
  cbn [List.length] in R. rewrite R by (try discriminate; exact Hrx). clear R.
  destruct fuel as [|fuel]; cbn [readHeader]; rewrite marker_seen; cbn [negb];
    cbn [skipn firstn].
  all: unfold DecodeString; rewrite list_byte_of_string_of_list_byte, Ed, Eu.
  all: rewrite <- Hpay.
  all: destruct payload as [|p0 payload'].
  all: try (cbn [List.length repeat io_ReadFull app];
            erewrite port_Read_trailer by reflexivity;
            rewrite afterReads_compose; reflexivity).
  all: erewrite ReadFull_exact by (try discriminate; reflexivity).
  all: erewrite port_Read_trailer by reflexivity.
  all: rewrite !afterReads_compose; reflexivity.
Qed.

Lemma list_byte_of_string_app (a b : string) :
  list_byte_of_string (a ++ b) = list_byte_of_string a ++ list_byte_of_string b.
Proof.
  unfold list_byte_of_string.
  induction a as [|c a IH]; simpl; [reflexivity|]. rewrite IH. reflexivity.
Qed.

Lemma list_byte_of_string_length (a : string) :
  List.length (list_byte_of_string a) = String.length a.
Proof.
  unfold list_byte_of_string. rewrite length_map.
  induction a as [|c a IH]; simpl; [reflexivity|]. rewrite IH. reflexivity.
Qed.

Lemma string_length_app (a b : string) :
  String.length (a ++ b) = (String.length a + String.length b)%nat.
Proof. induction a as [|c a IH]; simpl; [reflexivity|]. rewrite IH. reflexivity. Qed.

(** ** C1: the frame codec on a command frame *)

(** C1, as stated, fails: decoding the frame of the command [RREG] with body
    [BA000000] yields the payload [BA00]; the last four bytes of the body are
    taken for the trailer. *)
Lemma C1_roundtrip_counterexample :
  fst (readPacket (session0 (list_byte_of_string (frameCommand "RREGBA000000"))))
  = Ok ("RREG", list_byte_of_string "BA00")
  /\ fst (readPacket (session0 (list_byte_of_string (frameCommand "RREGBA000000"))))
     <> Ok ("RREG", list_byte_of_string "BA000000").
Proof. split; [vm_compute; reflexivity | vm_compute; discriminate]. Qed.

(** C1, amended: for every 4-character type tag and every body of at least
    four bytes whose command fits the 16-bit length field, decoding the bytes
    of the command frame with [readPacket] succeeds, recovers the type tag,
    and yields as payload the body without its last four bytes, which are
    consumed as the trailer; nothing is left on the stream. *)
Theorem C1_command_frame_decodes (m : MI48) (tag body : string) :
  String.length tag = 4%nat ->
  (4 <= String.length body)%nat ->
  slen (tag ++ body) < 65536 ->
  rx (serialPort m) = list_byte_of_string (frameCommand (tag ++ body)) ->
  readPacket m
  = (Ok (tag, firstn (String.length body - 4) (list_byte_of_string body)),
     afterReads [] (frameReads (firstn (String.length body - 4) (list_byte_of_string body))) m).
Proof.
  intros Htag Hbody Hlen Hrx.
  set (bb := list_byte_of_string body).
  assert (Lbb : List.length bb = String.length body)
    by apply list_byte_of_string_length.
  set (k := (String.length body - 4)%nat).
  assert (Ltr : List.length (skipn k bb) = 4%nat) by (rewrite length_skipn; lia).
  destruct (skipn k bb) as [|t0 [|t1 [|t2 [|t3 [|? ?]]]]] eqn:Etr; try discriminate.
  rewrite <- (string_of_list_byte_of_string tag) at 1.
  apply readPacket_frame with (l := slen (tag ++ body)) (t0 := t0) (t1 := t1)
                              (t2 := t2) (t3 := t3).
  - unfold slen in *. lia.
  - rewrite list_byte_of_string_length. exact Htag.
  - rewrite length_firstn. unfold slen, uint16 in *.
    rewrite string_length_app in *. rewrite Z.mod_small by lia. lia.
  - rewrite Hrx. unfold frameCommand, wireFrame.
    rewrite !list_byte_of_string_app, app_nil_r.
    rewrite <- Etr. fold bb. rewrite firstn_skipn. reflexivity.
Qed.

Lemma C1_command_frame_decodes_witness :
  readPacket (session0 (list_byte_of_string (frameCommand ("WREG" ++ "D514XXXX"))))
  = (Ok ("WREG", firstn (String.length "D514XXXX" - 4) (list_byte_of_string "D514XXXX")),
     afterReads []
       (frameReads (firstn (String.length "D514XXXX" - 4) (list_byte_of_string "D514XXXX")))
       (session0 (list_byte_of_string (frameCommand ("WREG" ++ "D514XXXX"))))).
Proof.
  apply (C1_command_frame_decodes
           (session0 (list_byte_of_string (frameCommand ("WREG" ++ "D514XXXX"))))
           "WREG" "D514XXXX").
  - reflexivity.
  - simpl. lia.
  - vm_compute. reflexivity.
  - reflexivity.
Defined.

(** ** One exchange of [sendCommand] *)

Lemma substring_length_ge (n : nat) (s : string) :
  (n <= String.length s)%nat -> String.length (substring 0 n s) = n.
Proof.
  revert s. induction n as [|n IH]; intros s H.
  - destruct s; reflexivity.
  - destruct s as [|c s]; simpl in *; [lia|]. rewrite IH; [reflexivity | lia].
Qed.

Lemma cmdType_nonempty (cmd : string) :
  (4 <= String.length cmd)%nat -> ("" =? substring 0 4 cmd)%string = false.
Proof.
  intros H. apply String.eqb_neq. intros E.
  pose proof (substring_length_ge 4 cmd H) as L. rewrite <- E in L. discriminate.
Qed.

(** When the next frame on the stream carries the command's own type tag,
    [sendCommand] writes the command frame, takes the lock, reads that frame,
    releases the lock and returns the frame's payload. *)
Lemma sendCommand_reply (m : MI48) (cmd : string) (l : Z)
  (payload rest : list byte) (t0 t1 t2 t3 : byte) :
  (4 <= String.length cmd)%nat ->
  wfail (serialPort m) = false ->
  readMutex m = false ->
  0 <= l < 65536 ->
  List.length payload = Z.to_nat (uint16 (l - 8)) ->
  rx (serialPort m)
  = wireFrame l (list_byte_of_string (substring 0 4 cmd)) payload [t0; t1; t2; t3] ++ rest ->
  sendCommand cmd m
  = (Ok payload,
     afterExchange [list_byte_of_string (frameCommand cmd)] rest
                   (exchangeEvents payload) m).
Proof.
  intros Hcmd Hw Hmx Hl Hpay Hrx.
  unfold sendCommand.
  assert (C : (String.length cmd <? 4)%nat = false) by (apply Nat.ltb_ge; exact Hcmd).
  rewrite C. unfold port_Write. cbn [logEvent serialPort]. rewrite Hw.
  cbn [withPort readMutex].
  change (readMutex (logEvent EvWrite m)) with (readMutex m). rewrite Hmx.
  set (m2 := logEvent EvLock _).
  remember (S (List.length (rx (serialPort m2)))) as fuel eqn:Ef. clear Ef.
  cbn [awaitResponse]. rewrite (cmdType_nonempty cmd Hcmd). cbn [negb].
  rewrite (readPacket_frame m2 l (list_byte_of_string (substring 0 4 cmd)) payload rest
             t0 t1 t2 t3 Hl).
  - rewrite string_of_list_byte_of_string.
    destruct fuel as [|fuel]; cbn [awaitResponse]; rewrite String.eqb_refl; cbn [negb].
    all: unfold exchangeEvents, m2; session_simpl.
    all: rewrite <- ?app_assoc; reflexivity.
  - rewrite list_byte_of_string_length. apply substring_length_ge. exact Hcmd.
  - exact Hpay.
  - exact Hrx.
Qed.

Lemma afterExchange_compose (m : MI48) f1 r1 e1 f2 r2 e2 :
  afterExchange f2 r2 e2 (afterExchange f1 r1 e1 m)
  = afterExchange (f1 ++ f2) r2 (e1 ++ e2) m.
Proof. unfold afterExchange. simpl. rewrite <- !app_assoc. reflexivity. Qed.

Lemma afterExchange_wfail (m : MI48) f r e :
  wfail (serialPort (afterExchange f r e m)) = false.
Proof. reflexivity. Qed.

Lemma afterExchange_readMutex (m : MI48) f r e :
  readMutex (afterExchange f r e m) = false.
Proof. reflexivity. Qed.

Lemma reply_length_ok (payload : list byte) :
  blen payload <= 65527 ->
  0 <= blen payload + 8 < 65536
  /\ List.length payload = Z.to_nat (uint16 (blen payload + 8 - 8)).
Proof.
  intros H. unfold blen, uint16 in *. split; [lia|].
  rewrite Z.mod_small by lia. lia.
Qed.

Lemma substring_tag (c0 c1 c2 c3 : ascii) (s : string) :
  substring 0 4 (String c0 (String c1 (String c2 (String c3 s))))
  = String c0 (String c1 (String c2 (String c3 ""))).
Proof. simpl. destruct s; reflexivity. Qed.

Lemma wregCommand_length (a v : Z) : (4 <= String.length (wregCommand a v))%nat.
Proof. unfold wregCommand. simpl. lia. Qed.

Lemma rregCommand_length (a : Z) : (4 <= String.length (rregCommand a))%nat.
Proof. unfold rregCommand. simpl. lia. Qed.

(** A write to a writable register that the device acknowledges with a
    [WREG] frame. *)
Lemma writeRegister_ack (m : MI48) (reg : register) (value : Z)
  (payload rest : list byte) (t0 t1 t2 t3 : byte) :
  ReadOnly reg = false ->
  wfail (serialPort m) = false ->
  readMutex m = false ->
  blen payload <= 65527 ->
  rx (serialPort m) = reply "WREG" payload [t0; t1; t2; t3] ++ rest ->
  writeRegister reg value m
  = (Ok tt,
     afterExchange [list_byte_of_string (frameCommand (wregCommand (Address reg) value))]
                   rest (exchangeEvents payload) m).
Proof.
  intros Hro Hw Hmx Hlen Hrx.
  destruct (reply_length_ok payload Hlen) as [Hl Hp].
  unfold writeRegister. rewrite Hro. unfold bind, wrap.
  rewrite (sendCommand_reply m _ (blen payload + 8) payload rest t0 t1 t2 t3
             (wregCommand_length _ _) Hw Hmx Hl Hp).
  - reflexivity.
  - unfold wregCommand. cbn [append]. rewrite substring_tag. exact Hrx.
Qed.

(** A read of one address that the device answers with an [RREG] frame. *)
Lemma sendCommand_rreg (m : MI48) (address : Z)
  (payload rest : list byte) (t0 t1 t2 t3 : byte) :
  wfail (serialPort m) = false ->
  readMutex m = false ->
  blen payload <= 65527 ->
  rx (serialPort m) = reply "RREG" payload [t0; t1; t2; t3] ++ rest ->
  sendCommand (rregCommand address) m
  = (Ok payload,
     afterExchange [list_byte_of_string (frameCommand (rregCommand address))]
                   rest (exchangeEvents payload) m).
Proof.
  intros Hw Hmx Hlen Hrx.
  destruct (reply_length_ok payload Hlen) as [Hl Hp].
  apply (sendCommand_reply m _ (blen payload + 8) payload rest t0 t1 t2 t3
           (rregCommand_length _) Hw Hmx Hl Hp).
  unfold rregCommand. cbn [append]. rewrite substring_tag. exact Hrx.
Qed.

(** ** [readRegister] *)

Lemma afterExchange_nil (m : MI48) :
  wfail (serialPort m) = false -> readMutex m = false ->
  afterExchange [] (rx (serialPort m)) [] m = m.
Proof.
  destruct m as [[r t w] cm si fv mf ct mx ev]. simpl. intros -> ->.
  unfold afterExchange. simpl. rewrite !app_nil_r. reflexivity.
Qed.

Lemma readRegister_loop_answers (reg : register) (rest : list byte) :
  forall (rs : list answer) (fuel i : nat) (acc : list byte) (m : MI48),
    Z.of_nat i + Z.of_nat (List.length rs) = uint8 (Length reg) ->
    (List.length rs < fuel)%nat ->
    Forall answerOk rs ->
    wfail (serialPort m) = false ->
    readMutex m = false ->
    rx (serialPort m) = answers rs ++ rest ->
    readRegister_loop fuel reg (Z.of_nat i) acc m
    = (Ok (acc ++ payloads rs),
       afterExchange (readFrames (Address reg) i (List.length rs)) rest
                     (answerEvents rs) m).
Proof.
  induction rs as [|[p [[[t0 t1] t2] t3]] rs IH]; intros fuel i acc m Hn Hf Hok Hw Hmx Hrx.
  - cbn [List.length] in *. destruct fuel as [|fuel]; [lia|].
    cbn [readRegister_loop].
    assert (C : (Z.of_nat i <? uint8 (Length reg)) = false) by (apply Z.ltb_ge; lia).
    rewrite C. unfold ret, payloads, readFrames, answerEvents.
    cbn [map List.concat seq].
    rewrite app_nil_r. unfold answers in Hrx. cbn [map List.concat app] in Hrx.
    rewrite <- Hrx.
    rewrite afterExchange_nil by assumption. reflexivity.
  - cbn [List.length] in *. destruct fuel as [|fuel]; [lia|].
    cbn [readRegister_loop].
    assert (C : (Z.of_nat i <? uint8 (Length reg)) = true) by (apply Z.ltb_lt; lia).
    rewrite C.
    inversion Hok as [|? ? [Hne Hlen] Hok']; subst. cbn [fst] in Hne, Hlen.
    unfold answers in Hrx. cbn [map List.concat answerFrame] in Hrx.
    rewrite <- app_assoc in Hrx.
    unfold bind, wrap.
    rewrite (sendCommand_rreg m _ p (List.concat (map answerFrame rs) ++ rest) t0 t1 t2 t3
               Hw Hmx Hlen Hrx).
    assert (Cz : (blen p =? 0) = false).
    { apply Z.eqb_neq. unfold blen. destruct p; [congruence | simpl; lia]. }
    rewrite Cz.
    assert (Hb : uint8 (Length reg) < 256) by (unfold uint8; apply Z.mod_pos_bound; lia).
    assert (Ei : uint8 (Z.of_nat i + 1) = Z.of_nat (S i)).
    { unfold uint8 in *. rewrite Z.mod_small; lia. }
    rewrite Ei.
    rewrite (IH fuel (S i) (acc ++ p) _); try assumption; try reflexivity; try lia.
    rewrite afterExchange_compose.
    unfold payloads, readFrames, answerEvents. cbn [map List.concat seq fst app].
    rewrite <- app_assoc. reflexivity.
Qed.

Lemma readRegister_answers (reg : register) (rs : list answer) (rest : list byte)
  (m : MI48) :
  List.length rs = Z.to_nat (uint8 (Length reg)) ->
  Forall answerOk rs ->
  wfail (serialPort m) = false ->
  readMutex m = false ->
  rx (serialPort m) = answers rs ++ rest ->
  readRegister reg m
  = (match hexDecode (payloads rs) with
     | inl value => Ok value
     | inr e => Err (Wrapf "failed to decode register value" e)
     end,
     afterExchange (readFrames (Address reg) 0 (List.length rs)) rest
                   (answerEvents rs) m).
Proof.
  intros Hn Hok Hw Hmx Hrx.
  assert (Hb : 0 <= uint8 (Length reg) < 256) by (unfold uint8; apply Z.mod_pos_bound; lia).
  unfold readRegister, bind.
  change 0 with (Z.of_nat 0).
  rewrite (readRegister_loop_answers reg rest rs 256 0 [] m); try assumption; try lia.
  cbn [app]. unfold DecodeString. rewrite list_byte_of_string_of_list_byte.
  destruct (hexDecode (payloads rs)); reflexivity.
Qed.

(** ** C5: the reads of [readRegister] *)

(** C5, as stated, fails: for the descriptor of length 256 at address 0 the
    loop bound [uint8(reg.Length)] is 0, so no read command is written and
    the result is empty, although the device has 256 answers ready. *)
Lemma C5_length_256_counterexample :
  let m := session0 (answers (repeat (list_byte_of_string "00", crc0) 256)) in
  readRegister (mkRegister 0 256 true) m = (Ok [], m)
  /\ tx (serialPort (snd (readRegister (mkRegister 0 256 true) m)))
     <> readFrames 0 0 256.
Proof. split; [vm_compute; reflexivity | vm_compute; discriminate]. Qed.

(** C5, amended: for every register descriptor, with [n = uint8(reg.Length)]
    (the length itself when it lies in 0..255), if the device answers each
    read with a non-empty [RREG] frame, [readRegister] writes exactly [n]
    single-address read commands, at the addresses [uint8(address + i)] for
    [i = 0 .. n-1] in this order (address, address+1, ..., address+n-1 when
    these stay below 256), consumes exactly the [n] answers, and returns the
    hex-decoding of the concatenation of the [n] payloads in that order (the
    decoding error when they are not hex). *)
Theorem C5_readRegister_reads (reg : register) (rs : list answer)
  (rest : list byte) (m : MI48) :
  List.length rs = Z.to_nat (uint8 (Length reg)) ->
  Forall answerOk rs ->
  wfail (serialPort m) = false ->
  readMutex m = false ->
  rx (serialPort m) = answers rs ++ rest ->
  fst (readRegister reg m)
  = match hexDecode (payloads rs) with
    | inl value => Ok value
    | inr e => Err (Wrapf "failed to decode register value" e)
    end
  /\ tx (serialPort (snd (readRegister reg m)))
     = tx (serialPort m)
         ++ map (fun i => list_byte_of_string
                            (frameCommand (rregCommand (uint8 (Address reg + Z.of_nat i)))))
                (seq 0 (Z.to_nat (uint8 (Length reg))))
  /\ rx (serialPort (snd (readRegister reg m))) = rest.
Proof.
  intros Hn Hok Hw Hmx Hrx.
  rewrite (readRegister_answers reg rs rest m Hn Hok Hw Hmx Hrx).
  rewrite Hn. repeat split.
Qed.

Lemma C5_readRegister_reads_witness :
  let rs := [(list_byte_of_string "18", crc0); (list_byte_of_string "0C", crc0);
             (list_byte_of_string "A1", crc0); (list_byte_of_string "00", crc0);
             (list_byte_of_string "12", crc0); (list_byte_of_string "34", crc0)] in
  let m := session0 (answers rs ++ []) in
  fst (readRegister SENXOR_ID m)
  = match hexDecode (payloads rs) with
    | inl value => Ok value
    | inr e => Err (Wrapf "failed to decode register value" e)
    end
  /\ tx (serialPort (snd (readRegister SENXOR_ID m)))
     = tx (serialPort m)
         ++ map (fun i => list_byte_of_string
                            (frameCommand (rregCommand (uint8 (Address SENXOR_ID + Z.of_nat i)))))
                (seq 0 (Z.to_nat (uint8 (Length SENXOR_ID))))
  /\ rx (serialPort (snd (readRegister SENXOR_ID m))) = [].
Proof.
  intros rs m.
  apply (C5_readRegister_reads SENXOR_ID rs [] m).
  - reflexivity.
  - unfold rs, answerOk. repeat constructor; simpl; try discriminate; try lia.
  - reflexivity.
  - reflexivity.
  - reflexivity.
Defined.

(** ** Reads leave everything but the stream and the trace alone *)

Lemma readsOnly_refl (m : MI48) : readsOnly m m.
Proof.
  unfold readsOnly. do 8 (split; [reflexivity|]). split; [lia|].
  exists []. rewrite app_nil_r. split; [reflexivity | constructor].
Qed.

Lemma readsOnly_trans (m1 m2 m3 : MI48) :
  readsOnly m1 m2 -> readsOnly m2 m3 -> readsOnly m1 m3.
Proof.
  unfold readsOnly.
  intros (A1 & A2 & A3 & A4 & A5 & A6 & A7 & A8 & A9 & e1 & E1 & F1)
         (B1 & B2 & B3 & B4 & B5 & B6 & B7 & B8 & B9 & e2 & E2 & F2).
  do 8 (split; [congruence|]). split; [lia|].
  exists (e1 ++ e2). split.
  - rewrite E2, E1, app_assoc. reflexivity.
  - apply Forall_app. split; assumption.
Qed.

Lemma readsOnly_read (m : MI48) (n : nat) :
  readsOnly m (logEvent EvRead (withRx (skipn n (rx (serialPort m))) m)).
Proof.
  unfold readsOnly. session_simpl. do 8 (split; [reflexivity|]). split.
  - rewrite length_skipn. lia.
  - exists [EvRead]. split; [reflexivity | repeat constructor].
Qed.

Lemma io_ReadFull_readsOnly (buf : list byte) (m : MI48) :
  readsOnly m (snd (io_ReadFull buf m)).
Proof.
  unfold io_ReadFull. destruct (List.length buf) as [|n] eqn:E.
  - apply readsOnly_refl.
  - destruct (S n <=? List.length (rx (serialPort m)))%nat;
      [|destruct (rx (serialPort m)) eqn:R; [|rewrite <- R]];
      cbn [snd]; try rewrite <- R; apply readsOnly_read.
Qed.

Lemma port_Read_readsOnly (buf : list byte) (m : MI48) :
  readsOnly m (snd (port_Read buf m)).
Proof.
  unfold port_Read. destruct (rx (serialPort m)) eqn:R; cbn [snd]; rewrite <- R;
    apply readsOnly_read.
Qed.

Lemma readHeader_readsOnly (fuel : nat) :
  forall (header : list byte) (err : option error) (m : MI48),
    readsOnly m (snd (readHeader fuel header err m)).
Proof.
  induction fuel as [|fuel IH]; intros header err m; cbn [readHeader].
  - destruct (negb _); [destruct err|]; apply readsOnly_refl.
  - destruct (negb _); [destruct err|]; try apply readsOnly_refl.
    pose proof (io_ReadFull_readsOnly header m) as R.
    destruct (io_ReadFull header m) as [[h' e'] m'].
    eapply readsOnly_trans; [exact R | apply IH].
Qed.

Lemma readPacket_readsOnly (m : MI48) : readsOnly m (snd (readPacket m)).
Proof.
  unfold readPacket.
  pose proof (readHeader_readsOnly (S (S (List.length (rx (serialPort m)))))
                (repeat x00 12) None m) as R.
  destruct (readHeader _ _ _ m) as [[header| | | |] m1]; cbn [snd] in R; try exact R.
  destruct (DecodeString _) as [len|e]; [|exact R].
  destruct (BigEndian_Uint16 len) as [l|]; [|exact R].
  pose proof (io_ReadFull_readsOnly (repeat x00 (Z.to_nat (uint16 (l - 8)))) m1) as R2.
  destruct (io_ReadFull _ m1) as [[data err] m2]. cbn [snd] in R2.
  destruct err as [e|].
  - cbn [snd]. eapply readsOnly_trans; eassumption.
  - pose proof (port_Read_readsOnly (repeat x00 4) m2) as R3.
    destruct (port_Read _ m2) as [[crc err] m3]. cbn [snd] in R3.
    destruct err; cbn [snd];
      (eapply readsOnly_trans; [exact R | eapply readsOnly_trans; eassumption]).
Qed.

Lemma awaitResponse_readsOnly (fuel : nat) :
  forall (cmdType packetType : string) (data : list byte) (err : option error)
         (m : MI48),
    readsOnly m (snd (awaitResponse fuel cmdType packetType data err m)).
Proof.
  induction fuel as [|fuel IH]; intros cmdType packetType data err m;
    cbn [awaitResponse].
  - destruct (negb _); [destruct err|]; apply readsOnly_refl.
  - destruct (negb _); [destruct err|]; try apply readsOnly_refl.
    pose proof (readPacket_readsOnly m) as R.
    destruct (readPacket m) as [[[pt d]|e| | |] m']; cbn [snd] in R; try exact R;
      (eapply readsOnly_trans; [exact R | apply IH]).
Qed.

(** Whatever the device answers, [sendCommand] writes the command frame once,
    before anything else. *)
Lemma sendCommand_tx (cmd : string) (m : MI48) :
  (4 <= String.length cmd)%nat ->
  wfail (serialPort m) = false ->
  tx (serialPort (snd (sendCommand cmd m)))
  = tx (serialPort m) ++ [list_byte_of_string (frameCommand cmd)].
Proof.
  intros Hcmd Hw. unfold sendCommand.
  assert (C : (String.length cmd <? 4)%nat = false) by (apply Nat.ltb_ge; exact Hcmd).
  rewrite C. unfold port_Write. cbn [logEvent serialPort]. rewrite Hw.
  cbn [withPort readMutex].
  destruct (readMutex (logEvent EvWrite m)); [reflexivity|].
  match goal with |- context [awaitResponse ?f ?c ?p ?d ?e ?m2] =>
    pose proof (awaitResponse_readsOnly f c p d e m2) as R;
    destruct (awaitResponse f c p d e m2) as [r m3] end.
  cbn [snd] in *. destruct R as (T & _). session_simpl.
  rewrite T. reflexivity.
Qed.

Lemma writeRegister_tx (reg : register) (value : Z) (m : MI48) :
  ReadOnly reg = false ->
  wfail (serialPort m) = false ->
  tx (serialPort (snd (writeRegister reg value m)))
  = tx (serialPort m)
      ++ [list_byte_of_string (frameCommand (wregCommand (Address reg) value))].
Proof.
  intros Hro Hw. unfold writeRegister. rewrite Hro. unfold bind, wrap.
  pose proof (sendCommand_tx (wregCommand (Address reg) value) m
                (wregCommand_length _ _) Hw) as T.
  destruct (sendCommand _ m) as [[d|e| | |] m']; exact T.
Qed.

(** ** The loops of the model have fuel enough *)

Lemma io_ReadFull_progress (buf : list byte) (m : MI48) :
  buf <> [] ->
  fst (fst (io_ReadFull buf m)) <> []
  /\ (snd (fst (io_ReadFull buf m)) = None ->
      (List.length (rx (serialPort (snd (io_ReadFull buf m))))
       < List.length (rx (serialPort m)))%nat).
Proof.
  intros Hne. unfold io_ReadFull.
  destruct buf as [|b buf]; [congruence|]. cbn [List.length].
  destruct (S (List.length buf) <=? List.length (rx (serialPort m)))%nat eqn:C.
  - apply Nat.leb_le in C. cbn [fst snd]. session_simpl. split.
    + destruct (rx (serialPort m)); simpl in *; [lia | discriminate].
    + intros _. rewrite length_skipn. lia.
  - destruct (rx (serialPort m)) eqn:R; cbn [fst snd]; split;
      try discriminate.
Qed.

Lemma readHeader_fuel (fuel : nat) :
  forall (header : list byte) (err : option error) (m : MI48),
    header <> [] ->
    (err = None -> (List.length (rx (serialPort m)) < fuel)%nat) ->
    fst (readHeader fuel header err m) <> OutOfFuel
    /\ fst (readHeader fuel header err m) <> Blocked.
Proof.
  induction fuel as [|fuel IH]; intros header err m Hne Hf; cbn [readHeader].
  - destruct (negb _); [|split; discriminate].
    destruct err; [split; discriminate|]. specialize (Hf eq_refl). lia.
  - destruct (negb _); [|split; discriminate].
    destruct err; [split; discriminate|]. specialize (Hf eq_refl).
    pose proof (io_ReadFull_progress header m Hne) as [P1 P2].
    destruct (io_ReadFull header m) as [[h' e'] m']. cbn [fst snd] in *.
    apply IH; [exact P1|]. intros ->. specialize (P2 eq_refl). lia.
Qed.

(** [readPacket] always comes to a value, an error or a panic, and when it
    comes to a value it has consumed at least one byte. *)
Lemma readPacket_total (m : MI48) :
  fst (readPacket m) <> OutOfFuel /\ fst (readPacket m) <> Blocked
  /\ (forall r, fst (readPacket m) = Ok r ->
        (List.length (rx (serialPort (snd (readPacket m))))
         < List.length (rx (serialPort m)))%nat).
Proof.
  unfold readPacket.
  pose proof (readHeader_fuel (S (S (List.length (rx (serialPort m)))))
                (repeat x00 12) None m) as F.
  pose proof (readHeader_readsOnly (S (S (List.length (rx (serialPort m)))))
                (repeat x00 12) None m) as R.
  destruct F as [F1 F2]; [discriminate | intros _; lia |].
  destruct (readHeader _ _ _ m) as [[header| | | |] m1]; cbn [fst snd] in *;
    try congruence; try (repeat split; discriminate).
  destruct R as (_ & _ & _ & _ & _ & _ & _ & _ & L1 & _).
  destruct (DecodeString _) as [len|e]; [|repeat split; discriminate].
  destruct (BigEndian_Uint16 len) as [l|]; [|repeat split; discriminate].
  pose proof (io_ReadFull_readsOnly (repeat x00 (Z.to_nat (uint16 (l - 8)))) m1) as R2.
  destruct (io_ReadFull _ m1) as [[data err] m2]. cbn [snd] in R2.
  destruct R2 as (_ & _ & _ & _ & _ & _ & _ & _ & L2 & _).
  destruct err as [e|]; [repeat split; discriminate|].
  unfold port_Read.
  destruct (rx (serialPort m2)) as [|b avail] eqn:A; cbn [fst snd];
    [repeat split; discriminate|].
  repeat split; try discriminate. intros r _. session_simpl.
  rewrite length_skipn, repeat_length. cbn [List.length] in *. lia.
Qed.

Lemma awaitResponse_fuel (fuel : nat) :
  forall (cmdType packetType : string) (data : list byte) (err : option error)
         (m : MI48),
    (err = None -> (List.length (rx (serialPort m)) < fuel)%nat) ->
    fst (awaitResponse fuel cmdType packetType data err m) <> OutOfFuel
    /\ fst (awaitResponse fuel cmdType packetType data err m) <> Blocked.
Proof.
  induction fuel as [|fuel IH]; intros cmdType packetType data err m Hf;
    cbn [awaitResponse].
  - destruct (negb _); [|destruct err; split; discriminate].
    destruct err; [split; discriminate|]. specialize (Hf eq_refl). lia.
  - destruct (negb _); [|destruct err; split; discriminate].
    destruct err; [split; discriminate|]. specialize (Hf eq_refl).
    pose proof (readPacket_total m) as (T1 & T2 & T3).
    destruct (readPacket m) as [[[pt d]|e| | |] m']; cbn [fst snd] in *;
      try congruence; try (split; discriminate).
    + apply IH. intros _. specialize (T3 _ eq_refl). lia.
    + apply IH. discriminate.
Qed.

(** [sendCommand] never runs out of fuel: on every session it returns, panics
    on a command without a type, or blocks on the mutex. *)
Lemma sendCommand_total (cmd : string) (m : MI48) :
  fst (sendCommand cmd m) <> OutOfFuel.
Proof.
  unfold sendCommand.
  destruct (String.length cmd <? 4)%nat; [discriminate|].
  unfold port_Write. cbn [logEvent serialPort].
  destruct (wfail (serialPort m)); [discriminate|].
  cbn [withPort readMutex].
  destruct (readMutex (logEvent EvWrite m)); [discriminate|].
  match goal with |- context [awaitResponse ?f ?c ?p ?d ?e ?m2] =>
    pose proof (awaitResponse_fuel f c p d e m2) as F;
    destruct (awaitResponse f c p d e m2) as [r m3] end.
  cbn [fst] in *. apply F. intros _. session_simpl. lia.
Qed.

Lemma readRegister_loop_total (reg : register) (fuel : nat) :
  forall (i : Z) (acc : list byte) (m : MI48),
    0 <= i -> 256 <= i + Z.of_nat fuel ->
    fst (readRegister_loop fuel reg i acc m) <> OutOfFuel.
Proof.
  assert (Hb : 0 <= uint8 (Length reg) < 256)
    by (unfold uint8; apply Z.mod_pos_bound; lia).
  induction fuel as [|fuel IH]; intros i acc m Hi Hf; cbn [readRegister_loop].
  - assert (C : (i <? uint8 (Length reg)) = false) by (apply Z.ltb_ge; lia).
    rewrite C. discriminate.
  - destruct (i <? uint8 (Length reg)) eqn:C; [|discriminate].
    apply Z.ltb_lt in C. unfold bind, wrap.
    pose proof (sendCommand_total (rregCommand (uint8 (Address reg + i))) m) as T.
    destruct (sendCommand _ m) as [[d|e| | |] m']; cbn [fst] in *;
      try discriminate; try congruence.
    destruct (blen d =? 0); [discriminate|].
    assert (E : uint8 (i + 1) = i + 1) by (unfold uint8 in *; apply Z.mod_small; lia).
    rewrite E. apply IH; lia.
Qed.

Lemma readRegister_total (reg : register) (m : MI48) :
  fst (readRegister reg m) <> OutOfFuel.
Proof.
  unfold readRegister, bind.
  pose proof (readRegister_loop_total reg 256 0 [] m) as T.
  destruct (readRegister_loop 256 reg 0 [] m) as [[d|e| | |] m']; cbn [fst] in *;
    try discriminate.
  - destruct (DecodeString _); discriminate.
  - apply T; lia.
Qed.

(** ** C8: writes to read-only registers *)

(** C8: for every read-only register descriptor and every value,
    [writeRegister] fails with the error "register is read-only" and leaves
    the session as it was: nothing is written to the port, nothing is read,
    the mutex is not touched. *)
Theorem C8_writeRegister_readonly (reg : register) (value : Z) (m : MI48) :
  ReadOnly reg = true ->
  writeRegister reg value m = (Err (Errorf "register is read-only"), m).
Proof. intros H. unfold writeRegister. rewrite H. reflexivity. Qed.

Lemma C8_writeRegister_readonly_witness :
  writeRegister FW_VERSION 7 (session0 []) = (Err (Errorf "register is read-only"), session0 []).
Proof. apply (C8_writeRegister_readonly FW_VERSION 7 (session0 [])). reflexivity. Defined.

(** ** C9: the temperature offset *)

(** C9: [SetTemperatureOffset] divides the offset by the 0.05 step and writes
    to the offset register (0xCB) the integer part of [offset/0.05] when that
    is not negative, and of [256 - |offset/0.05|] when it is; for -5.0 the
    register value is 156 (0x9C) and for 2.5 it is 50 (0x32). The value is
    read off the command frame that goes out on the port. *)
Theorem C9_temperature_offset (m : MI48) :
  wfail (serialPort m) = false ->
  (forall offset : float,
      tx (serialPort (snd (SetTemperatureOffset offset m)))
      = tx (serialPort m)
          ++ [list_byte_of_string
                (frameCommand
                   (wregCommand 0xCB
                      (if (offset / f0_05 <? 0)%float
                       then uint8_of_float (256 - abs (offset / f0_05))%float
                       else uint8_of_float (offset / f0_05)%float)))])
  /\ uint8_of_float (256 - abs (-5 / f0_05))%float = 156
  /\ uint8_of_float (2.5 / f0_05)%float = 50
  /\ tx (serialPort (snd (SetTemperatureOffset (-5)%float m)))
     = tx (serialPort m) ++ [list_byte_of_string "   #000CWREGCB9CXXXX"]
  /\ tx (serialPort (snd (SetTemperatureOffset 2.5%float m)))
     = tx (serialPort m) ++ [list_byte_of_string "   #000CWREGCB32XXXX"].
Proof.
  intros Hw.
  assert (G : forall offset : float,
      tx (serialPort (snd (SetTemperatureOffset offset m)))
      = tx (serialPort m)
          ++ [list_byte_of_string
                (frameCommand
                   (wregCommand 0xCB
                      (if (offset / f0_05 <? 0)%float
                       then uint8_of_float (256 - abs (offset / f0_05))%float
                       else uint8_of_float (offset / f0_05)%float)))]).
  { intros offset. unfold SetTemperatureOffset, math_Abs.
    destruct (offset / f0_05 <? 0)%float;
      rewrite writeRegister_tx by (reflexivity || exact Hw); reflexivity. }
  split; [exact G|].
  split; [vm_compute; reflexivity|].
  split; [vm_compute; reflexivity|].
  split; rewrite G; f_equal.
Qed.

Lemma C9_temperature_offset_witness :
  tx (serialPort (snd (SetTemperatureOffset (-5)%float (session0 []))))
  = tx (serialPort (session0 [])) ++ [list_byte_of_string "   #000CWREGCB9CXXXX"].
Proof.
  apply (C9_temperature_offset (session0 [])). reflexivity.
Defined.

(** ** C7: the four writes of [SetNETD] *)

Lemma writeRegister_ackFrame (m : MI48) (reg : register) (value : Z)
  (a : answer) (rest : list byte) :
  ReadOnly reg = false ->
  wfail (serialPort m) = false ->
  readMutex m = false ->
  blen (fst a) <= 65527 ->
  rx (serialPort m) = ackFrame a ++ rest ->
  writeRegister reg value m
  = (Ok tt,
     afterExchange [list_byte_of_string (frameCommand (wregCommand (Address reg) value))]
                   rest (exchangeEvents (fst a)) m).
Proof.
  destruct a as [p [[[t0 t1] t2] t3]]. cbn [fst ackFrame].
  intros. apply writeRegister_ack with (t0 := t0) (t1 := t1) (t2 := t2) (t3 := t3);
    assumption.
Qed.

(** C7, as stated, fails: with Enabled off and RowInFrame on (the device
    acknowledging the four writes with empty [WREG] frames) the config byte
    written last is 0x00, so its bit 1 is not RowInFrame. *)
Lemma C7_rowInFrame_counterexample :
  let cfg := mkNETDConfig false true 0x14 0 0 in
  let m := session0 (ackFrame ([], crc0) ++ ackFrame ([], crc0)
                     ++ ackFrame ([], crc0) ++ ackFrame ([], crc0)) in
  fst (SetNETD cfg m) = Ok tt
  /\ tx (serialPort (snd (SetNETD cfg m)))
     = [list_byte_of_string "   #000CWREGD514XXXX";
        list_byte_of_string "   #000CWREGD700XXXX";
        list_byte_of_string "   #000CWREGD600XXXX";
        list_byte_of_string "   #000CWREGD400XXXX"]
  /\ netd_config cfg = 0
  /\ Z.testbit (netd_config cfg) 1 <> RowInFrame cfg.
Proof.
  repeat split; try (vm_compute; reflexivity). vm_compute. discriminate.
Qed.

(** C7, amended: for every NETDConfig, when the device acknowledges each
    write, SetNETD performs exactly four register writes, in the order
    factor (0xD5), pixel Y (0xD7), pixel X (0xD6), and the config byte (0xD4)
    last; the config byte has bit 0 equal to Enabled and bit 1 equal to
    Enabled and RowInFrame together (RowInFrame is dropped while Enabled is
    off), and no other bit. *)
Theorem C7_SetNETD_writes (cfg : NETDConfig) (a1 a2 a3 a4 : answer)
  (rest : list byte) (m : MI48) :
  wfail (serialPort m) = false ->
  readMutex m = false ->
  blen (fst a1) <= 65527 -> blen (fst a2) <= 65527 ->
  blen (fst a3) <= 65527 -> blen (fst a4) <= 65527 ->
  rx (serialPort m) = ackFrame a1 ++ ackFrame a2 ++ ackFrame a3 ++ ackFrame a4 ++ rest ->
  SetNETD cfg m
  = (Ok tt,
     afterExchange
       [list_byte_of_string (frameCommand (wregCommand 0xD5 (Factor cfg)));
        list_byte_of_string (frameCommand (wregCommand 0xD7 (Y cfg)));
        list_byte_of_string (frameCommand (wregCommand 0xD6 (X cfg)));
        list_byte_of_string (frameCommand (wregCommand 0xD4 (netd_config cfg)))]
       rest
       (exchangeEvents (fst a1) ++ exchangeEvents (fst a2)
        ++ exchangeEvents (fst a3) ++ exchangeEvents (fst a4)) m)
  /\ Z.testbit (netd_config cfg) 0 = Enabled cfg
  /\ Z.testbit (netd_config cfg) 1 = Enabled cfg && RowInFrame cfg
  /\ (forall i, 2 <= i -> Z.testbit (netd_config cfg) i = false).
Proof.
  intros Hw Hmx H1 H2 H3 H4 Hrx. split.
  - unfold SetNETD, bind, wrap.
    rewrite (writeRegister_ackFrame m NETD_FACTOR _ a1 _ eq_refl Hw Hmx H1 Hrx).
    erewrite (writeRegister_ackFrame _ NETD_PIXEL_Y _ a2) by (reflexivity || assumption).
    erewrite (writeRegister_ackFrame _ NETD_PIXEL_X _ a3) by (reflexivity || assumption).
    erewrite (writeRegister_ackFrame _ NETD_CONFIG _ a4) by (reflexivity || assumption).
    rewrite !afterExchange_compose. unfold ret. cbn [app Address NETD_FACTOR
      NETD_PIXEL_Y NETD_PIXEL_X NETD_CONFIG]. rewrite <- ?app_assoc. reflexivity.
  - unfold netd_config.
    destruct (Enabled cfg), (RowInFrame cfg); cbn [andb];
      (split; [reflexivity | split; [reflexivity|]]);
      intros i Hi; cbn [Z.lor Pos.lor];
      try apply Z.testbit_0_l;
      (destruct i as [|p|p]; [lia | destruct p as [p|p|]; try reflexivity; try (destruct p; reflexivity); lia | reflexivity]).
Qed.

Lemma C7_SetNETD_writes_witness :
  fst (SetNETD (mkNETDConfig true true 0x14 3 5)
         (session0 (ackFrame ([], crc0) ++ ackFrame ([], crc0) ++ ackFrame ([], crc0)
                    ++ ackFrame ([], crc0) ++ [])))
  = Ok tt
  /\ Z.testbit (netd_config (mkNETDConfig true true 0x14 3 5)) 1 = true.
Proof.
  destruct (C7_SetNETD_writes (mkNETDConfig true true 0x14 3 5)
              ([], crc0) ([], crc0) ([], crc0) ([], crc0) []
              (session0 (ackFrame ([], crc0) ++ ackFrame ([], crc0)
                         ++ ackFrame ([], crc0) ++ ackFrame ([], crc0) ++ [])))
    as (R & _ & B1 & _).
  - reflexivity.
  - reflexivity.
  - vm_compute. discriminate.
  - vm_compute. discriminate.
  - vm_compute. discriminate.
  - vm_compute. discriminate.
  - reflexivity.
  - split; [rewrite R; reflexivity | exact B1].
Defined.

(** ** C6: undersized image frames *)

Lemma sensorSize_pix_bound (t : Z) :
  (List.length (image.Pix (image.NewGray16 (sensorSize t))) <= Z.to_nat 38400)%nat.
Proof.
  unfold image.NewGray16. cbn [image.Pix]. rewrite repeat_length.
  unfold sensorSize, sensorSizes. cbn [lookup].
  repeat match goal with |- context [if ?c then _ else _] => destruct c end.
  all: match goal with |- (Z.to_nat ?z <= _)%nat =>
         let z' := eval vm_compute in z in change z with z' end; lia.
Qed.

(** The first frame of a stream: when the goroutine has not locked the mutex
    yet and the frame it decodes is a GFRA frame whose payload has fewer
    bytes than the pixel buffer of the session's geometry, the goroutine
    returns, the channel is closed, and the frames in the channel are those
    that were there before: the undersized frame is not delivered. *)
Lemma streamLoop_undersized_first_frame (fuel : nat) (done : nat -> bool) (i : nat)
  (ch : Stream) (m : MI48) (data rest : list byte) (t0 t1 t2 t3 : byte) :
  done i = false ->
  readMutex m = false ->
  rx (serialPort m) = reply "GFRA" data [t0; t1; t2; t3] ++ rest ->
  (List.length data
   < List.length (image.Pix (image.NewGray16 (sensorSize (cameraType m)))))%nat ->
  fst (streamLoop (S fuel) done i ch m)
  = (Ok tt, mkStream (videoStream ch) true).
Proof.
  intros Hd Hmx Hrx Hlt.
  pose proof (sensorSize_pix_bound (cameraType m)) as Hb.
  assert (Hlen : blen data <= 65527) by (unfold blen; lia).
  destruct (reply_length_ok data Hlen) as [Hl Hp].
  cbn [streamLoop]. rewrite Hd, Hmx.
  rewrite (readPacket_frame (logEvent EvLock (withMutex true m)) (blen data + 8)
             (list_byte_of_string "GFRA") data rest t0 t1 t2 t3 Hl eq_refl Hp Hrx).
  rewrite string_of_list_byte_of_string. rewrite String.eqb_refl.
  change (cameraType (afterReads rest (frameReads data)
                        (logEvent EvLock (withMutex true m))))
    with (cameraType m).
  assert (C : (blen data <? blen (image.Pix (image.NewGray16 (sensorSize (cameraType m)))))
              = true) by (apply Z.ltb_lt; unfold blen; lia).
  rewrite C. reflexivity.
Qed.

Lemma streamLoop_undersized_first_frame_example :
  fst (streamLoop 3 (fun _ => false) 0 (mkStream [] false)
         (setCameraType 2
            (session0 (reply "GFRA" (list_byte_of_string "0123456789") [x43; x52; x43; x5f]
                       ++ []))))
  = (Ok tt, mkStream [] true).
Proof.
  apply (streamLoop_undersized_first_frame 2 (fun _ => false) 0 (mkStream [] false)
           (setCameraType 2
              (session0 (reply "GFRA" (list_byte_of_string "0123456789") [x43; x52; x43; x5f]
                         ++ [])))
           (list_byte_of_string "0123456789") [] x43 x52 x43 x5f).
  - reflexivity.
  - reflexivity.
  - reflexivity.
  - vm_compute. lia.
Defined.

(** A full-size image frame on a free mutex: the goroutine sends it and goes
    round the loop with the mutex still locked. *)
Lemma streamLoop_full_frame (fuel : nat) (done : nat -> bool) (i : nat) (ch : Stream)
  (m : MI48) (data rest : list byte) (t0 t1 t2 t3 : byte) :
  done i = false ->
  readMutex m = false ->
  rx (serialPort m) = reply "GFRA" data [t0; t1; t2; t3] ++ rest ->
  (List.length (image.Pix (image.NewGray16 (sensorSize (cameraType m))))
   <= List.length data)%nat ->
  blen data <= 65527 ->
  (List.length (videoStream ch) < 10)%nat ->
  streamLoop (S fuel) done i ch m
  = streamLoop fuel done (S i)
      (mkStream
         (videoStream ch
          ++ [image.mkGray16
                (skipn (List.length data
                        - List.length
                            (image.Pix (image.NewGray16 (sensorSize (cameraType m)))))
                       data)
                (2 * image.Dx (sensorSize (cameraType m)))
                (sensorSize (cameraType m))])
         (closed ch))
      (afterReads rest (frameReads data) (logEvent EvLock (withMutex true m))).
Proof.
  intros Hd Hmx Hrx Hge Hlen Hroom.
  destruct (reply_length_ok data Hlen) as [Hl Hp].
  cbn [streamLoop]. rewrite Hd, Hmx.
  rewrite (readPacket_frame (logEvent EvLock (withMutex true m)) (blen data + 8)
             (list_byte_of_string "GFRA") data rest t0 t1 t2 t3 Hl eq_refl Hp Hrx).
  rewrite string_of_list_byte_of_string. rewrite String.eqb_refl.
  change (cameraType (afterReads rest (frameReads data)
                        (logEvent EvLock (withMutex true m))))
    with (cameraType m).
  assert (C : (blen data <? blen (image.Pix (image.NewGray16 (sensorSize (cameraType m)))))
              = false) by (apply Z.ltb_ge; unfold blen; lia).
  rewrite C.
  assert (R : (List.length (videoStream ch) <? 10)%nat = true)
    by (apply Nat.ltb_lt; exact Hroom).
  rewrite R. reflexivity.
Qed.

(** The goroutine locks the mutex at the top of every iteration and never
    unlocks it, so an iteration that starts with the mutex locked reads
    nothing: it returns when the context is cancelled and blocks otherwise,
    with the port and the channel as they were. *)
Lemma streamLoop_locked_blocks (fuel : nat) (done : nat -> bool) (i : nat) (ch : Stream)
  (m : MI48) :
  done i = false ->
  readMutex m = true ->
  streamLoop (S fuel) done i ch m = (Blocked, ch, m).
Proof.
  intros Hd Hmx. cbn [streamLoop]. rewrite Hd, Hmx. reflexivity.
Qed.

(** C6: an undersized image frame that is not the first frame of the stream
    does not end the stream. On a session of camera type 2 (32 by 32 pixels,
    2048 bytes) whose context is never cancelled, with a full-size GFRA frame
    followed by a GFRA frame of ten bytes on the port, the goroutine sends
    the first frame and then blocks on the mutex it locked itself: it does
    not return, the channel is not closed, and the undersized frame stays
    unread on the port. *)
Theorem C6_undersized_second_frame_blocks :
  let full := reply "GFRA" (repeat x30 2048) [x43; x52; x43; x5f] in
  let small := reply "GFRA" (list_byte_of_string "0123456789") [x43; x52; x43; x5f] in
  forall fuel : nat,
    let r := streamLoop (S (S fuel)) (fun _ => false) 0 (mkStream [] false)
               (setCameraType 2 (session0 (full ++ small))) in
    fst (fst r) = Blocked
    /\ closed (snd (fst r)) = false
    /\ videoStream (snd (fst r))
       = [image.mkGray16 (repeat x30 2048) 64 (image.Rect 0 0 32 32)]
    /\ rx (serialPort (snd r)) = small
    /\ (List.length (list_byte_of_string "0123456789")
        < List.length (image.Pix (image.NewGray16 (sensorSize 2))))%nat.
Proof.
  intros full small fuel r. subst r.
  rewrite (streamLoop_full_frame (S fuel) (fun _ => false) 0 (mkStream [] false)
             (setCameraType 2 (session0 (full ++ small)))
             (repeat x30 2048) small x43 x52 x43 x5f
             eq_refl eq_refl eq_refl
             ltac:(vm_compute; lia) ltac:(vm_compute; discriminate)
             ltac:(cbn; lia)).
  rewrite streamLoop_locked_blocks by reflexivity.
  cbn [fst snd closed videoStream].
  split; [reflexivity|]. split; [reflexivity|].
  split; [vm_compute; reflexivity|].
  split; [reflexivity|]. vm_compute. lia.
Qed.

(** ** C2: the mutex and the port *)

Lemma guarded_reads_held (needsLock : event -> bool) (reads : list event) :
  Forall (eq EvRead) reads -> guarded needsLock true reads = true.
Proof.
  induction 1 as [|e reads E _ IH]; [reflexivity|]. subst e.
  cbn [guarded]. rewrite orb_true_r. exact IH.
Qed.

Lemma guarded_reads_then_unlock (reads : list event) :
  Forall (eq EvRead) reads ->
  guarded isRead true (reads ++ [EvUnlock]) = true
  /\ heldAfter true (reads ++ [EvUnlock]) = false.
Proof.
  induction 1 as [|e reads E _ IH]; [split; reflexivity|]. subst e.
  cbn [app guarded heldAfter isRead negb orb andb]. exact IH.
Qed.

(** The trace of one [sendCommand]: nothing (the command is too short to
    have a type), the write alone (it failed, or the mutex is taken), or the
    write, the lock, reads only, and the unlock. *)
Lemma sendCommand_trace (cmd : string) (m : MI48) :
  exists tr,
    events (snd (sendCommand cmd m)) = events m ++ tr
    /\ (tr = [] \/ tr = [EvWrite]
        \/ exists reads, Forall (eq EvRead) reads
                         /\ tr = EvWrite :: EvLock :: reads ++ [EvUnlock]).
Proof.
  unfold sendCommand.
  destruct (String.length cmd <? 4)%nat.
  { exists []. rewrite app_nil_r. split; [reflexivity | left; reflexivity]. }
  unfold port_Write. cbn [logEvent serialPort].
  destruct (wfail (serialPort m)).
  { exists [EvWrite]. split; [reflexivity | right; left; reflexivity]. }
  cbn [withPort readMutex].
  destruct (readMutex (logEvent EvWrite m)).
  { exists [EvWrite]. split; [reflexivity | right; left; reflexivity]. }
  match goal with |- context [awaitResponse ?f ?c ?p ?d ?e ?m2] =>
    pose proof (awaitResponse_readsOnly f c p d e m2) as R;
    destruct (awaitResponse f c p d e m2) as [r m3] end.
  cbn [snd] in *.
  destruct R as (_ & _ & _ & _ & _ & _ & _ & _ & _ & reads & E & F).
  exists (EvWrite :: EvLock :: reads ++ [EvUnlock]). split.
  - session_simpl. rewrite E. session_simpl. rewrite <- !app_assoc. reflexivity.
  - right; right. exists reads. split; [exact F | reflexivity].
Qed.

Lemma streamLoop_locked (fuel : nat) (done : nat -> bool) (i : nat) (ch : Stream)
  (m : MI48) :
  readMutex m = true -> snd (streamLoop fuel done i ch m) = m.
Proof.
  intros H. destruct fuel as [|fuel]; cbn [streamLoop]; [reflexivity|].
  destruct (done i); [reflexivity|]. rewrite H. reflexivity.
Qed.

(** The trace of the streaming goroutine: nothing, or a lock followed by
    reads only. *)
Lemma streamLoop_trace (fuel : nat) (done : nat -> bool) (i : nat) (ch : Stream)
  (m : MI48) :
  exists tr,
    events (snd (streamLoop fuel done i ch m)) = events m ++ tr
    /\ (tr = [] \/ exists reads, Forall (eq EvRead) reads /\ tr = EvLock :: reads).
Proof.
  destruct fuel as [|fuel]; cbn [streamLoop].
  { exists []. rewrite app_nil_r. split; [reflexivity | left; reflexivity]. }
  destruct (done i).
  { exists []. rewrite app_nil_r. split; [reflexivity | left; reflexivity]. }
  destruct (readMutex m).
  { exists []. rewrite app_nil_r. split; [reflexivity | left; reflexivity]. }
  set (m1 := logEvent EvLock (withMutex true m)).
  pose proof (readPacket_readsOnly m1) as R.
  destruct (readPacket m1) as [[[pt d]|e| | |] m2]; cbn [snd] in R;
    destruct R as (_ & _ & _ & _ & _ & _ & _ & Hmx & _ & reads & E & F);
    exists (EvLock :: reads);
    (split; [| right; exists reads; split; [exact F | reflexivity]]).
  2-5: cbn [snd]; rewrite E; unfold m1; session_simpl;
       rewrite <- app_assoc; reflexivity.
  assert (L : readMutex m2 = true) by (rewrite Hmx; reflexivity).
  assert (Ev : events m2 = events m ++ EvLock :: reads).
  { rewrite E. unfold m1. session_simpl. rewrite <- app_assoc. reflexivity. }
  destruct (pt =? "GFRA")%string.
  - destruct (blen d <? _); [exact Ev|].
    destruct (List.length (videoStream ch) <? 10)%nat; [|exact Ev].
    rewrite streamLoop_locked by exact L. exact Ev.
  - rewrite streamLoop_locked by exact L. exact Ev.
Qed.

(** C2, as stated, fails: in the trace of a register write that the device
    acknowledges, the write to the port comes before the lock is taken, so
    not every access to the transport happens under the lock. *)
Lemma C2_write_before_lock_counterexample :
  events (snd (sendCommand (wregCommand 0xB1 2) (session0 (ackFrame ([], crc0)))))
  = [EvWrite; EvLock; EvRead; EvRead; EvUnlock]
  /\ guarded isAccess false
       (events (snd (sendCommand (wregCommand 0xB1 2) (session0 (ackFrame ([], crc0))))))
     = false.
Proof. split; vm_compute; reflexivity. Qed.

(** C2, amended: every read of the transport happens while the reading
    goroutine holds the mutex. [sendCommand] writes the command frame before
    it takes the lock; it then holds the lock over every read of the
    discard-and-retry loop and has released it when it returns. The
    streaming goroutine takes the lock before it decodes a frame, and reads
    the port only while it holds it. *)
Theorem C2_reads_under_lock :
  (forall (cmd : string) (m : MI48),
      exists tr,
        events (snd (sendCommand cmd m)) = events m ++ tr
        /\ guarded isRead false tr = true
        /\ heldAfter false tr = false
        /\ (tr = [] \/ tr = [EvWrite]
            \/ exists reads, Forall (eq EvRead) reads
                             /\ tr = EvWrite :: EvLock :: reads ++ [EvUnlock]))
  /\ (forall (fuel : nat) (done : nat -> bool) (i : nat) (ch : Stream) (m : MI48),
         exists tr,
           events (snd (streamLoop fuel done i ch m)) = events m ++ tr
           /\ guarded isRead false tr = true).
Proof.
  split.
  - intros cmd m. destruct (sendCommand_trace cmd m) as (tr & E & S).
    exists tr. split; [exact E|].
    destruct S as [-> | [-> | (reads & F & ->)]].
    + repeat split; try reflexivity. left; reflexivity.
    + repeat split; try reflexivity. right; left; reflexivity.
    + cbn [guarded heldAfter isRead negb orb andb].
      destruct (guarded_reads_then_unlock reads F) as [G H].
      split; [exact G|]. split; [exact H|].
      right; right. exists reads. split; [exact F | reflexivity].
  - intros fuel done i ch m.
    destruct (streamLoop_trace fuel done i ch m) as (tr & E & S).
    exists tr. split; [exact E|].
    destruct S as [-> | (reads & F & ->)]; [reflexivity|].
    cbn [guarded]. apply guarded_reads_held. exact F.
Qed.

(** The goroutine never unlocks: with two full-size image frames on the
    stream (32x32 pixels, camera type 2) it delivers the first and then
    blocks on its own lock; the channel stays open. *)
Lemma streamLoop_second_frame_blocks :
  let frame := reply "GFRA" (repeat x30 2048) [x43; x52; x43; x5f] in
  let r := streamLoop 5 (fun _ => false) 0 (mkStream [] false)
             (setCameraType 2 (session0 (frame ++ frame))) in
  fst (fst r) = Blocked
  /\ List.length (videoStream (snd (fst r))) = 1%nat
  /\ closed (snd (fst r)) = false
  /\ rx (serialPort (snd r)) = frame.
Proof. repeat split; vm_compute; reflexivity. Qed.

(** ** C3: what [readPacket] rejects *)

(** A length field that is not hex is a decode error. *)
Lemma readPacket_bad_length (m : MI48) (c0 c1 c2 c3 g0 g1 g2 g3 : byte)
  (rest : list byte) (e : error) :
  hexDecode [c0; c1; c2; c3] = inr e ->
  rx (serialPort m)
  = list_byte_of_string marker ++ [c0; c1; c2; c3] ++ [g0; g1; g2; g3] ++ rest ->
  fst (readPacket m) = Err (Wrapf "failed to decode packet length" e).
Proof.
  intros Hd Hrx. unfold readPacket.
  remember (S (List.length (rx (serialPort m)))) as fuel eqn:Ef. clear Ef.
  cbn [readHeader].
  change (negb (substring 0 4 (string_of_list_byte (repeat x00 12)) =? marker)%string)
    with true. cbv iota.
  pose proof (ReadFull_exact m [x20; x20; x20; x23; c0; c1; c2; c3; g0; g1; g2; g3] rest) as R.
  cbn [List.length] in R. rewrite R by (try discriminate; exact Hrx). clear R.
  destruct fuel as [|fuel]; cbn [readHeader]; rewrite marker_seen; cbn [negb];
    cbn [skipn firstn];
    unfold DecodeString; rewrite list_byte_of_string_of_list_byte, Hd; reflexivity.
Qed.

(** A payload that ends before the announced length is a decode error. *)
Lemma readPacket_short_payload (m : MI48) (l : Z) (tag data : list byte) :
  0 <= l < 65536 ->
  List.length tag = 4%nat ->
  (List.length data < Z.to_nat (uint16 (l - 8)))%nat ->
  rx (serialPort m)
  = list_byte_of_string marker ++ list_byte_of_string (fmt0X 4 l) ++ tag ++ data ->
  fst (readPacket m)
  = Err (Wrapf "failed to read data from serial port"
               (match data with [] => EOF | _ :: _ => ErrUnexpectedEOF end)).
Proof.
  intros Hl Htag Hshort Hrx.
  pose proof (lengthField_roundtrip l Hl) as Hf.
  unfold lengthFieldOk in Hf.
  destruct (list_byte_of_string (fmt0X 4 l)) as [|c0 [|c1 [|c2 [|c3 [|? ?]]]]] eqn:Ec;
    try discriminate.
  destruct (hexDecode [c0; c1; c2; c3]) as [len|] eqn:Ed; try discriminate.
  destruct (BigEndian_Uint16 len) as [l'|] eqn:Eu; try discriminate.
  apply Z.eqb_eq in Hf. subst l'.
  destruct tag as [|g0 [|g1 [|g2 [|g3 [|? ?]]]]]; try discriminate.
  change (list_byte_of_string marker) with [x20; x20; x20; x23] in Hrx.
  cbn [app] in Hrx.
  unfold readPacket.
  remember (S (List.length (rx (serialPort m)))) as fuel eqn:Ef. clear Ef.
  cbn [readHeader].
  change (negb (substring 0 4 (string_of_list_byte (repeat x00 12)) =? marker)%string)
    with true. cbv iota.
  pose proof (ReadFull_exact m [x20; x20; x20; x23; c0; c1; c2; c3; g0; g1; g2; g3] data) as R.
  cbn [List.length] in R. rewrite R by (try discriminate; exact Hrx). clear R.
  destruct fuel as [|fuel]; cbn [readHeader]; rewrite marker_seen; cbn [negb];
    cbn [skipn firstn];
    unfold DecodeString; rewrite list_byte_of_string_of_list_byte, Ed, Eu.
  all: unfold io_ReadFull; rewrite repeat_length.
  all: destruct (Z.to_nat (uint16 (l - 8))) as [|n] eqn:En; [lia|].
  all: unfold afterReads; cbn [serialPort rx].
  all: assert (C : (S n <=? List.length data)%nat = false) by (apply Nat.leb_gt; lia).
  all: rewrite C; destruct data; reflexivity.
Qed.

(** Every length field below 8 is taken for a payload length: the
    subtraction wraps to [65528 + l], and a stream that has that many bytes
    decodes without an error. *)
Lemma readPacket_length_below_8 (m : MI48) (l : Z) (tag payload rest : list byte)
  (t0 t1 t2 t3 : byte) :
  0 <= l < 8 ->
  List.length tag = 4%nat ->
  List.length payload = Z.to_nat (65528 + l) ->
  rx (serialPort m) = wireFrame l tag payload [t0; t1; t2; t3] ++ rest ->
  fst (readPacket m) = Ok (string_of_list_byte tag, payload).
Proof.
  intros Hl Htag Hpay Hrx.
  rewrite (readPacket_frame m l tag payload rest t0 t1 t2 t3); try assumption;
    try lia; [reflexivity|].
  rewrite Hpay. f_equal. unfold uint16.
  replace (l - 8) with (65528 + l + (-1) * 65536) by lia.
  rewrite Z.mod_add by lia. rewrite Z.mod_small; lia.
Qed.

(** C3, the failing input: a stream that opens with the length field [0004]
    and carries 65536 further bytes after the type tag. [readPacket] reports
    no error: it takes the wrapped difference [uint16(4 - 8) = 65532] as the
    payload length and returns 65532 bytes of payload. *)
Theorem C3_length_below_8_accepted :
  fst (readPacket
         (session0 (list_byte_of_string "   #0004RREG"
                    ++ repeat x30 (Z.to_nat 65532) ++ [x43; x52; x43; x5f])))
  = Ok ("RREG", repeat x30 (Z.to_nat 65532)).
Proof.
  rewrite (readPacket_frame _ 4 (list_byte_of_string "RREG")
             (repeat x30 (Z.to_nat 65532)) [] x43 x52 x43 x5f).
  - reflexivity.
  - lia.
  - reflexivity.
  - rewrite repeat_length. reflexivity.
  - unfold session0. cbn [serialPort rx]. unfold wireFrame.
    rewrite app_nil_r.
    change (list_byte_of_string "   #0004RREG")
      with (list_byte_of_string marker ++ list_byte_of_string "0004"
            ++ list_byte_of_string "RREG").
    rewrite <- !app_assoc.
    replace (fmt0X 4 4) with "0004" by (vm_compute; reflexivity).
    reflexivity.
Qed.

(** The trailer is read with a plain [Read]: a frame whose trailer stops
    after two bytes is accepted as well. *)
Lemma readPacket_short_trailer_accepted :
  fst (readPacket (session0 (list_byte_of_string "   #000ARREG03CR")))
  = Ok ("RREG", list_byte_of_string "03").
Proof. vm_compute. reflexivity. Qed.

(** A header that stops short but starts with the marker ends the header
    loop, and the error of the short read is overwritten; the stream being
    at its end, a later step fails in its place. *)
Lemma readPacket_short_header_fails_later :
  fst (readPacket (session0 (list_byte_of_string "   #0008RR") ))
  = Err (Wrapf "failed to read CRC from serial port" EOF)
  /\ fst (readPacket (session0 (list_byte_of_string "   #") ))
     = Err (Wrapf "failed to decode packet length" (InvalidByteError x00)).
Proof. split; vm_compute; reflexivity. Qed.

(** ** C4: [SetFramerate] *)

(** The guard of [SetFramerate]: a target that is zero or above MaxFPS is
    refused, and nothing is written. *)
Lemma SetFramerate_rejects (frameRate : float) (m : MI48) :
  (frameRate =? 0)%float || (MaxFPS m <? frameRate)%float = true ->
  SetFramerate frameRate m
  = ((0%float, Err (Errorf "invalid target frame rate, must be 0 < target < MaxFPS")), m).
Proof. intros H. unfold SetFramerate. rewrite H. reflexivity. Qed.

(** A target that passes the guard: the divisor [round(MaxFPS/target)] goes
    to the frame-rate register (0xB4) as a [uint8], and the rate returned is
    [MaxFPS/divisor]. *)
Lemma SetFramerate_accepts (frameRate : float) (m : MI48) (a : answer)
  (rest : list byte) :
  (frameRate =? 0)%float || (MaxFPS m <? frameRate)%float = false ->
  wfail (serialPort m) = false ->
  readMutex m = false ->
  blen (fst a) <= 65527 ->
  rx (serialPort m) = ackFrame a ++ rest ->
  let divisor := int_of_float (math_Round (MaxFPS m / frameRate)%float) in
  SetFramerate frameRate m
  = (((MaxFPS m / float_of_int divisor)%float, Ok tt),
     afterExchange [list_byte_of_string (frameCommand (wregCommand 0xB4 (uint8 divisor)))]
                   rest (exchangeEvents (fst a)) m).
Proof.
  intros Hg Hw Hmx Hlen Hrx divisor. unfold SetFramerate. rewrite Hg.
  fold divisor.
  rewrite (writeRegister_ackFrame m FRAME_RATE (uint8 divisor) a rest eq_refl Hw Hmx Hlen Hrx).
  reflexivity.
Qed.

Lemma divisorReproduced_all :
  forallb (fun d => divisorReproduced f25_5 d && divisorReproduced f28_57 d)
          (map (fun d => d + 1) (zrange 255)) = true.
Proof. vm_compute. reflexivity. Qed.

(** For the two known maximal rates and every divisor that fits the
    register, rounding [MaxFPS/actualRate] gives the divisor back. *)
Lemma divisor_reproduced (d : Z) :
  1 <= d <= 255 ->
  int_of_float (math_Round (f25_5 / (f25_5 / float_of_int d))%float) = d
  /\ int_of_float (math_Round (f28_57 / (f28_57 / float_of_int d))%float) = d.
Proof.
  intros H. pose proof divisorReproduced_all as A.
  rewrite forallb_forall in A. specialize (A d).
  assert (I : In d (map (fun d => d + 1) (zrange 255))).
  { apply in_map_iff. exists (d - 1). split; [lia | apply zrange_In; lia]. }
  apply A in I. apply andb_prop in I. destruct I as [I1 I2].
  unfold divisorReproduced in *. split; apply Z.eqb_eq; assumption.
Qed.

(** C4, the failing input: on a session with MaxFPS = 25.5 the target -5.0
    is outside 0 < target <= MaxFPS, yet [SetFramerate] reports no error: it
    writes the divisor byte 0xFB (251, the wrapped -5) to the frame-rate
    register and returns the rate -5.1. *)
Theorem C4_negative_target_accepted :
  let m := setMaxFPS f25_5 (session0 (ackFrame ([], crc0))) in
  fst (SetFramerate (-5)%float m) = ((-0x1.4666666666666p+2)%float, Ok tt)
  /\ tx (serialPort (snd (SetFramerate (-5)%float m)))
     = [list_byte_of_string "   #000CWREGB4FBXXXX"].
Proof. split; vm_compute; reflexivity. Qed.

(** A second slip on the same path: a small target within the range gives a
    divisor above 255, which is cut to 8 bits. For the target 0.05 the
    divisor is 510, the register receives 0xFE (254), and
    [round(MaxFPS/actualRate)] is 510. *)
Lemma SetFramerate_divisor_truncated :
  let m := setMaxFPS f25_5 (session0 (ackFrame ([], crc0))) in
  fst (SetFramerate f0_05 m) = (f0_05, Ok tt)
  /\ tx (serialPort (snd (SetFramerate f0_05 m)))
     = [list_byte_of_string "   #000CWREGB4FEXXXX"]
  /\ int_of_float (math_Round (f25_5 / f0_05)%float) = 510.
Proof. repeat split; vm_compute; reflexivity. Qed.

(** ** C10: camera types without a known maximal rate *)

(** [getMaxFPS] answers 0.0, and no error, for every type code but 0, 1
    and 2. *)
Lemma getMaxFPS_unknown (m : MI48) (p rest : list byte) (t0 t1 t2 t3 b : byte)
  (bs : list byte) :
  wfail (serialPort m) = false ->
  readMutex m = false ->
  p <> [] -> blen p <= 65527 ->
  hexDecode p = inl (b :: bs) ->
  byteZ b <> 0 -> byteZ b <> 1 -> byteZ b <> 2 ->
  rx (serialPort m) = reply "RREG" p [t0; t1; t2; t3] ++ rest ->
  fst (getMaxFPS m) = Ok 0%float.
Proof.
  intros Hw Hmx Hne Hlen Hd H0 H1 H2 Hrx.
  unfold getMaxFPS, bind, wrap.
  rewrite (readRegister_answers SENXOR_TYPE [(p, (t0, t1, t2, t3))] rest m);
    try assumption; try reflexivity.
  - unfold payloads. cbn [map List.concat fst]. rewrite app_nil_r, Hd.
    unfold index. cbn [nth_error]. unfold ret.
    apply Z.eqb_neq in H0, H1, H2. rewrite H0, H1, H2. reflexivity.
  - repeat constructor; assumption.
  - unfold answers. cbn [map List.concat answerFrame]. rewrite app_nil_r. exact Hrx.
Qed.

(** With MaxFPS = 0 the guard refuses every target that is zero or
    positive. *)
Lemma SetFramerate_zero_max_rejects (frameRate : float) (m : MI48) :
  MaxFPS m = 0%float ->
  (0 <=? frameRate)%float = true ->
  snd (fst (SetFramerate frameRate m))
  = Err (Errorf "invalid target frame rate, must be 0 < target < MaxFPS").
Proof.
  intros HM Hpos.
  assert (G : (frameRate =? 0)%float || (MaxFPS m <? frameRate)%float = true).
  { rewrite HM. rewrite FloatAxioms.eqb_spec, FloatAxioms.ltb_spec.
    rewrite FloatAxioms.leb_spec in Hpos.
    change (Prim2SF 0) with (S754_zero false) in *.
    destruct (Prim2SF frameRate) as [s|s| |s mant e]; try destruct s;
      cbn in Hpos |- *; try reflexivity; try discriminate. }
  rewrite (SetFramerate_rejects frameRate m G). reflexivity.
Qed.

(** C10, the failing input: on the sessions that [Open] builds for the
    camera types 3 and 8 (initialization succeeds, the model is MI0802 or
    panther, MaxFPS is 0.0), [SetFramerate(-1.0)] does not fail: it writes
    the divisor 0 to the frame-rate register and returns NaN without an
    error. *)
Theorem C10_zero_max_negative_target_accepted :
  let m3 := snd (Open (mkPort (device "03" ++ ackFrame ([], crc0)) [] false)) in
  let m8 := snd (Open (mkPort (device "08" ++ ackFrame ([], crc0)) [] false)) in
  fst (Open (mkPort (device "03" ++ ackFrame ([], crc0)) [] false)) = Ok tt
  /\ fst (Open (mkPort (device "08" ++ ackFrame ([], crc0)) [] false)) = Ok tt
  /\ (CameraModel m3, cameraType m3, MaxFPS m3) = ("MI0802", 3, 0%float)
  /\ (CameraModel m8, cameraType m8, MaxFPS m8) = ("panther", 8, 0%float)
  /\ fst (SetFramerate (-1)%float m3) = (nan, Ok tt)
  /\ fst (SetFramerate (-1)%float m8) = (nan, Ok tt)
  /\ last (tx (serialPort (snd (SetFramerate (-1)%float m3)))) []
     = list_byte_of_string "   #000CWREGB400XXXX".
Proof. repeat split; vm_compute; reflexivity. Qed.

(** * Further properties of the transaction engine *)

(** ** What [sendCommand] leaves behind *)

Lemma io_ReadFull_length (buf : list byte) (m : MI48) :
  List.length (fst (fst (io_ReadFull buf m))) = List.length buf.
Proof.
  unfold io_ReadFull. destruct (List.length buf) as [|n] eqn:E; [exact E|].
  destruct (S n <=? List.length (rx (serialPort m)))%nat eqn:C; cbn [fst].
  - apply Nat.leb_le in C. rewrite length_firstn. lia.
  - apply Nat.leb_gt in C. destruct (rx (serialPort m)) as [|a l] eqn:R; cbn [fst].
    + exact E.
    + rewrite length_app, length_skipn. lia.
Qed.

Lemma readHeader_length (fuel : nat) :
  forall (header : list byte) (err : option error) (m : MI48) (h : list byte),
    fst (readHeader fuel header err m) = Ok h ->
    List.length h = List.length header.
Proof.
  induction fuel as [|fuel IH]; intros header err m h; cbn [readHeader].
  - destruct (negb _); [destruct err; discriminate|].
    cbn [fst]. intros E. inversion E. reflexivity.
  - destruct (negb _).
    + destruct err; [discriminate|].
      pose proof (io_ReadFull_length header m) as L.
      destruct (io_ReadFull header m) as [[h' e'] m']. cbn [fst] in L.
      intros E. apply IH in E. lia.
    + cbn [fst]. intros E. inversion E. reflexivity.
Qed.

Lemma hexDecode_length (n : nat) :
  forall (src out : list byte),
    (List.length src <= n)%nat ->
    hexDecode src = inl out -> List.length src = (2 * List.length out)%nat.
Proof.
  induction n as [|n IH]; intros src out Hn H.
  - destruct src; [|simpl in Hn; lia]. simpl in H. inversion H. reflexivity.
  - destruct src as [|p [|q rest]].
    + simpl in H. inversion H. reflexivity.
    + simpl in H. destruct (fromHexChar p); discriminate.
    + cbn [hexDecode] in H.
      destruct (fromHexChar p); [|discriminate].
      destruct (fromHexChar q); [|discriminate].
      destruct (hexDecode rest) as [out'|] eqn:E; [|discriminate].
      inversion H; subst. apply IH in E; [|simpl in Hn; lia].
      simpl. lia.
Qed.

Lemma readHeader_no_panic (fuel : nat) :
  forall (header : list byte) (err : option error) (m : MI48),
    fst (readHeader fuel header err m) <> Panic.
Proof.
  induction fuel as [|fuel IH]; intros header err m; cbn [readHeader].
  - destruct (negb _); [destruct err|]; discriminate.
  - destruct (negb _); [destruct err|]; try discriminate.
    destruct (io_ReadFull header m) as [[h' e'] m']. apply IH.
Qed.

(** [readPacket] never panics: the four characters of the length field
    decode to two bytes or to an error. *)
Lemma readPacket_no_panic (m : MI48) : fst (readPacket m) <> Panic.
Proof.
  unfold readPacket.
  pose proof (readHeader_length (S (S (List.length (rx (serialPort m)))))
                (repeat x00 12) None m) as L.
  destruct (readHeader _ _ _ m) as [[header| | | |] m1] eqn:E; cbn [fst] in *;
    try discriminate.
  - specialize (L header eq_refl). rewrite repeat_length in L.
    unfold DecodeString. rewrite list_byte_of_string_of_list_byte.
    destruct (hexDecode (firstn 4 (skipn 4 header))) as [len|e] eqn:D;
      [|discriminate].
    apply (hexDecode_length 4) in D; [|rewrite length_firstn; lia].
    rewrite length_firstn, length_skipn, L in D.
    destruct len as [|b0 [|b1 len]]; simpl in D; try lia.
    cbn [BigEndian_Uint16].
    destruct (io_ReadFull _ m1) as [[data err] m2].
    destruct err; [discriminate|].
    destruct (port_Read _ m2) as [[crc err] m3].
    destruct err; discriminate.
  - pose proof (readHeader_no_panic (S (S (List.length (rx (serialPort m)))))
                  (repeat x00 12) None m) as F.
    rewrite E in F. exfalso. apply F. reflexivity.
Qed.

Lemma awaitResponse_no_panic (fuel : nat) :
  forall (cmdType packetType : string) (data : list byte) (err : option error)
         (m : MI48),
    fst (awaitResponse fuel cmdType packetType data err m) <> Panic.
Proof.
  induction fuel as [|fuel IH]; intros cmdType packetType data err m;
    cbn [awaitResponse].
  - destruct (negb _); destruct err; discriminate.
  - destruct (negb _); [|destruct err; discriminate].
    destruct err; [discriminate|].
    pose proof (readPacket_no_panic m) as P.
    destruct (readPacket m) as [[[pt d]|e| | |] m']; cbn [fst] in *;
      try congruence; try discriminate; apply IH.
Qed.

(** The first steps of [sendCommand] on a command that has a type, a port
    that takes the write and a free mutex. *)
Lemma sendCommand_unfold (cmd : string) (m : MI48) :
  (4 <= String.length cmd)%nat ->
  wfail (serialPort m) = false ->
  readMutex m = false ->
  sendCommand cmd m
  = let m2 := afterExchange [list_byte_of_string (frameCommand cmd)]
                (rx (serialPort m)) [EvWrite; EvLock] (withMutex true m) in
    let m2 := withMutex true m2 in
    let (r, m3) := awaitResponse (S (S (List.length (rx (serialPort m)))))
                     (substring 0 4 cmd) "" [] None m2 in
    (r, logEvent EvUnlock (withMutex false m3)).
Proof.
  intros Hcmd Hw Hmx. unfold sendCommand.
  assert (C : (String.length cmd <? 4)%nat = false) by (apply Nat.ltb_ge; exact Hcmd).
  rewrite C. unfold port_Write. cbn [logEvent serialPort]. rewrite Hw.
  cbn [withPort readMutex].
  change (readMutex (logEvent EvWrite m)) with (readMutex m). rewrite Hmx.
  cbv zeta. session_simpl. rewrite <- app_assoc. reflexivity.
Qed.

(** X1: whatever the device sends, [sendCommand] leaves the mutex in the
    state it found it (the deferred unlock runs on every return after the
    lock), never touches the identity fields of the session, only drains
    the stream, and writes nothing but its own command frame, at most
    once. *)
Theorem X1_sendCommand_keeps_session (cmd : string) (m : MI48) :
  readMutex (snd (sendCommand cmd m)) = readMutex m
  /\ CameraModel (snd (sendCommand cmd m)) = CameraModel m
  /\ SerialInfo (snd (sendCommand cmd m)) = SerialInfo m
  /\ FirmwareVersion (snd (sendCommand cmd m)) = FirmwareVersion m
  /\ MaxFPS (snd (sendCommand cmd m)) = MaxFPS m
  /\ cameraType (snd (sendCommand cmd m)) = cameraType m
  /\ (List.length (rx (serialPort (snd (sendCommand cmd m))))
      <= List.length (rx (serialPort m)))%nat
  /\ (tx (serialPort (snd (sendCommand cmd m))) = tx (serialPort m)
      \/ tx (serialPort (snd (sendCommand cmd m)))
         = tx (serialPort m) ++ [list_byte_of_string (frameCommand cmd)]).
Proof.
  unfold sendCommand.
  destruct (String.length cmd <? 4)%nat.
  { cbn [snd]. do 6 (split; [reflexivity|]). split; [lia | left; reflexivity]. }
  unfold port_Write. cbn [logEvent serialPort].
  destruct (wfail (serialPort m)) eqn:Hw.
  { cbn [snd]. session_simpl. do 6 (split; [reflexivity|]).
    split; [lia | left; reflexivity]. }
  cbn [withPort readMutex].
  change (readMutex (logEvent EvWrite m)) with (readMutex m).
  destruct (readMutex m) eqn:Hmx.
  { cbn [snd]. session_simpl. rewrite Hmx. do 6 (split; [reflexivity|]).
    split; [lia | right; reflexivity]. }
  match goal with |- context [awaitResponse ?f ?c ?p ?d ?e ?m2] =>
    pose proof (awaitResponse_readsOnly f c p d e m2) as R;
    destruct (awaitResponse f c p d e m2) as [r m3] end.
  cbn [snd] in *.
  destruct R as (T & _ & A1 & A2 & A3 & A4 & A5 & _ & L & _).
  unfold logEvent, withMutex, withPort in *.
  cbn [serialPort rx tx wfail CameraModel SerialInfo FirmwareVersion MaxFPS
       cameraType readMutex events] in *.
  split; [reflexivity|].
  split; [exact A1|]. split; [exact A2|].
  split; [exact A3|]. split; [exact A4|]. split; [exact A5|].
  split; [exact L|]. right. exact T.
Qed.

(** X2: on a finite stream [sendCommand] always comes back: with a command
    of at least four characters and a free mutex it returns a payload or an
    error; it neither panics nor waits for ever. *)
Theorem X2_sendCommand_returns (cmd : string) (m : MI48) :
  (4 <= String.length cmd)%nat ->
  readMutex m = false ->
  (exists data, fst (sendCommand cmd m) = Ok data)
  \/ (exists e, fst (sendCommand cmd m) = Err e).
Proof.
  intros Hcmd Hmx.
  pose proof (sendCommand_total cmd m) as T.
  unfold sendCommand in *.
  assert (C : (String.length cmd <? 4)%nat = false) by (apply Nat.ltb_ge; exact Hcmd).
  rewrite C in *. unfold port_Write in *. cbn [logEvent serialPort] in *.
  destruct (wfail (serialPort m)).
  { right. eexists. reflexivity. }
  cbn [withPort readMutex] in *.
  change (readMutex (logEvent EvWrite m)) with (readMutex m) in *.
  rewrite Hmx in *.
  match goal with |- context [awaitResponse ?f ?c ?p ?d ?e ?m2] =>
    pose proof (awaitResponse_no_panic f c p d e m2) as P;
    pose proof (awaitResponse_fuel f c p d e m2) as F;
    destruct (awaitResponse f c p d e m2) as [r m3] eqn:E end.
  cbn [fst] in *.
  destruct r as [d|e| | |].
  - left. eexists. reflexivity.
  - right. eexists. reflexivity.
  - congruence.
  - exfalso. apply F; [|reflexivity]. intros _. session_simpl. lia.
  - congruence.
Qed.

Lemma X2_sendCommand_returns_witness :
  (exists data, fst (sendCommand "RREGBAXXXXXX" (session0 [])) = Ok data)
  \/ (exists e, fst (sendCommand "RREGBAXXXXXX" (session0 [])) = Err e).
Proof.
  apply (X2_sendCommand_returns "RREGBAXXXXXX" (session0 [])).
  - simpl. lia.
  - reflexivity.
Defined.

(** ** Frames that [sendCommand] discards *)

Lemma afterReads_nil (m : MI48) : afterReads (rx (serialPort m)) [] m = m.
Proof.
  destruct m as [[r t w] cm si fv mf ct mx ev]. unfold afterReads. simpl.
  rewrite app_nil_r. reflexivity.
Qed.

Lemma awaitResponse_tag_irrelevant (fuel : nat) (c pt pt' : string)
  (d d' : list byte) (m : MI48) :
  (pt =? c)%string = false -> (pt' =? c)%string = false ->
  awaitResponse fuel c pt d None m = awaitResponse fuel c pt' d' None m.
Proof.
  intros H H'. destruct fuel; cbn [awaitResponse]; rewrite H, H'; reflexivity.
Qed.

Lemma taggedFrame_readPacket (m : MI48) (f : tagged) (c : string)
  (rest : list byte) :
  otherThan c f ->
  rx (serialPort m) = taggedFrame f ++ rest ->
  readPacket m = (Ok (fst f, fst (snd f)), afterReads rest (frameReads (fst (snd f))) m).
Proof.
  destruct f as [tag [p [[[t0 t1] t2] t3]]]. cbn [fst snd taggedFrame].
  intros (Htag & _ & Hlen) Hrx.
  destruct (reply_length_ok p Hlen) as [Hl Hp].
  rewrite (readPacket_frame m (blen p + 8) (list_byte_of_string tag) p rest
             t0 t1 t2 t3 Hl); try assumption.
  - rewrite string_of_list_byte_of_string. reflexivity.
  - rewrite list_byte_of_string_length. exact Htag.
Qed.

Lemma awaitResponse_skip (c : string) (rest : list byte) :
  forall (fs : list tagged) (fuel : nat) (pt : string) (d : list byte) (m : MI48),
    Forall (otherThan c) fs ->
    (pt =? c)%string = false ->
    rx (serialPort m) = taggedFrames fs ++ rest ->
    awaitResponse (List.length fs + fuel) c pt d None m
    = awaitResponse fuel c pt d None (afterReads rest (taggedReads fs) m).
Proof.
  induction fs as [|f fs IH]; intros fuel pt d m Hok Hpt Hrx.
  - unfold taggedFrames in Hrx. cbn [map List.concat app] in Hrx. subst rest.
    rewrite afterReads_nil. reflexivity.
  - inversion Hok as [|? ? Hf Hfs]; subst.
    unfold taggedFrames in Hrx. cbn [map List.concat] in Hrx.
    rewrite <- app_assoc in Hrx.
    cbn [List.length Nat.add awaitResponse]. rewrite Hpt. cbn [negb].
    rewrite (taggedFrame_readPacket m f c _ Hf Hrx).
    assert (Hne : (fst f =? c)%string = false)
      by (apply String.eqb_neq; apply Hf).
    rewrite (awaitResponse_tag_irrelevant _ c (fst f) pt (fst (snd f)) d _ Hne Hpt).
    erewrite (IH fuel pt d _ Hfs Hpt) by reflexivity.
    rewrite afterReads_compose. reflexivity.
Qed.

Lemma taggedFrame_length (f : tagged) : (1 <= List.length (taggedFrame f))%nat.
Proof.
  destruct f as [tag [p [[[t0 t1] t2] t3]]].
  unfold taggedFrame, reply, wireFrame. rewrite length_app.
  change (List.length (list_byte_of_string marker)) with 4%nat. lia.
Qed.

Lemma taggedFrames_length (fs : list tagged) :
  (List.length fs <= List.length (taggedFrames fs))%nat.
Proof.
  induction fs as [|f fs IH]; [simpl; lia|].
  unfold taggedFrames in *. cbn [map List.concat List.length].
  rewrite length_app. pose proof (taggedFrame_length f). lia.
Qed.

Lemma readPacket_eof (m : MI48) :
  rx (serialPort m) = [] ->
  readPacket m
  = (Err (Wrapf "failed to read header from serial port" EOF),
     afterReads [] [EvRead] m).
Proof.
  intros Hrx. unfold readPacket. rewrite Hrx. cbn [List.length readHeader].
  change (negb (substring 0 4 (string_of_list_byte (repeat x00 12)) =? marker)%string)
    with true. cbv iota.
  unfold io_ReadFull. rewrite repeat_length, Hrx.
  cbn [Nat.leb List.length skipn]. reflexivity.
Qed.

(** X3: [sendCommand] drops every well-formed frame whose type tag is not
    the command's (an image frame of the stream, the answer to an earlier
    command) and returns the payload of the first frame that carries the
    command's tag; the dropped frames are gone from the stream and what
    follows the answer is left on it. *)
Theorem X3_sendCommand_discards_other_frames (cmd : string) (fs : list tagged)
  (payload rest : list byte) (t0 t1 t2 t3 : byte) (m : MI48) :
  (4 <= String.length cmd)%nat ->
  wfail (serialPort m) = false ->
  readMutex m = false ->
  Forall (otherThan (substring 0 4 cmd)) fs ->
  blen payload <= 65527 ->
  rx (serialPort m)
  = taggedFrames fs ++ reply (substring 0 4 cmd) payload [t0; t1; t2; t3] ++ rest ->
  sendCommand cmd m
  = (Ok payload,
     afterExchange [list_byte_of_string (frameCommand cmd)] rest
       ([EvWrite; EvLock] ++ taggedReads fs ++ frameReads payload ++ [EvUnlock]) m).
Proof.
  intros Hcmd Hw Hmx Hfs Hlen Hrx.
  rewrite (sendCommand_unfold cmd m Hcmd Hw Hmx). cbv zeta.
  pose proof (taggedFrames_length fs) as L.
  replace (S (S (List.length (rx (serialPort m)))))
    with (List.length fs + S (S (List.length (rx (serialPort m)) - List.length fs)))%nat
    by (rewrite Hrx, length_app; lia).
  erewrite (awaitResponse_skip (substring 0 4 cmd) _ fs _ "" [] _ Hfs
              (cmdType_nonempty cmd Hcmd)) by exact Hrx.
  destruct (reply_length_ok payload Hlen) as [Hl Hp].
  cbn [awaitResponse]. rewrite (cmdType_nonempty cmd Hcmd). cbn [negb].
  erewrite (readPacket_frame _ (blen payload + 8)
              (list_byte_of_string (substring 0 4 cmd)) payload rest t0 t1 t2 t3 Hl);
    [ | rewrite list_byte_of_string_length; apply substring_length_ge; exact Hcmd
      | exact Hp | reflexivity ].
  rewrite string_of_list_byte_of_string, String.eqb_refl. cbn [negb].
  session_simpl. rewrite <- !app_assoc. reflexivity.
Qed.

Lemma X3_sendCommand_discards_other_frames_witness :
  sendCommand "RREGB4XXXXXX"
    (session0 (taggedFrames [("GFRA", (list_byte_of_string "0123", crc0));
                             ("WREG", ([], crc0))]
               ++ reply (substring 0 4 "RREGB4XXXXXX") (list_byte_of_string "0A")
                    [x43; x52; x43; x5f] ++ []))
  = (Ok (list_byte_of_string "0A"),
     afterExchange [list_byte_of_string (frameCommand "RREGB4XXXXXX")] []
       ([EvWrite; EvLock]
        ++ taggedReads [("GFRA", (list_byte_of_string "0123", crc0));
                        ("WREG", ([], crc0))]
        ++ frameReads (list_byte_of_string "0A") ++ [EvUnlock])
       (session0 (taggedFrames [("GFRA", (list_byte_of_string "0123", crc0));
                                ("WREG", ([], crc0))]
                  ++ reply (substring 0 4 "RREGB4XXXXXX") (list_byte_of_string "0A")
                       [x43; x52; x43; x5f] ++ []))).
Proof.
  apply (X3_sendCommand_discards_other_frames "RREGB4XXXXXX"
           [("GFRA", (list_byte_of_string "0123", crc0)); ("WREG", ([], crc0))]
           (list_byte_of_string "0A") [] x43 x52 x43 x5f).
  - simpl. lia.
  - reflexivity.
  - reflexivity.
  - repeat constructor; simpl; try discriminate; try lia.
  - vm_compute. discriminate.
  - reflexivity.
Defined.

(** X4: when the stream holds nothing but well-formed frames of other types
    and then ends, [sendCommand] consumes them all and fails with "failed to
    read response" around the end-of-file of the header read; the command
    frame has been written and the mutex is free again. *)
Theorem X4_sendCommand_unanswered (cmd : string) (fs : list tagged) (m : MI48) :
  (4 <= String.length cmd)%nat ->
  wfail (serialPort m) = false ->
  readMutex m = false ->
  Forall (otherThan (substring 0 4 cmd)) fs ->
  rx (serialPort m) = taggedFrames fs ->
  sendCommand cmd m
  = (Err (Wrapf "failed to read response"
            (Wrapf "failed to read header from serial port" EOF)),
     afterExchange [list_byte_of_string (frameCommand cmd)] []
       ([EvWrite; EvLock] ++ taggedReads fs ++ [EvRead] ++ [EvUnlock]) m).
Proof.
  intros Hcmd Hw Hmx Hfs Hrx.
  rewrite (sendCommand_unfold cmd m Hcmd Hw Hmx). cbv zeta.
  pose proof (taggedFrames_length fs) as L.
  replace (S (S (List.length (rx (serialPort m)))))
    with (List.length fs + S (S (List.length (rx (serialPort m)) - List.length fs)))%nat
    by (rewrite Hrx; lia).
  rewrite (awaitResponse_skip (substring 0 4 cmd) [] fs _ "" [] _ Hfs
             (cmdType_nonempty cmd Hcmd))
    by (rewrite app_nil_r; exact Hrx).
  cbn [awaitResponse]. rewrite (cmdType_nonempty cmd Hcmd). cbn [negb].
  rewrite readPacket_eof by reflexivity.
  cbn [awaitResponse]. rewrite ?(cmdType_nonempty cmd Hcmd). cbn [negb].
  session_simpl. rewrite <- !app_assoc. reflexivity.
Qed.

Lemma X4_sendCommand_unanswered_witness :
  sendCommand "WREGB102XXXX"
    (session0 (taggedFrames [("GFRA", (list_byte_of_string "0123", crc0))]))
  = (Err (Wrapf "failed to read response"
            (Wrapf "failed to read header from serial port" EOF)),
     afterExchange [list_byte_of_string (frameCommand "WREGB102XXXX")] []
       ([EvWrite; EvLock]
        ++ taggedReads [("GFRA", (list_byte_of_string "0123", crc0))]
        ++ [EvRead] ++ [EvUnlock])
       (session0 (taggedFrames [("GFRA", (list_byte_of_string "0123", crc0))]))).
Proof.
  apply (X4_sendCommand_unanswered "WREGB102XXXX"
           [("GFRA", (list_byte_of_string "0123", crc0))]).
  - simpl. lia.
  - reflexivity.
  - reflexivity.
  - repeat constructor; simpl; try discriminate; try lia.
  - reflexivity.
Defined.

(** ** Resynchronisation of [readPacket] *)

Lemma ReadFull_block (m : MI48) (buf data tl : list byte) :
  List.length buf = List.length data ->
  data <> [] ->
  rx (serialPort m) = data ++ tl ->
  io_ReadFull buf m = (data, None, afterReads tl [EvRead] m).
Proof.
  intros Hlen Hne Hrx. unfold io_ReadFull. rewrite Hlen.
  destruct data as [|d data']; [congruence|].
  cbn [List.length]. rewrite Hrx.
  assert (L : (S (List.length data') <=? List.length ((d :: data') ++ tl))%nat = true).
  { apply Nat.leb_le. rewrite length_app. simpl. lia. }
  rewrite L.
  change (S (List.length data')) with (List.length (d :: data')).
  rewrite firstn_app, firstn_all, Nat.sub_diag, firstn_O, app_nil_r.
  rewrite skipn_app, skipn_all, Nat.sub_diag, skipn_O.
  reflexivity.
Qed.

Lemma last_cons_default (b : list byte) (bs : list (list byte)) (d : list byte) :
  last (b :: bs) d = last bs b.
Proof.
  revert b d. induction bs as [|c bs IH]; intros b d; [reflexivity|].
  change (last (b :: c :: bs) d) with (last (c :: bs) d).
  rewrite (IH c d), (IH c b). reflexivity.
Qed.

Lemma readHeader_skip_blocks (rest : list byte) :
  forall (blocks : list (list byte)) (fuel : nat) (header : list byte) (m : MI48),
    Forall noMarker blocks ->
    noMarker header ->
    rx (serialPort m) = List.concat blocks ++ rest ->
    readHeader (List.length blocks + fuel) header None m
    = readHeader fuel (last blocks header) None
        (afterReads rest (repeat EvRead (List.length blocks)) m).
Proof.
  induction blocks as [|b bs IH]; intros fuel header m Hbs Hh Hrx.
  - cbn [List.concat app] in Hrx. subst rest. cbn [List.length repeat last Nat.add].
    rewrite afterReads_nil. reflexivity.
  - inversion Hbs as [|? ? Hb Hbs']; subst.
    cbn [List.concat] in Hrx. rewrite <- app_assoc in Hrx.
    cbn [List.length Nat.add readHeader].
    destruct Hh as [Hl Hm]. rewrite Hm. cbn [negb].
    rewrite (ReadFull_block m header b (List.concat bs ++ rest)); try assumption.
    + erewrite (IH fuel b _ Hbs' Hb) by reflexivity.
      rewrite afterReads_compose, last_cons_default. reflexivity.
    + destruct Hb as [Hlb _]. lia.
    + destruct Hb as [Hlb _]. destruct b; [discriminate | discriminate].
Qed.

Lemma noMarker_last (blocks : list (list byte)) (header : list byte) :
  Forall noMarker blocks -> noMarker header -> noMarker (last blocks header).
Proof.
  intros H. revert header. induction H as [|b bs Hb _ IH]; intros header Hh;
    [exact Hh|].
  rewrite last_cons_default. apply IH. exact Hb.
Qed.

Lemma concat_blocks_length (blocks : list (list byte)) :
  Forall noMarker blocks ->
  (List.length blocks <= List.length (List.concat blocks))%nat.
Proof.
  induction 1 as [|b bs [Hb _] _ IH]; [simpl; lia|].
  cbn [List.concat List.length]. rewrite length_app. lia.
Qed.

(** X5: the header loop of [readPacket] looks for the marker at the start of
    each 12-byte read only. Any number of 12-byte blocks that do not start
    with the marker is read and dropped in front of a frame, and the frame
    behind them decodes as if they were not there. *)
Theorem X5_readPacket_skips_blocks (m : MI48) (blocks : list (list byte)) (l : Z)
  (tag payload rest : list byte) (t0 t1 t2 t3 : byte) :
  Forall noMarker blocks ->
  0 <= l < 65536 ->
  List.length tag = 4%nat ->
  List.length payload = Z.to_nat (uint16 (l - 8)) ->
  rx (serialPort m)
  = List.concat blocks ++ wireFrame l tag payload [t0; t1; t2; t3] ++ rest ->
  readPacket m
  = (Ok (string_of_list_byte tag, payload),
     afterReads rest (repeat EvRead (List.length blocks) ++ frameReads payload) m).
Proof.
  intros Hbs Hl Htag Hpay Hrx.
  pose proof (lengthField_roundtrip l Hl) as Hf.
  unfold lengthFieldOk in Hf.
  destruct (list_byte_of_string (fmt0X 4 l)) as [|c0 [|c1 [|c2 [|c3 [|? ?]]]]] eqn:Ec;
    try discriminate.
  destruct (hexDecode [c0; c1; c2; c3]) as [len|] eqn:Ed; try discriminate.
  destruct (BigEndian_Uint16 len) as [l'|] eqn:Eu; try discriminate.
  apply Z.eqb_eq in Hf. subst l'.
  destruct tag as [|g0 [|g1 [|g2 [|g3 [|? ?]]]]]; try discriminate.
  unfold wireFrame in Hrx. rewrite Ec in Hrx.
  change (list_byte_of_string marker) with [x20; x20; x20; x23] in Hrx.
  cbn [app] in Hrx.
  assert (Hz : noMarker (repeat x00 12)) by (split; reflexivity).
  pose proof (noMarker_last blocks (repeat x00 12) Hbs Hz) as [Hll Hlm].
  pose proof (concat_blocks_length blocks Hbs) as Lb.
  unfold readPacket.
  replace (S (S (List.length (rx (serialPort m)))))
    with (List.length blocks + S (S (List.length (rx (serialPort m)) - List.length blocks)))%nat
    by (rewrite Hrx, length_app; lia).
  rewrite (readHeader_skip_blocks _ blocks _ _ m Hbs Hz Hrx).
  cbn [readHeader]. rewrite Hlm. cbn [negb].
  erewrite (ReadFull_block _ (last blocks (repeat x00 12))
              [x20; x20; x20; x23; c0; c1; c2; c3; g0; g1; g2; g3]
              ((payload ++ [t0; t1; t2; t3]) ++ rest));
    [ | exact Hll | discriminate | reflexivity ].
  rewrite marker_seen. cbn [negb]. cbn [skipn firstn].
  unfold DecodeString. rewrite list_byte_of_string_of_list_byte, Ed, Eu.
  rewrite <- Hpay. rewrite <- app_assoc.
  destruct payload as [|p0 payload'].
  - cbn [List.length repeat io_ReadFull app].
    erewrite port_Read_trailer by reflexivity.
    rewrite !afterReads_compose. reflexivity.
  - erewrite ReadFull_exact by (try discriminate; reflexivity).
    erewrite port_Read_trailer by reflexivity.
    rewrite !afterReads_compose. rewrite <- ?app_assoc. reflexivity.
Qed.

Lemma X5_readPacket_skips_blocks_witness :
  readPacket
    (session0 (List.concat [list_byte_of_string "noise_noise_"; repeat x00 12]
               ++ wireFrame 10 (list_byte_of_string "RREG") (list_byte_of_string "03")
                    [x43; x52; x43; x5f] ++ []))
  = (Ok (string_of_list_byte (list_byte_of_string "RREG"), list_byte_of_string "03"),
     afterReads []
       (repeat EvRead
          (List.length [list_byte_of_string "noise_noise_"; repeat x00 12])
        ++ frameReads (list_byte_of_string "03"))
       (session0 (List.concat [list_byte_of_string "noise_noise_"; repeat x00 12]
                  ++ wireFrame 10 (list_byte_of_string "RREG")
                       (list_byte_of_string "03") [x43; x52; x43; x5f] ++ []))).
Proof.
  apply (X5_readPacket_skips_blocks _
           [list_byte_of_string "noise_noise_"; repeat x00 12] 10
           (list_byte_of_string "RREG") (list_byte_of_string "03") []
           x43 x52 x43 x5f).
  - repeat constructor.
  - lia.
  - reflexivity.
  - reflexivity.
  - reflexivity.
Defined.

(** ** Register bytes as hex digits *)

Lemma hexByteOk_all : forallb hexByteOk (zrange 256) = true.
Proof. vm_compute. reflexivity. Qed.

Lemma hexByte_decode (b : Z) :
  0 <= b < 256 ->
  exists c0 c1,
    list_byte_of_string (fmt0X 2 b) = [c0; c1]
    /\ byteZ (zbyte b) = b
    /\ forall rest,
         hexDecode (c0 :: c1 :: rest)
         = match hexDecode rest with
           | inl out => inl (zbyte b :: out)
           | inr e => inr e
           end.
Proof.
  intros H. pose proof hexByteOk_all as A. rewrite forallb_forall in A.
  specialize (A b (zrange_In 256 b H)). unfold hexByteOk in A.
  destruct (list_byte_of_string (fmt0X 2 b)) as [|c0 [|c1 [|? ?]]]; try discriminate.
  destruct (fromHexChar c0) as [a|] eqn:E0; try discriminate.
  destruct (fromHexChar c1) as [d|] eqn:E1; try discriminate.
  apply andb_prop in A. destruct A as [A1 A2].
  apply Z.eqb_eq in A1, A2.
  exists c0, c1. split; [reflexivity|]. split; [exact A2|].
  intros rest. cbn [hexDecode]. rewrite E0, E1, A1. reflexivity.
Qed.

Lemma hexAnswers_payloads (l : list (Z * (byte * byte * byte * byte))) :
  Forall (fun v => 0 <= fst v < 256) l ->
  hexDecode (payloads (hexAnswers l)) = inl (map (fun v => zbyte (fst v)) l)
  /\ Forall answerOk (hexAnswers l).
Proof.
  induction 1 as [|[b t] l Hb _ [IH1 IH2]].
  - split; [reflexivity | constructor].
  - cbn [fst] in Hb. destruct (hexByte_decode b Hb) as (c0 & c1 & E & _ & D).
    unfold hexAnswers, payloads in *. cbn [map List.concat fst snd].
    rewrite E. cbn [app]. rewrite D, IH1. split; [reflexivity|].
    constructor; [|exact IH2]. unfold answerOk. cbn [fst].
    split; [discriminate | vm_compute; discriminate].
Qed.

(** A register read from a device that answers in hex digits. *)
Lemma readRegister_hexAnswers (reg : register)
  (l : list (Z * (byte * byte * byte * byte))) (rest : list byte) (m : MI48) :
  List.length l = Z.to_nat (uint8 (Length reg)) ->
  Forall (fun v => 0 <= fst v < 256) l ->
  wfail (serialPort m) = false ->
  readMutex m = false ->
  rx (serialPort m) = answers (hexAnswers l) ++ rest ->
  readRegister reg m
  = (Ok (map (fun v => zbyte (fst v)) l),
     afterExchange (readFrames (Address reg) 0 (List.length l)) rest
                   (answerEvents (hexAnswers l)) m).
Proof.
  intros Hn Hl Hw Hmx Hrx.
  destruct (hexAnswers_payloads l Hl) as [D Ok'].
  rewrite (readRegister_answers reg (hexAnswers l) rest m); try assumption.
  - rewrite D. unfold hexAnswers. rewrite length_map. reflexivity.
  - unfold hexAnswers. rewrite length_map. exact Hn.
Qed.



(** X7: for an 8-bit address and an 8-bit value the frame [writeRegister]
    puts on the wire is 20 bytes long: the marker and length field
    "   #000C", the tag WREG, two hex digits of the address, two of the
    value and the filler XXXX; hex-decoding the four digits gives the
    address and the value back. *)
Theorem X7_writeRegister_frame_layout (reg : register) (value : Z) (m : MI48) :
  ReadOnly reg = false ->
  wfail (serialPort m) = false ->
  0 <= Address reg < 256 ->
  0 <= value < 256 ->
  exists frame,
    tx (serialPort (snd (writeRegister reg value m))) = tx (serialPort m) ++ [frame]
    /\ List.length frame = 20%nat
    /\ firstn 12 frame = list_byte_of_string "   #000CWREG"
    /\ skipn 16 frame = list_byte_of_string "XXXX"
    /\ exists a v,
         hexDecode (firstn 4 (skipn 12 frame)) = inl [a; v]
         /\ byteZ a = Address reg /\ byteZ v = value.
Proof.
  intros Hro Hw Ha Hv.
  destruct (hexByte_decode (Address reg) Ha) as (a0 & a1 & Ea & Ba & Da).
  destruct (hexByte_decode value Hv) as (v0 & v1 & Ev & Bv & Dv).
  exists (list_byte_of_string "   #000CWREG" ++ [a0; a1; v0; v1]
          ++ list_byte_of_string "XXXX").
  split.
  - rewrite (writeRegister_tx reg value m Hro Hw). do 2 f_equal.
    unfold frameCommand, wregCommand.
    assert (L : slen ("WREG" ++ fmt0X 2 (Address reg) ++ fmt0X 2 value ++ "XXXX") = 12).
    { unfold slen. rewrite !string_length_app.
      rewrite <- (list_byte_of_string_length (fmt0X 2 (Address reg))), Ea.
      rewrite <- (list_byte_of_string_length (fmt0X 2 value)), Ev. reflexivity. }
    rewrite L. rewrite !list_byte_of_string_app, Ea, Ev. reflexivity.
  - split; [reflexivity|]. split; [reflexivity|]. split; [reflexivity|].
    exists (zbyte (Address reg)), (zbyte value).
    split; [|split; assumption].
    change (firstn 4 (skipn 12 (list_byte_of_string "   #000CWREG"
                                  ++ [a0; a1; v0; v1] ++ list_byte_of_string "XXXX")))
      with [a0; a1; v0; v1].
    rewrite Da, Dv. reflexivity.
Qed.

Lemma X7_writeRegister_frame_layout_witness :
  exists frame,
    tx (serialPort (snd (writeRegister NETD_FACTOR 0x14 (session0 []))))
    = tx (serialPort (session0 [])) ++ [frame]
    /\ List.length frame = 20%nat
    /\ firstn 12 frame = list_byte_of_string "   #000CWREG"
    /\ skipn 16 frame = list_byte_of_string "XXXX"
    /\ exists a v,
         hexDecode (firstn 4 (skipn 12 frame)) = inl [a; v]
         /\ byteZ a = Address NETD_FACTOR /\ byteZ v = 0x14.
Proof.
  apply (X7_writeRegister_frame_layout NETD_FACTOR 0x14 (session0 [])).
  - reflexivity.
  - reflexivity.
  - vm_compute. split; [discriminate | reflexivity].
  - vm_compute. split; [discriminate | reflexivity].
Defined.

(** ** [SetFilters] *)

Lemma temporal_split (t : Z) :
  0 <= t < 65536 ->
  uint8 (Z.land t 0xFF) + 256 * uint8 (Z.shiftr (Z.land t 0xFF00) 8) = t
  /\ 0 <= uint8 (Z.land t 0xFF) < 256
  /\ 0 <= uint8 (Z.shiftr (Z.land t 0xFF00) 8) < 256.
Proof.
  intros H.
  assert (E1 : Z.land t 0xFF = t mod 256).
  { change 0xFF with (Z.ones 8). rewrite Z.land_ones by lia. reflexivity. }
  assert (E2 : Z.shiftr (Z.land t 0xFF00) 8 = t / 256).
  { rewrite Z.shiftr_land. change (Z.shiftr 0xFF00 8) with (Z.ones 8).
    rewrite Z.land_ones by lia. rewrite Z.shiftr_div_pow2 by lia.
    change (2 ^ 8) with 256. apply Z.mod_small. split.
    - apply Z.div_pos; lia.
    - apply Z.div_lt_upper_bound; lia. }
  rewrite E1, E2. unfold uint8. rewrite Z.mod_mod by lia.
  assert (0 <= t / 256 < 256).
  { split; [apply Z.div_pos; lia | apply Z.div_lt_upper_bound; lia]. }
  rewrite (Z.mod_small (t / 256)) by lia.
  pose proof (Z.mod_pos_bound t 256). pose proof (Z.div_mod t 256). lia.
Qed.

(** X8: when the device acknowledges each write, [SetFilters] performs four
    register writes in the order setting 1 low byte (0xD1), setting 1 high
    byte (0xD2), setting 2 (0xD3) and the control byte (0xD0) last. The two
    bytes of setting 1 put together give the 16-bit temporal threshold back;
    setting 2 is the rolling-average window; the control byte has bits 0 and
    1 set exactly when the threshold is not 0, bit 2 exactly when the window
    is not 0, bit 6 exactly when the median filter is on and bit 5 exactly
    when its kernel is larger than 3; bits 3, 4 and 7 are never set. *)
Theorem X8_SetFilters_writes (fs : FilterSettings) (a1 a2 a3 a4 : answer)
  (rest : list byte) (m : MI48) :
  wfail (serialPort m) = false ->
  readMutex m = false ->
  blen (fst a1) <= 65527 -> blen (fst a2) <= 65527 ->
  blen (fst a3) <= 65527 -> blen (fst a4) <= 65527 ->
  0 <= Temporal fs < 65536 ->
  0 <= RollingAverage fs ->
  rx (serialPort m) = ackFrame a1 ++ ackFrame a2 ++ ackFrame a3 ++ ackFrame a4 ++ rest ->
  exists lsb msb ctrl,
    SetFilters fs m
    = (Ok tt,
       afterExchange
         [list_byte_of_string (frameCommand (wregCommand 0xD1 lsb));
          list_byte_of_string (frameCommand (wregCommand 0xD2 msb));
          list_byte_of_string (frameCommand (wregCommand 0xD3 (RollingAverage fs)));
          list_byte_of_string (frameCommand (wregCommand 0xD0 ctrl))]
         rest
         (exchangeEvents (fst a1) ++ exchangeEvents (fst a2)
          ++ exchangeEvents (fst a3) ++ exchangeEvents (fst a4)) m)
    /\ lsb + 256 * msb = Temporal fs
    /\ 0 <= lsb < 256 /\ 0 <= msb < 256
    /\ Z.testbit ctrl 0 = (0 <? Temporal fs)
    /\ Z.testbit ctrl 1 = (0 <? Temporal fs)
    /\ Z.testbit ctrl 2 = (0 <? RollingAverage fs)
    /\ Z.testbit ctrl 5 = (3 <? Median fs)
    /\ Z.testbit ctrl 6 = (0 <? Median fs)
    /\ Z.testbit ctrl 3 = false /\ Z.testbit ctrl 4 = false
    /\ Z.testbit ctrl 7 = false.
Proof.
  intros Hw Hmx H1 H2 H3 H4 HT HR Hrx.
  destruct (temporal_split (Temporal fs) HT) as (S1 & S2 & S3).
  assert (W : forall lsb msb set2 ctrl,
    (wrap "failed to set filter settings" (writeRegister FILTER_SETTING_1_LSB lsb) ;;;
     wrap "failed to set filter settings" (writeRegister FILTER_SETTING_1_MSB msb) ;;;
     wrap "failed to set filter settings" (writeRegister FILTER_SETTING_2 set2) ;;;
     wrap "failed to set filter control" (writeRegister FILTER_CONTROL ctrl) ;;;
     ret tt) m
    = (Ok tt,
       afterExchange
         [list_byte_of_string (frameCommand (wregCommand 0xD1 lsb));
          list_byte_of_string (frameCommand (wregCommand 0xD2 msb));
          list_byte_of_string (frameCommand (wregCommand 0xD3 set2));
          list_byte_of_string (frameCommand (wregCommand 0xD0 ctrl))]
         rest
         (exchangeEvents (fst a1) ++ exchangeEvents (fst a2)
          ++ exchangeEvents (fst a3) ++ exchangeEvents (fst a4)) m)).
  { intros lsb msb set2 ctrl. unfold bind, wrap.
    rewrite (writeRegister_ackFrame m FILTER_SETTING_1_LSB _ a1 _ eq_refl Hw Hmx H1 Hrx).
    erewrite (writeRegister_ackFrame _ FILTER_SETTING_1_MSB _ a2) by (reflexivity || assumption).
    erewrite (writeRegister_ackFrame _ FILTER_SETTING_2 _ a3) by (reflexivity || assumption).
    erewrite (writeRegister_ackFrame _ FILTER_CONTROL _ a4) by (reflexivity || assumption).
    rewrite !afterExchange_compose. unfold ret.
    cbn [app Address FILTER_SETTING_1_LSB FILTER_SETTING_1_MSB FILTER_SETTING_2
         FILTER_CONTROL].
    rewrite <- ?app_assoc. reflexivity. }
  unfold SetFilters.
  destruct (0 <? Temporal fs) eqn:ET;
    destruct (0 <? RollingAverage fs) eqn:ER;
    destruct (0 <? Median fs) eqn:EM;
    destruct (3 <? Median fs) eqn:EM3;
    try (apply Z.ltb_ge in EM; apply Z.ltb_lt in EM3; lia);
    cbv beta iota zeta; rewrite W;
    try (apply Z.ltb_ge in ET; assert (Temporal fs = 0) as -> by lia);
    try (apply Z.ltb_ge in ER; assert (RollingAverage fs = 0) as -> by lia);
    do 3 eexists; (split; [reflexivity|]);
    repeat split; try assumption; try reflexivity; try lia.
Qed.

Lemma X8_SetFilters_writes_witness :
  exists lsb msb ctrl,
    SetFilters (mkFilterSettings 300 4 MEDIAN_KERNEL_SIZE_5)
      (session0 (ackFrame ([], crc0) ++ ackFrame ([], crc0) ++ ackFrame ([], crc0)
                 ++ ackFrame ([], crc0) ++ []))
    = (Ok tt,
       afterExchange
         [list_byte_of_string (frameCommand (wregCommand 0xD1 lsb));
          list_byte_of_string (frameCommand (wregCommand 0xD2 msb));
          list_byte_of_string
            (frameCommand (wregCommand 0xD3
               (RollingAverage (mkFilterSettings 300 4 MEDIAN_KERNEL_SIZE_5))));
          list_byte_of_string (frameCommand (wregCommand 0xD0 ctrl))]
         []
         (exchangeEvents (fst ([], crc0)) ++ exchangeEvents (fst ([], crc0))
          ++ exchangeEvents (fst ([], crc0)) ++ exchangeEvents (fst ([], crc0)))
         (session0 (ackFrame ([], crc0) ++ ackFrame ([], crc0) ++ ackFrame ([], crc0)
                    ++ ackFrame ([], crc0) ++ [])))
    /\ lsb + 256 * msb = 300.
Proof.
  destruct (X8_SetFilters_writes (mkFilterSettings 300 4 MEDIAN_KERNEL_SIZE_5)
              ([], crc0) ([], crc0) ([], crc0) ([], crc0) []
              (session0 (ackFrame ([], crc0) ++ ackFrame ([], crc0)
                         ++ ackFrame ([], crc0) ++ ackFrame ([], crc0) ++ [])))
    as (lsb & msb & ctrl & R & S & _).
  - reflexivity.
  - reflexivity.
  - vm_compute. discriminate.
  - vm_compute. discriminate.
  - vm_compute. discriminate.
  - vm_compute. discriminate.
  - vm_compute. split; [discriminate | reflexivity].
  - vm_compute. discriminate.
  - reflexivity.
  - exists lsb, msb, ctrl. split; [exact R | exact S].
Defined.

(** ** [GetFramerate] *)

Lemma GetFramerate_hex (m : MI48) (d : Z) (t : byte * byte * byte * byte)
  (rest : list byte) :
  0 <= d < 256 ->
  wfail (serialPort m) = false ->
  readMutex m = false ->
  rx (serialPort m) = answers (hexAnswers [(d, t)]) ++ rest ->
  GetFramerate m
  = (if d =? 0 then Err (Errorf "invalid frame rate divisor: 0")
     else Ok (MaxFPS m / float_of_int d)%float,
     afterExchange (readFrames 0xB4 0 1) rest (answerEvents (hexAnswers [(d, t)])) m).
Proof.
  intros Hd Hw Hmx Hrx. unfold GetFramerate, bind, wrap.
  rewrite (readRegister_hexAnswers FRAME_RATE [(d, t)] rest m); try assumption;
    try reflexivity; [|repeat constructor; cbn [fst]; lia].
  cbn [map fst]. unfold index. cbn [nth_error]. unfold ret.
  destruct (hexByte_decode d Hd) as (_ & _ & _ & B & _). rewrite B.
  destruct (d =? 0); reflexivity.
Qed.

(** X9: when the device reports 0 for the frame-rate register,
    [GetFramerate] fails with "invalid frame rate divisor: 0" instead of
    dividing by it. *)
Theorem X9_GetFramerate_zero_divisor (m : MI48) (t : byte * byte * byte * byte)
  (rest : list byte) :
  wfail (serialPort m) = false ->
  readMutex m = false ->
  rx (serialPort m) = answers (hexAnswers [(0, t)]) ++ rest ->
  fst (GetFramerate m) = Err (Errorf "invalid frame rate divisor: 0").
Proof.
  intros Hw Hmx Hrx.
  rewrite (GetFramerate_hex m 0 t rest); try assumption; [reflexivity | lia].
Qed.

Lemma X9_GetFramerate_zero_divisor_witness :
  fst (GetFramerate (setMaxFPS f25_5 (session0 (answers (hexAnswers [(0, crc0)]) ++ []))))
  = Err (Errorf "invalid frame rate divisor: 0").
Proof.
  apply (X9_GetFramerate_zero_divisor _ crc0 []); reflexivity.
Defined.

(** X10: [SetFramerate] and [GetFramerate] agree. When a target passes the
    guard and its divisor lies in 1..255, and the device acknowledges the
    write and then reports the byte it was sent, [GetFramerate] returns
    exactly the rate [SetFramerate] returned. *)
Theorem X10_GetFramerate_after_SetFramerate (frameRate : float) (m : MI48)
  (a : answer) (t : byte * byte * byte * byte) (rest : list byte) :
  (frameRate =? 0)%float || (MaxFPS m <? frameRate)%float = false ->
  1 <= int_of_float (math_Round (MaxFPS m / frameRate)%float) <= 255 ->
  wfail (serialPort m) = false ->
  readMutex m = false ->
  blen (fst a) <= 65527 ->
  rx (serialPort m)
  = ackFrame a
    ++ answers (hexAnswers
                  [(uint8 (int_of_float (math_Round (MaxFPS m / frameRate)%float)), t)])
    ++ rest ->
  snd (fst (SetFramerate frameRate m)) = Ok tt
  /\ fst (GetFramerate (snd (SetFramerate frameRate m)))
     = Ok (fst (fst (SetFramerate frameRate m))).
Proof.
  intros Hg Hd Hw Hmx Hlen Hrx.
  pose proof (SetFramerate_accepts frameRate m a _ Hg Hw Hmx Hlen Hrx) as S.
  cbv zeta in S. rewrite S. cbn [fst snd]. split; [reflexivity|].
  set (d := int_of_float (math_Round (MaxFPS m / frameRate)%float)) in *.
  assert (U : uint8 d = d) by (unfold uint8; apply Z.mod_small; lia).
  rewrite U.
  assert (C : (d =? 0) = false) by (apply Z.eqb_neq; lia).
  erewrite (GetFramerate_hex _ d t rest); [ | lia | reflexivity | reflexivity | reflexivity ].
  cbn [fst]. rewrite C. reflexivity.
Qed.

Lemma X10_GetFramerate_after_SetFramerate_witness :
  snd (fst (SetFramerate 10%float
              (setMaxFPS f25_5
                 (session0 (ackFrame ([], crc0)
                            ++ answers (hexAnswers
                                 [(uint8 (int_of_float (math_Round (f25_5 / 10)%float)), crc0)])
                            ++ [])))))
  = Ok tt
  /\ fst (GetFramerate
            (snd (SetFramerate 10%float
                    (setMaxFPS f25_5
                       (session0 (ackFrame ([], crc0)
                                  ++ answers (hexAnswers
                                       [(uint8 (int_of_float (math_Round (f25_5 / 10)%float)), crc0)])
                                  ++ []))))))
     = Ok (fst (fst (SetFramerate 10%float
                      (setMaxFPS f25_5
                         (session0 (ackFrame ([], crc0)
                                    ++ answers (hexAnswers
                                         [(uint8 (int_of_float (math_Round (f25_5 / 10)%float)), crc0)])
                                    ++ [])))))).
Proof.
  apply (X10_GetFramerate_after_SetFramerate 10%float
           (setMaxFPS f25_5
              (session0 (ackFrame ([], crc0)
                         ++ answers (hexAnswers
                              [(uint8 (int_of_float (math_Round (f25_5 / 10)%float)), crc0)])
                         ++ [])))
           ([], crc0) crc0 []).
  - vm_compute. reflexivity.
  - vm_compute. split; discriminate.
  - reflexivity.
  - reflexivity.
  - vm_compute. discriminate.
  - reflexivity.
Defined.

(** ** Initialisation *)

Lemma readRegister_step (reg : register)
  (l : list (Z * (byte * byte * byte * byte))) (rest : list byte)
  (written : list (list byte)) (m : MI48) :
  List.length l = Z.to_nat (uint8 (Length reg)) ->
  Forall (fun v => 0 <= fst v < 256) l ->
  portAt m written (answers (hexAnswers l) ++ rest) ->
  exists m',
    readRegister reg m = (Ok (map (fun v => zbyte (fst v)) l), m')
    /\ portAt m' (written ++ readFrames (Address reg) 0 (List.length l)) rest
    /\ sameIdentity m m'.
Proof.
  intros Hn Hl (T & R & W & X).
  eexists. split; [apply (readRegister_hexAnswers reg l rest m Hn Hl W X R)|].
  unfold portAt, sameIdentity, afterExchange. cbn. rewrite T. repeat split.
Qed.

Lemma writeRegister_step (reg : register) (value : Z) (a : answer)
  (rest : list byte) (written : list (list byte)) (m : MI48) :
  ReadOnly reg = false ->
  blen (fst a) <= 65527 ->
  portAt m written (ackFrame a ++ rest) ->
  exists m',
    writeRegister reg value m = (Ok tt, m')
    /\ portAt m'
         (written ++ [list_byte_of_string (frameCommand (wregCommand (Address reg) value))])
         rest
    /\ sameIdentity m m'.
Proof.
  intros Hro Hlen (T & R & W & X).
  eexists. split; [apply (writeRegister_ackFrame m reg value a rest Hro W X Hlen R)|].
  unfold portAt, sameIdentity, afterExchange. cbn. rewrite T. repeat split.
Qed.

Lemma byteZ_zbyte (b : Z) : 0 <= b < 256 -> byteZ (zbyte b) = b.
Proof. intros H. destruct (hexByte_decode b H) as (_ & _ & _ & B & _). exact B. Qed.

(** X11: a camera type code that is not in [cameraTypes] ends [init] after
    the first exchange: it fails with "unknown camera type", no further
    command goes out, the type code read is kept in the session and the
    model name stays empty. *)
Theorem X11_init_unknown_type (m : MI48) (t : Z) (tr : byte * byte * byte * byte)
  (rest : list byte) :
  0 <= t < 256 ->
  lookup t cameraTypes = None ->
  wfail (serialPort m) = false ->
  readMutex m = false ->
  rx (serialPort m) = answers (hexAnswers [(t, tr)]) ++ rest ->
  fst (init m) = Err (Errorf "unknown camera type")
  /\ cameraType (snd (init m)) = t
  /\ CameraModel (snd (init m)) = EmptyString
  /\ tx (serialPort (snd (init m)))
     = tx (serialPort m) ++ [list_byte_of_string "   #000CRREGBAXXXXXX"]
  /\ rx (serialPort (snd (init m))) = rest.
Proof.
  intros Ht Hl Hw Hmx Hrx.
  unfold init, bind, assign, getCameraType, bind, wrap.
  assert (F : Forall (fun v : Z * (byte * byte * byte * byte) => 0 <= fst v < 256)
                     [(t, tr)]) by (constructor; [exact Ht | constructor]).
  rewrite (readRegister_hexAnswers SENXOR_TYPE [(t, tr)] rest m eq_refl F Hw Hmx Hrx).
  cbn [map fst]. unfold index. cbn [nth_error]. unfold ret.
  rewrite (byteZ_zbyte t Ht).
  session_simpl. rewrite Hl. cbn [fst snd]. session_simpl. repeat split.
Qed.

Lemma X11_init_unknown_type_witness :
  fst (init (session0 (answers (hexAnswers [(5, crc0)]) ++ [])))
  = Err (Errorf "unknown camera type")
  /\ cameraType (snd (init (session0 (answers (hexAnswers [(5, crc0)]) ++ [])))) = 5
  /\ CameraModel (snd (init (session0 (answers (hexAnswers [(5, crc0)]) ++ []))))
     = EmptyString
  /\ tx (serialPort (snd (init (session0 (answers (hexAnswers [(5, crc0)]) ++ [])))))
     = tx (serialPort (session0 (answers (hexAnswers [(5, crc0)]) ++ [])))
       ++ [list_byte_of_string "   #000CRREGBAXXXXXX"]
  /\ rx (serialPort (snd (init (session0 (answers (hexAnswers [(5, crc0)]) ++ []))))) = [].
Proof.
  apply (X11_init_unknown_type (session0 (answers (hexAnswers [(5, crc0)]) ++ []))
           5 crc0 []).
  - lia.
  - reflexivity.
  - reflexivity.
  - reflexivity.
  - reflexivity.
Defined.

Lemma answers_app (l1 l2 : list answer) :
  answers (l1 ++ l2) = answers l1 ++ answers l2.
Proof. unfold answers. rewrite map_app, concat_app. reflexivity. Qed.

Lemma hexAnswers_app (l1 l2 : list (Z * (byte * byte * byte * byte))) :
  hexAnswers (l1 ++ l2) = hexAnswers l1 ++ hexAnswers l2.
Proof. unfold hexAnswers. apply map_app. Qed.

Lemma getCameraType_step (v : Z * (byte * byte * byte * byte)) (rest : list byte)
  (written : list (list byte)) (m : MI48) :
  0 <= fst v < 256 ->
  portAt m written (answers (hexAnswers [v]) ++ rest) ->
  exists m',
    getCameraType m = (Ok (fst v), m')
    /\ portAt m' (written ++ readFrames 0xBA 0 1) rest
    /\ sameIdentity m m'.
Proof.
  intros Hv P.
  destruct (readRegister_step SENXOR_TYPE [v] rest written m eq_refl) as (m' & E & P' & I);
    [constructor; [exact Hv | constructor] | exact P |].
  exists m'. split; [|split; assumption].
  unfold getCameraType, bind, wrap. rewrite E. cbn [map]. unfold index.
  cbn [nth_error]. unfold ret. rewrite (byteZ_zbyte _ Hv). reflexivity.
Qed.

Lemma getMaxFPS_step (v : Z * (byte * byte * byte * byte)) (rest : list byte)
  (written : list (list byte)) (m : MI48) :
  0 <= fst v < 256 ->
  portAt m written (answers (hexAnswers [v]) ++ rest) ->
  exists m',
    getMaxFPS m = (Ok (maxFPSOf (fst v)), m')
    /\ portAt m' (written ++ readFrames 0xBA 0 1) rest
    /\ sameIdentity m m'.
Proof.
  intros Hv P.
  destruct (readRegister_step SENXOR_TYPE [v] rest written m eq_refl) as (m' & E & P' & I);
    [constructor; [exact Hv | constructor] | exact P |].
  exists m'. split; [|split; assumption].
  unfold getMaxFPS, bind, wrap. rewrite E. cbn [map]. unfold index.
  cbn [nth_error]. unfold ret. rewrite (byteZ_zbyte _ Hv). unfold maxFPSOf.
  destruct (fst v =? 0); [reflexivity|].
  destruct (fst v =? 1); [reflexivity|].
  destruct (fst v =? 2); reflexivity.
Qed.

Lemma getCameraID_step (ids : list (Z * (byte * byte * byte * byte)))
  (rest : list byte) (written : list (list byte)) (m : MI48) :
  List.length ids = 6%nat ->
  Forall (fun v => 0 <= fst v < 256) ids ->
  portAt m written (answers (hexAnswers ids) ++ rest) ->
  exists s m',
    getCameraID m = (Ok s, m')
    /\ portAt m' (written ++ readFrames 0xE0 0 6) rest
    /\ sameIdentity m m'.
Proof.
  intros Hn Hv P.
  destruct (readRegister_step SENXOR_ID ids rest written m Hn Hv P) as (m' & E & P' & I).
  rewrite Hn in P'.
  destruct ids as [|i0 [|i1 [|i2 [|i3 [|i4 [|i5 [|? ?]]]]]]]; try discriminate.
  eexists. exists m'. split; [|split; assumption].
  unfold getCameraID, bind, wrap. rewrite E. cbn [map]. unfold index.
  cbn [nth_error]. unfold ret. reflexivity.
Qed.

Lemma getFirmwareVersion_step (fws : list (Z * (byte * byte * byte * byte)))
  (rest : list byte) (written : list (list byte)) (m : MI48) :
  List.length fws = 2%nat ->
  Forall (fun v => 0 <= fst v < 256) fws ->
  portAt m written (answers (hexAnswers fws) ++ rest) ->
  exists s m',
    getFirmwareVersion m = (Ok s, m')
    /\ portAt m' (written ++ readFrames 0xB2 0 2) rest
    /\ sameIdentity m m'.
Proof.
  intros Hn Hv P.
  destruct (readRegister_step FW_VERSION fws rest written m Hn Hv P) as (m' & E & P' & I).
  rewrite Hn in P'.
  destruct fws as [|f0 [|f1 [|? ?]]]; try discriminate.
  eexists. exists m'. split; [|split; assumption].
  unfold getFirmwareVersion, bind, wrap. rewrite E. cbn [map]. unfold index.
  cbn [nth_error]. unfold ret. reflexivity.
Qed.

Lemma sameIdentity_trans (m1 m2 m3 : MI48) :
  sameIdentity m1 m2 -> sameIdentity m2 m3 -> sameIdentity m1 m3.
Proof. unfold sameIdentity. intros (A & B & C) (D & E & F). repeat split; congruence. Qed.

(** A write wrapped in its error message, as the setters issue it. *)
Lemma wrapped_write_step (msg : string) (reg : register) (value : Z) (a : answer)
  (rest : list byte) (written : list (list byte)) (m : MI48) :
  ReadOnly reg = false ->
  blen (fst a) <= 65527 ->
  portAt m written (ackFrame a ++ rest) ->
  exists m',
    wrap msg (writeRegister reg value) m = (Ok tt, m')
    /\ portAt m'
         (written ++ [list_byte_of_string (frameCommand (wregCommand (Address reg) value))])
         rest
    /\ sameIdentity m m'.
Proof.
  intros Hro Hlen P.
  destruct (writeRegister_step reg value a rest written m Hro Hlen P) as (m' & E & R).
  exists m'. split; [|exact R]. unfold wrap. rewrite E. reflexivity.
Qed.

(** The nine writes that end [init]: the default filters, the zero
    temperature offset and the default NETD configuration. *)
Lemma init_defaults_step (a1 a2 a3 a4 a5 a6 a7 a8 a9 : answer) (rest : list byte)
  (written : list (list byte)) (m : MI48) :
  Forall (fun a => blen (fst a) <= 65527) [a1; a2; a3; a4; a5; a6; a7; a8; a9] ->
  portAt m written (ackFrames [a1; a2; a3; a4; a5; a6; a7; a8; a9] ++ rest) ->
  exists m',
    (SetFilters DefaultFilterSettings ;;;
     SetTemperatureOffset 0%float ;;;
     SetNETD DefaultNETDConfig ;;;
     ret tt) m = (Ok tt, m')
    /\ portAt m'
         (written
          ++ map list_byte_of_string
               ["   #000CWREGD17DXXXX"; "   #000CWREGD200XXXX"; "   #000CWREGD304XXXX";
                "   #000CWREGD007XXXX"; "   #000CWREGCB00XXXX"; "   #000CWREGD514XXXX";
                "   #000CWREGD700XXXX"; "   #000CWREGD600XXXX"; "   #000CWREGD400XXXX"])
         rest
    /\ sameIdentity m m'.
Proof.
  intros Hok P.
  repeat match goal with
         | H : Forall _ (_ :: _) |- _ => inversion H; clear H; subst
         end.
  unfold ackFrames in P. cbn [map List.concat] in P. rewrite <- !app_assoc in P.
  rewrite app_nil_l in P.
  change (SetTemperatureOffset 0%float) with (writeRegister OFFSET_CORR 0).
  change (SetFilters DefaultFilterSettings)
    with (wrap "failed to set filter settings" (writeRegister FILTER_SETTING_1_LSB 125) ;;;
          wrap "failed to set filter settings" (writeRegister FILTER_SETTING_1_MSB 0) ;;;
          wrap "failed to set filter settings" (writeRegister FILTER_SETTING_2 4) ;;;
          wrap "failed to set filter control" (writeRegister FILTER_CONTROL 7) ;;;
          ret tt).
  change (SetNETD DefaultNETDConfig)
    with (wrap "failed to set NETD factor" (writeRegister NETD_FACTOR 0x14) ;;;
          wrap "failed to set NETD pixel Y" (writeRegister NETD_PIXEL_Y 0) ;;;
          wrap "failed to set NETD pixel X" (writeRegister NETD_PIXEL_X 0) ;;;
          wrap "failed to set NETD config" (writeRegister NETD_CONFIG 0) ;;;
          ret tt).
  destruct (wrapped_write_step "failed to set filter settings" FILTER_SETTING_1_LSB 125
              a1 _ _ m eq_refl ltac:(assumption) P) as (m1 & E1 & P1 & I1).
  destruct (wrapped_write_step "failed to set filter settings" FILTER_SETTING_1_MSB 0
              a2 _ _ m1 eq_refl ltac:(assumption) P1) as (m2 & E2 & P2 & I2).
  destruct (wrapped_write_step "failed to set filter settings" FILTER_SETTING_2 4
              a3 _ _ m2 eq_refl ltac:(assumption) P2) as (m3 & E3 & P3 & I3).
  destruct (wrapped_write_step "failed to set filter control" FILTER_CONTROL 7
              a4 _ _ m3 eq_refl ltac:(assumption) P3) as (m4 & E4 & P4 & I4).
  destruct (writeRegister_step OFFSET_CORR 0
              a5 _ _ m4 eq_refl ltac:(assumption) P4) as (m5 & E5 & P5 & I5).
  destruct (wrapped_write_step "failed to set NETD factor" NETD_FACTOR 0x14
              a6 _ _ m5 eq_refl ltac:(assumption) P5) as (m6 & E6 & P6 & I6).
  destruct (wrapped_write_step "failed to set NETD pixel Y" NETD_PIXEL_Y 0
              a7 _ _ m6 eq_refl ltac:(assumption) P6) as (m7 & E7 & P7 & I7).
  destruct (wrapped_write_step "failed to set NETD pixel X" NETD_PIXEL_X 0
              a8 _ _ m7 eq_refl ltac:(assumption) P7) as (m8 & E8 & P8 & I8).
  destruct (wrapped_write_step "failed to set NETD config" NETD_CONFIG 0
              a9 _ _ m8 eq_refl ltac:(assumption) P8) as (m9 & E9 & P9 & I9).
  exists m9. unfold bind, ret.
  rewrite E1; cbv beta iota. rewrite E2; cbv beta iota.
  rewrite E3; cbv beta iota. rewrite E4; cbv beta iota.
  rewrite E5; cbv beta iota. rewrite E6; cbv beta iota.
  rewrite E7; cbv beta iota. rewrite E8; cbv beta iota.
  rewrite E9; cbv beta iota.
  split; [reflexivity|]. split.
  - rewrite <- !app_assoc in P9. exact P9.
  - eapply sameIdentity_trans; [exact I1|]. eapply sameIdentity_trans; [exact I2|].
    eapply sameIdentity_trans; [exact I3|]. eapply sameIdentity_trans; [exact I4|].
    eapply sameIdentity_trans; [exact I5|]. eapply sameIdentity_trans; [exact I6|].
    eapply sameIdentity_trans; [exact I7|]. eapply sameIdentity_trans; [exact I8|].
    exact I9.
Qed.

(** X12: the sequence of [init]. On a device that answers every read with
    the two hex digits of a byte and acknowledges every write, and whose
    type code is in [cameraTypes], [init] succeeds after exactly nineteen
    exchanges, in this order: the type register 0xBA, the six bytes of the
    camera ID from 0xE0, the two bytes of the firmware version from 0xB2,
    the type register again, then the writes 0xD1 = 0x7D, 0xD2 = 0,
    0xD3 = 4, 0xD0 = 7 (default filters), 0xCB = 0 (offset), 0xD5 = 0x14,
    0xD7 = 0, 0xD6 = 0, 0xD4 = 0 (default NETD). The session holds the type
    code of the first read and its model name, and a MaxFPS derived from the
    second read of the type register; the stream is consumed up to what
    follows the last acknowledgement, and the mutex is free. *)
Theorem X12_init_sequence (m : MI48) (t1 t2 : Z * (byte * byte * byte * byte))
  (ids fws : list (Z * (byte * byte * byte * byte))) (acks : list answer)
  (model : string) (rest : list byte) :
  wfail (serialPort m) = false ->
  readMutex m = false ->
  List.length ids = 6%nat -> List.length fws = 2%nat -> List.length acks = 9%nat ->
  0 <= fst t1 < 256 -> 0 <= fst t2 < 256 ->
  Forall (fun v => 0 <= fst v < 256) ids ->
  Forall (fun v => 0 <= fst v < 256) fws ->
  Forall (fun a => blen (fst a) <= 65527) acks ->
  lookup (fst t1) cameraTypes = Some model ->
  rx (serialPort m)
  = answers (hexAnswers ([t1] ++ ids ++ fws ++ [t2])) ++ ackFrames acks ++ rest ->
  fst (init m) = Ok tt
  /\ cameraType (snd (init m)) = fst t1
  /\ CameraModel (snd (init m)) = model
  /\ MaxFPS (snd (init m)) = maxFPSOf (fst t2)
  /\ tx (serialPort (snd (init m)))
     = tx (serialPort m)
       ++ map list_byte_of_string
            ["   #000CRREGBAXXXXXX";
             "   #000CRREGE0XXXXXX"; "   #000CRREGE1XXXXXX"; "   #000CRREGE2XXXXXX";
             "   #000CRREGE3XXXXXX"; "   #000CRREGE4XXXXXX"; "   #000CRREGE5XXXXXX";
             "   #000CRREGB2XXXXXX"; "   #000CRREGB3XXXXXX";
             "   #000CRREGBAXXXXXX";
             "   #000CWREGD17DXXXX"; "   #000CWREGD200XXXX"; "   #000CWREGD304XXXX";
             "   #000CWREGD007XXXX"; "   #000CWREGCB00XXXX"; "   #000CWREGD514XXXX";
             "   #000CWREGD700XXXX"; "   #000CWREGD600XXXX"; "   #000CWREGD400XXXX"]
  /\ rx (serialPort (snd (init m))) = rest
  /\ readMutex (snd (init m)) = false.
Proof.
  intros Hw Hmx Hids Hfws Hacks Ht1 Ht2 Fids Ffws Facks Hmodel Hrx.
  destruct acks as [|a1 [|a2 [|a3 [|a4 [|a5 [|a6 [|a7 [|a8 [|a9 [|? ?]]]]]]]]]];
    try discriminate.
  rewrite !hexAnswers_app, !answers_app, <- !app_assoc in Hrx.
  assert (P0 : portAt m (tx (serialPort m)) (rx (serialPort m)))
    by (repeat split; assumption).
  rewrite Hrx in P0.
  destruct (getCameraType_step t1 _ _ m Ht1 P0) as (m1 & E1 & P1 & I1).
  assert (P1' : portAt (setCameraModel model (setCameraType (fst t1) m1))
                  (tx (serialPort m) ++ readFrames 0xBA 0 1)
                  (answers (hexAnswers ids) ++ answers (hexAnswers fws)
                   ++ answers (hexAnswers [t2])
                   ++ ackFrames [a1; a2; a3; a4; a5; a6; a7; a8; a9] ++ rest))
    by exact P1.
  destruct (getCameraID_step ids _ _ _ Hids Fids P1') as (sid & m2 & E2 & P2 & I2).
  assert (P2' : portAt (setSerialInfo sid m2)
                  ((tx (serialPort m) ++ readFrames 0xBA 0 1) ++ readFrames 0xE0 0 6)
                  (answers (hexAnswers fws) ++ answers (hexAnswers [t2])
                   ++ ackFrames [a1; a2; a3; a4; a5; a6; a7; a8; a9] ++ rest))
    by exact P2.
  destruct (getFirmwareVersion_step fws _ _ _ Hfws Ffws P2') as (sfw & m3 & E3 & P3 & I3).
  assert (P3' : portAt (setFirmwareVersion sfw m3)
                  (((tx (serialPort m) ++ readFrames 0xBA 0 1) ++ readFrames 0xE0 0 6)
                   ++ readFrames 0xB2 0 2)
                  (answers (hexAnswers [t2])
                   ++ ackFrames [a1; a2; a3; a4; a5; a6; a7; a8; a9] ++ rest))
    by exact P3.
  destruct (getMaxFPS_step t2 _ _ _ Ht2 P3') as (m4 & E4 & P4 & I4).
  assert (P4' : portAt (setMaxFPS (maxFPSOf (fst t2)) m4)
                  ((((tx (serialPort m) ++ readFrames 0xBA 0 1) ++ readFrames 0xE0 0 6)
                    ++ readFrames 0xB2 0 2) ++ readFrames 0xBA 0 1)
                  (ackFrames [a1; a2; a3; a4; a5; a6; a7; a8; a9] ++ rest))
    by exact P4.
  destruct (init_defaults_step a1 a2 a3 a4 a5 a6 a7 a8 a9 rest _ _ Facks P4')
    as (m5 & E5 & P5 & I5).
  assert (R : init m = (Ok tt, m5)).
  { unfold init. unfold bind at 1. unfold assign at 1. rewrite E1.
    unfold bind at 1. change (cameraType (setCameraType (fst t1) m1)) with (fst t1).
    rewrite Hmodel.
    unfold bind at 1. unfold assign at 1. rewrite E2.
    unfold bind at 1. unfold assign at 1. rewrite E3.
    unfold bind at 1. unfold assign at 1. rewrite E4.
    exact E5. }
  rewrite R. cbn [fst snd].
  destruct P5 as (T5 & R5 & _ & X5).
  destruct I5 as (C5 & M5 & F5). destruct I4 as (C4 & M4 & F4).
  destruct I3 as (C3 & M3 & F3). destruct I2 as (C2 & M2 & F2).
  unfold setMaxFPS, setFirmwareVersion, setSerialInfo, setCameraModel, setCameraType in *.
  cbn [cameraType CameraModel MaxFPS] in *.
  split; [reflexivity|].
  split; [congruence|]. split; [congruence|]. split; [congruence|].
  split; [|split; assumption].
  rewrite T5, <- !app_assoc. reflexivity.
Qed.

Lemma X12_init_sequence_witness :
  fst (init (session0
               (answers (hexAnswers
                  ([(2, crc0)]
                   ++ [(24, crc0); (12, crc0); (161, crc0); (0, crc0); (18, crc0); (52, crc0)]
                   ++ [(50, crc0); (7, crc0)] ++ [(2, crc0)]))
                ++ ackFrames (repeat ([], crc0) 9) ++ [])))
  = Ok tt
  /\ MaxFPS (snd (init (session0
               (answers (hexAnswers
                  ([(2, crc0)]
                   ++ [(24, crc0); (12, crc0); (161, crc0); (0, crc0); (18, crc0); (52, crc0)]
                   ++ [(50, crc0); (7, crc0)] ++ [(2, crc0)]))
                ++ ackFrames (repeat ([], crc0) 9) ++ []))))
     = maxFPSOf (fst (2, crc0)).
Proof.
  destruct (X12_init_sequence
              (session0
                 (answers (hexAnswers
                    ([(2, crc0)]
                     ++ [(24, crc0); (12, crc0); (161, crc0); (0, crc0); (18, crc0); (52, crc0)]
                     ++ [(50, crc0); (7, crc0)] ++ [(2, crc0)]))
                  ++ ackFrames (repeat ([], crc0) 9) ++ []))
              (2, crc0) (2, crc0)
              [(24, crc0); (12, crc0); (161, crc0); (0, crc0); (18, crc0); (52, crc0)]
              [(50, crc0); (7, crc0)] (repeat ([], crc0) 9) "MI0301" [])
    as (A & _ & _ & B & _).
  - reflexivity.
  - reflexivity.
  - reflexivity.
  - reflexivity.
  - reflexivity.
  - simpl. lia.
  - simpl. lia.
  - repeat constructor; simpl; lia.
  - repeat constructor; simpl; lia.
  - repeat constructor; vm_compute; discriminate.
  - reflexivity.
  - reflexivity.
  - split; [exact A | exact B].
Defined.

(** * Further properties of the streaming goroutine *)

Lemma streamLoop_first_iteration_locks (fuel : nat) (done : nat -> bool) (i : nat)
  (ch : Stream) (m : MI48) :
  done i = false ->
  readMutex m = false ->
  readMutex (snd (streamLoop (S fuel) done i ch m)) = true
  /\ wfail (serialPort (snd (streamLoop (S fuel) done i ch m)))
     = wfail (serialPort m).
Proof.
  intros Hd Hmx. cbn [streamLoop]. rewrite Hd, Hmx.
  set (m1 := logEvent EvLock (withMutex true m)).
  pose proof (readPacket_readsOnly m1) as R.
  destruct (readPacket m1) as [[[pt d]|e| | |] m2]; cbn [snd] in R;
    destruct R as (_ & W & _ & _ & _ & _ & _ & X & _).
  2-5: cbn [snd]; split; [rewrite X | rewrite W]; reflexivity.
  assert (L : readMutex m2 = true) by (rewrite X; reflexivity).
  assert (W' : wfail (serialPort m2) = wfail (serialPort m)) by (rewrite W; reflexivity).
  destruct (pt =? "GFRA")%string.
  - destruct (blen d <? _); [split; assumption|].
    destruct (List.length (videoStream ch) <? 10)%nat; [|split; assumption].
    rewrite streamLoop_locked by exact L. split; assumption.
  - rewrite streamLoop_locked by exact L. split; assumption.
Qed.

(** X13: a full-size image frame. When the frame the goroutine decodes next
    is a GFRA frame whose payload has at least the bytes of the session's
    geometry and the channel has room, the frame sent carries as pixel
    buffer the last bytes of the payload (the header in front is dropped),
    exactly as many as the geometry asks for. The goroutine still holds the
    mutex: unless the context is cancelled by then (it then returns and
    closes the channel), its next iteration blocks on its own lock. *)
Theorem X13_streamLoop_sends_payload_tail (fuel : nat) (done : nat -> bool)
  (i : nat) (ch : Stream) (m : MI48) (data rest : list byte) (t0 t1 t2 t3 : byte) :
  done i = false ->
  readMutex m = false ->
  rx (serialPort m) = reply "GFRA" data [t0; t1; t2; t3] ++ rest ->
  (List.length (image.Pix (image.NewGray16 (sensorSize (cameraType m))))
   <= List.length data)%nat ->
  blen data <= 65527 ->
  (List.length (videoStream ch) < 10)%nat ->
  let pixels := List.length (image.Pix (image.NewGray16 (sensorSize (cameraType m)))) in
  let frame :=
    image.mkGray16 (skipn (List.length data - pixels) data)
                   (2 * image.Dx (sensorSize (cameraType m)))
                   (sensorSize (cameraType m)) in
  streamLoop (S (S fuel)) done i ch m
  = (if done (S i) then Ok tt else Blocked,
     mkStream (videoStream ch ++ [frame]) (if done (S i) then true else closed ch),
     afterReads rest (EvLock :: frameReads data) (withMutex true m))
  /\ List.length (image.Pix frame) = pixels.
Proof.
  intros Hd Hmx Hrx Hge Hlen Hroom pixels frame.
  destruct (reply_length_ok data Hlen) as [Hl Hp].
  split.
  - cbn [streamLoop]. rewrite Hd, Hmx.
    rewrite (readPacket_frame (logEvent EvLock (withMutex true m)) (blen data + 8)
               (list_byte_of_string "GFRA") data rest t0 t1 t2 t3 Hl eq_refl Hp Hrx).
    rewrite string_of_list_byte_of_string. rewrite String.eqb_refl.
    change (cameraType (afterReads rest (frameReads data)
                          (logEvent EvLock (withMutex true m))))
      with (cameraType m).
    assert (C : (blen data <? blen (image.Pix (image.NewGray16 (sensorSize (cameraType m)))))
                = false) by (apply Z.ltb_ge; unfold blen; lia).
    rewrite C.
    assert (R : (List.length (videoStream ch) <? 10)%nat = true)
      by (apply Nat.ltb_lt; exact Hroom).
    rewrite R.
    change (readMutex (afterReads rest (frameReads data)
                         (logEvent EvLock (withMutex true m))))
      with true.
    destruct (done (S i)); unfold close; cbn [videoStream closed];
      unfold afterReads, logEvent, withMutex; cbn; rewrite <- app_assoc; reflexivity.
  - unfold frame. cbn [image.Pix]. rewrite length_skipn. fold pixels. lia.
Qed.

Lemma X13_streamLoop_sends_payload_tail_witness :
  streamLoop 2 (fun _ => false) 0 (mkStream [] false)
    (setCameraType 2
       (session0 (reply "GFRA" (repeat x41 4 ++ repeat x30 2048) [x43; x52; x43; x5f]
                  ++ [])))
  = (Blocked,
     mkStream
       ([] ++ [image.mkGray16
                 (skipn (List.length (repeat x41 4 ++ repeat x30 2048)
                         - List.length (image.Pix (image.NewGray16 (sensorSize 2))))
                        (repeat x41 4 ++ repeat x30 2048))
                 (2 * image.Dx (sensorSize 2)) (sensorSize 2)])
       false,
     afterReads [] (EvLock :: frameReads (repeat x41 4 ++ repeat x30 2048))
       (withMutex true
          (setCameraType 2
             (session0 (reply "GFRA" (repeat x41 4 ++ repeat x30 2048)
                          [x43; x52; x43; x5f] ++ []))))).
Proof.
  apply (X13_streamLoop_sends_payload_tail 0 (fun _ => false) 0 (mkStream [] false)
           (setCameraType 2
              (session0 (reply "GFRA" (repeat x41 4 ++ repeat x30 2048)
                           [x43; x52; x43; x5f] ++ [])))
           (repeat x41 4 ++ repeat x30 2048) [] x43 x52 x43 x5f).
  - reflexivity.
  - reflexivity.
  - reflexivity.
  - vm_compute. lia.
  - vm_compute. discriminate.
  - simpl. lia.
Defined.

(** X14: once the streaming goroutine has run an iteration (the context not
    cancelled, the mutex free), the mutex stays locked whatever the device
    sent and however the goroutine ended, since it never unlocks. Every
    later [sendCommand] on the session writes its command frame and then
    blocks on the mutex. *)
Theorem X14_commands_block_after_stream (fuel : nat) (done : nat -> bool) (i : nat)
  (ch : Stream) (m : MI48) (cmd : string) :
  done i = false ->
  readMutex m = false ->
  wfail (serialPort m) = false ->
  (4 <= String.length cmd)%nat ->
  fst (sendCommand cmd (snd (streamLoop (S fuel) done i ch m))) = Blocked
  /\ tx (serialPort (snd (sendCommand cmd (snd (streamLoop (S fuel) done i ch m)))))
     = tx (serialPort (snd (streamLoop (S fuel) done i ch m)))
       ++ [list_byte_of_string (frameCommand cmd)].
Proof.
  intros Hd Hmx Hw Hcmd.
  destruct (streamLoop_first_iteration_locks fuel done i ch m Hd Hmx) as [L W].
  rewrite Hw in W.
  set (m' := snd (streamLoop (S fuel) done i ch m)) in *.
  unfold sendCommand.
  assert (C : (String.length cmd <? 4)%nat = false) by (apply Nat.ltb_ge; exact Hcmd).
  rewrite C. unfold port_Write. cbn [logEvent serialPort]. rewrite W.
  cbn [withPort readMutex].
  change (readMutex (logEvent EvWrite m')) with (readMutex m'). rewrite L.
  split; reflexivity.
Qed.

Lemma X14_commands_block_after_stream_witness :
  fst (sendCommand "RREGB4XXXXXX"
         (snd (streamLoop 1 (fun _ => false) 0 (mkStream [] false) (session0 []))))
  = Blocked
  /\ tx (serialPort
           (snd (sendCommand "RREGB4XXXXXX"
                   (snd (streamLoop 1 (fun _ => false) 0 (mkStream [] false)
                           (session0 []))))))
     = tx (serialPort (snd (streamLoop 1 (fun _ => false) 0 (mkStream [] false)
                              (session0 []))))
       ++ [list_byte_of_string (frameCommand "RREGB4XXXXXX")].
Proof.
  apply (X14_commands_block_after_stream 0 (fun _ => false) 0 (mkStream [] false)
           (session0 []) "RREGB4XXXXXX").
  - reflexivity.
  - reflexivity.
  - reflexivity.
  - simpl. lia.
Defined.

(** * Further properties of the session operations *)

(** X15: the temperature offset is cut, not rounded. For every offset of a
    whole number [k] of 0.05-degree steps, 0 <= k <= 255, given as
    [float64(k)/20], [SetTemperatureOffset] writes [k] or [k - 1] to the
    offset register; for 0.15 (three steps) it writes 2. *)
Theorem X15_offset_within_one_step (m : MI48) :
  wfail (serialPort m) = false ->
  (forall k : Z, 0 <= k <= 255 ->
     exists v,
       tx (serialPort (snd (SetTemperatureOffset (float_of_int k / 20)%float m)))
       = tx (serialPort m) ++ [list_byte_of_string (frameCommand (wregCommand 0xCB v))]
       /\ (v = k \/ v = k - 1))
  /\ tx (serialPort (snd (SetTemperatureOffset (float_of_int 3 / 20)%float m)))
     = tx (serialPort m) ++ [list_byte_of_string "   #000CWREGCB02XXXX"].
Proof.
  intros Hw.
  assert (G : forall offset : float,
      tx (serialPort (snd (SetTemperatureOffset offset m)))
      = tx (serialPort m)
          ++ [list_byte_of_string
                (frameCommand
                   (wregCommand 0xCB
                      (if (offset / f0_05 <? 0)%float
                       then uint8_of_float (256 - abs (offset / f0_05))%float
                       else uint8_of_float (offset / f0_05)%float)))]).
  { intros offset. unfold SetTemperatureOffset, math_Abs.
    destruct (offset / f0_05 <? 0)%float;
      rewrite writeRegister_tx by (reflexivity || exact Hw); reflexivity. }
  split.
  - intros k Hk. eexists. split; [apply G|].
    assert (A : forallb offsetWithinOneStep (zrange 256) = true)
      by (vm_compute; reflexivity).
    rewrite forallb_forall in A. specialize (A k (zrange_In 256 k ltac:(lia))).
    unfold offsetWithinOneStep in A. cbv zeta in A.
    apply orb_prop in A. destruct A as [A|A]; apply Z.eqb_eq in A; [left|right]; exact A.
  - rewrite G. do 2 f_equal.
Qed.

Lemma X15_offset_within_one_step_witness :
  tx (serialPort (snd (SetTemperatureOffset (float_of_int 3 / 20)%float (session0 []))))
  = tx (serialPort (session0 [])) ++ [list_byte_of_string "   #000CWREGCB02XXXX"].
Proof.
  apply (X15_offset_within_one_step (session0 [])). reflexivity.
Defined.

(** * Port discovery *)

Lemma getSerialPort_range_skips (V : string) (P : list string)
  (E : string -> string -> bool) (pre rest : list PortDetails) :
  Forall (fun q => isMI48 V P E q = false) pre ->
  getSerialPort_range V P E (pre ++ rest) = getSerialPort_range V P E rest.
Proof.
  induction 1 as [|q pre Hq _ IH]; [reflexivity|].
  cbn [app getSerialPort_range]. rewrite Hq. exact IH.
Qed.

(** X16: [getSerialPort] returns the name of the first listed port whose
    vendor ID matches (up to case folding) and whose product ID is one of
    the known ones; ports listed before it that do not match are passed
    over. When no listed port matches it returns the empty name and no
    error, so that [Open] without an argument goes on to open the port named
    by the empty string; an explicit port name is used as it is, whatever the
    enumeration says. *)
Theorem X16_getSerialPort_first_match (V : string) (P : list string)
  (E : string -> string -> bool) :
  (forall (pre post : list PortDetails) (port : PortDetails),
      Forall (fun q => isMI48 V P E q = false) pre ->
      isMI48 V P E port = true ->
      getSerialPort V P E (inl (pre ++ port :: post)) = (Name port, None)
      /\ Open_portName V P E [] (inl (pre ++ port :: post)) = inl (Name port))
  /\ (forall ports : list PortDetails,
         Forall (fun q => isMI48 V P E q = false) ports ->
         getSerialPort V P E (inl ports) = (EmptyString, None)
         /\ Open_portName V P E [] (inl ports) = inl EmptyString)
  /\ (forall (name : string) (more : list string) (listed : list PortDetails + error),
         Open_portName V P E (name :: more) listed = inl name).
Proof.
  split; [|split].
  - intros pre post port Hpre Hport.
    assert (G : getSerialPort V P E (inl (pre ++ port :: post)) = (Name port, None)).
    { cbn [getSerialPort]. rewrite (getSerialPort_range_skips V P E pre _ Hpre).
      cbn [getSerialPort_range]. rewrite Hport. reflexivity. }
    split; [exact G|]. unfold Open_portName. rewrite G. reflexivity.
  - intros ports Hports.
    assert (G : getSerialPort V P E (inl ports) = (EmptyString, None)).
    { cbn [getSerialPort]. rewrite <- (app_nil_r ports).
      rewrite (getSerialPort_range_skips V P E ports [] Hports). reflexivity. }
    split; [exact G|]. unfold Open_portName. rewrite G. reflexivity.
  - intros name more listed. reflexivity.
Qed.

(** * The consumer of the stream *)

Lemma streamLoop_returned_closed (fuel : nat) :
  forall (done : nat -> bool) (i : nat) (ch : Stream) (m : MI48),
    fst (fst (streamLoop fuel done i ch m)) = Ok tt ->
    closed (snd (fst (streamLoop fuel done i ch m))) = true.
Proof.
  induction fuel as [|fuel IH]; intros done i ch m; cbn [streamLoop].
  - discriminate.
  - destruct (done i); [reflexivity|].
    destruct (readMutex m); [discriminate|].
    destruct (readPacket _) as [[[pt d]|e| | |] m2]; try discriminate;
      try reflexivity.
    destruct (pt =? "GFRA")%string; [|apply IH].
    destruct (blen d <? _); [reflexivity|].
    destruct (List.length (videoStream ch) <? 10)%nat; [apply IH | discriminate].
Qed.

(** X17: the goroutine and its consumer. Whenever the streaming goroutine has
    returned (the context was cancelled, a read failed, or an image frame
    was undersized) and no frame is left in the channel, the channel is
    closed, the receive in [cv.Read] yields a nil frame, and [Read] panics
    on it. *)
Theorem X17_Read_panics_after_stream_end (fuel : nat) (done : nat -> bool)
  (i : nat) (ch : Stream) (m : MI48) :
  fst (fst (streamLoop fuel done i ch m)) = Ok tt ->
  videoStream (snd (fst (streamLoop fuel done i ch m))) = [] ->
  fst (cv.Read (snd (fst (streamLoop fuel done i ch m)))) = Panic.
Proof.
  intros Hret Hempty.
  pose proof (streamLoop_returned_closed fuel done i ch m Hret) as Hc.
  unfold cv.Read, cv.receive. rewrite Hempty, Hc. reflexivity.
Qed.

Lemma X17_Read_panics_after_stream_end_witness :
  fst (cv.Read (snd (fst (streamLoop 3 (fun _ => false) 0 (mkStream [] false)
                            (session0 [])))))
  = Panic.
Proof.
  apply (X17_Read_panics_after_stream_end 3 (fun _ => false) 0 (mkStream [] false)
           (session0 [])).
  - reflexivity.
  - reflexivity.
Defined.

Lemma Gray16_At_inside (g : image.Gray16) (w h x y : Z) :
  image.Bounds g = image.mkRectangle (image.mkPoint 0 0) (image.mkPoint w h) ->
  image.Stride g = 2 * w ->
  List.length (image.Pix g) = Z.to_nat (2 * w * h) ->
  0 <= x < w -> 0 <= y < h ->
  Gray16_At g x y
  = Some (Z.lor (Z.shiftl (byteZ (nth (Z.to_nat (2 * (y * w + x))) (image.Pix g) x00)) 8)
                (byteZ (nth (Z.to_nat (2 * (y * w + x) + 1)) (image.Pix g) x00))).
Proof.
  intros Hb Hs Hl Hx Hy.
  assert (Hsz : 2 * (y * w + x) + 2 <= 2 * w * h) by nia.
  assert (Hyw : 0 <= y * w) by nia.
  unfold Gray16_At, Gray16_PixOffset, Point_In. rewrite Hb, Hs.
  cbn [image.Min image.Max image.X image.Y].
  replace ((y - 0) * (2 * w) + (x - 0) * 2) with (2 * (y * w + x)) by lia.
  assert (I : (0 <=? x) && (x <? w) && (0 <=? y) && (y <? h) = true).
  { rewrite !andb_true_iff, !Z.leb_le, !Z.ltb_lt. lia. }
  rewrite I. cbn [negb].
  assert (O : (2 * (y * w + x) <? 0) || (blen (image.Pix g) <? 2 * (y * w + x) + 2) = false).
  { apply orb_false_iff. rewrite !Z.ltb_ge. unfold blen. lia. }
  rewrite O.
  rewrite (nth_error_nth' (image.Pix g) x00 (n := Z.to_nat (2 * (y * w + x)))) by lia.
  rewrite (nth_error_nth' (image.Pix g) x00 (n := Z.to_nat (2 * (y * w + x) + 1))) by lia.
  reflexivity.
Qed.

Lemma Read_columns_inside (g : image.Gray16) (w h : Z) (j : nat) :
  image.Bounds g = image.mkRectangle (image.mkPoint 0 0) (image.mkPoint w h) ->
  image.Stride g = 2 * w ->
  List.length (image.Pix g) = Z.to_nat (2 * w * h) ->
  Z.of_nat j < h ->
  forall (n k0 : nat) (calls : list (Z * Z * Z)),
    Z.of_nat (k0 + n) <= w ->
    cv.Read_columns n g (Z.of_nat j) (Z.of_nat k0) calls
    = Ok (calls ++ map (fun k => (Z.of_nat j, Z.of_nat k,
                                  pixelValue (image.Pix g) w (Z.of_nat k) (Z.of_nat j)))
                       (seq k0 n)).
Proof.
  intros Hb Hs Hl Hj. induction n as [|n IH]; intros k0 calls Hk.
  - cbn [cv.Read_columns seq map]. rewrite app_nil_r. reflexivity.
  - cbn [cv.Read_columns seq map].
    rewrite (Gray16_At_inside g w h (Z.of_nat k0) (Z.of_nat j) Hb Hs Hl) by lia.
    replace (Z.of_nat k0 + 1) with (Z.of_nat (S k0)) by lia.
    rewrite IH by lia. rewrite <- app_assoc. reflexivity.
Qed.

Lemma Read_rows_inside (g : image.Gray16) (w h : Z) :
  image.Bounds g = image.mkRectangle (image.mkPoint 0 0) (image.mkPoint w h) ->
  image.Stride g = 2 * w ->
  List.length (image.Pix g) = Z.to_nat (2 * w * h) ->
  0 <= w ->
  forall (n j0 : nat) (calls : list (Z * Z * Z)),
    Z.of_nat (j0 + n) <= h ->
    cv.Read_rows n g (Z.of_nat j0) calls
    = Ok (calls
          ++ flat_map
               (fun j => map (fun k => (Z.of_nat j, Z.of_nat k,
                                        pixelValue (image.Pix g) w (Z.of_nat k) (Z.of_nat j)))
                             (seq 0 (Z.to_nat w)))
               (seq j0 n)).
Proof.
  intros Hb Hs Hl Hw. induction n as [|n IH]; intros j0 calls Hj.
  - cbn [cv.Read_rows seq flat_map]. rewrite app_nil_r. reflexivity.
  - cbn [cv.Read_rows seq flat_map]. rewrite Hb.
    cbn [image.Min image.Max image.X image.Y].
    replace (w - 0) with w by lia.
    pose proof (Read_columns_inside g w h j0 Hb Hs Hl ltac:(lia) (Z.to_nat w) 0%nat calls
                  ltac:(lia)) as RC.
    change (Z.of_nat 0) with 0 in RC. rewrite RC.
    replace (Z.of_nat j0 + 1) with (Z.of_nat (S j0)) by lia.
    rewrite IH by lia. rewrite <- app_assoc. reflexivity.
Qed.

(** X18: the order and the values of the pixels handed to the matrix. For a
    frame of [w] by [h] pixels anchored at the origin, with two bytes for
    each pixel and rows of [2 * w] bytes, [cv.Read] takes the oldest frame
    from the channel and makes exactly [w * h] calls to [SetShortAt], row by
    row and within a row column by column, as [(row, column, value)]; the
    value for the pixel in column [x] of row [y] is the big-endian 16-bit
    number in the bytes [2 * (y * w + x)] and [2 * (y * w + x) + 1] of the
    pixel buffer, reinterpreted as a signed 16-bit number (values from 32768
    on come out negative). *)
Theorem X18_Read_row_major (g : image.Gray16) (w h : Z) (more : list image.Gray16)
  (c : bool) :
  image.Bounds g = image.mkRectangle (image.mkPoint 0 0) (image.mkPoint w h) ->
  image.Stride g = 2 * w ->
  List.length (image.Pix g) = Z.to_nat (2 * w * h) ->
  0 <= w -> 0 <= h ->
  cv.Read (mkStream (g :: more) c)
  = (Ok (rowMajorCalls (image.Pix g) w h), mkStream more c)
  /\ List.length (rowMajorCalls (image.Pix g) w h) = Z.to_nat (w * h)
  /\ (forall x y : Z, 0 <= x < w -> 0 <= y < h ->
        nth_error (rowMajorCalls (image.Pix g) w h) (Z.to_nat (y * w + x))
        = Some (y, x, pixelValue (image.Pix g) w x y)).
Proof.
  intros Hb Hs Hl Hw Hh. split; [|split].
  - unfold cv.Read, cv.receive. cbn [videoStream closed]. rewrite Hb.
    cbn [image.Min image.Max image.X image.Y].
    replace (h - 0) with h by lia.
    pose proof (Read_rows_inside g w h Hb Hs Hl Hw (Z.to_nat h) 0%nat [] ltac:(lia)) as RR.
    change (Z.of_nat 0) with 0 in RR. rewrite RR. reflexivity.
  - unfold rowMajorCalls.
    assert (G : forall l : list nat,
               List.length
                 (flat_map
                    (fun j => map (fun k => (Z.of_nat j, Z.of_nat k,
                                             pixelValue (image.Pix g) w (Z.of_nat k)
                                                        (Z.of_nat j)))
                                  (seq 0 (Z.to_nat w))) l)
               = (List.length l * Z.to_nat w)%nat).
    { induction l as [|a l IH]; [reflexivity|].
      cbn [flat_map]. rewrite length_app, IH, length_map, length_seq. reflexivity. }
    rewrite G, length_seq. nia.
  - intros x y Hx Hy. unfold rowMajorCalls.
    assert (G : forall (n j0 q : nat) (k : nat),
               (q < n)%nat -> (k < Z.to_nat w)%nat ->
               nth_error
                 (flat_map
                    (fun j => map (fun k => (Z.of_nat j, Z.of_nat k,
                                             pixelValue (image.Pix g) w (Z.of_nat k)
                                                        (Z.of_nat j)))
                                  (seq 0 (Z.to_nat w))) (seq j0 n))
                 (q * Z.to_nat w + k)
               = Some (Z.of_nat (j0 + q), Z.of_nat k,
                       pixelValue (image.Pix g) w (Z.of_nat k) (Z.of_nat (j0 + q)))).
    { induction n as [|n IH]; intros j0 q k Hq Hk; [lia|].
      cbn [seq flat_map]. destruct q as [|q].
      - rewrite nth_error_app1 by (rewrite length_map, length_seq; lia).
        cbn [Nat.mul Nat.add]. rewrite nth_error_map.
        rewrite nth_error_nth' with (d := 0%nat) by (rewrite length_seq; lia).
        rewrite seq_nth by lia. cbn [option_map Nat.add].
        rewrite Nat.add_0_r. reflexivity.
      - rewrite nth_error_app2 by (rewrite length_map, length_seq; lia).
        rewrite length_map, length_seq.
        replace (S q * Z.to_nat w + k - Z.to_nat w)%nat with (q * Z.to_nat w + k)%nat
          by lia.
        rewrite IH by lia.
        replace (S j0 + q)%nat with (j0 + S q)%nat by lia. reflexivity. }
    replace (Z.to_nat (y * w + x)) with (Z.to_nat y * Z.to_nat w + Z.to_nat x)%nat by nia.
    rewrite G by lia. cbn [Nat.add].
    rewrite !Z2Nat.id by lia. reflexivity.
Qed.

Lemma X18_Read_row_major_witness :
  cv.Read (mkStream [image.mkGray16 [x00; x01; x80; x00; xff; xff; x00; x2a] 4
                       (image.Rect 0 0 2 2)] false)
  = (Ok [(0, 0, 1); (0, 1, -32768); (1, 0, -1); (1, 1, 42)], mkStream [] false).
Proof.
  destruct (X18_Read_row_major
              (image.mkGray16 [x00; x01; x80; x00; xff; xff; x00; x2a] 4
                 (image.Rect 0 0 2 2))
              2 2 [] false) as (R & _ & _).
  - reflexivity.
  - reflexivity.
  - reflexivity.
  - discriminate.
  - discriminate.
  - exact R.
Defined.

(** * From [StartStream] to the matrix *)

Lemma Read_oldest_frame (s : Stream) (g : image.Gray16) (more : list image.Gray16)
  (w h : Z) :
  videoStream s = g :: more ->
  image.Bounds g = image.mkRectangle (image.mkPoint 0 0) (image.mkPoint w h) ->
  image.Stride g = 2 * w ->
  List.length (image.Pix g) = Z.to_nat (2 * w * h) ->
  0 <= w -> 0 <= h ->
  fst (cv.Read s) = Ok (rowMajorCalls (image.Pix g) w h).
Proof.
  intros Hv Hb Hs Hl Hw Hh.
  unfold cv.Read, cv.receive. rewrite Hv. cbn [fst]. rewrite Hb.
  cbn [image.Min image.Max image.X image.Y].
  replace (h - 0) with h by lia.
  pose proof (Read_rows_inside g w h Hb Hs Hl Hw (Z.to_nat h) 0%nat [] ltac:(lia)) as RR.
  change (Z.of_nat 0) with 0 in RR. rewrite RR. reflexivity.
Qed.

Lemma sensorSize_origin (t : Z) :
  sensorSize t
  = image.mkRectangle (image.mkPoint 0 0)
      (image.mkPoint (image.Dx (sensorSize t)) (image.Dy (sensorSize t)))
  /\ 0 <= image.Dx (sensorSize t) /\ 0 <= image.Dy (sensorSize t).
Proof.
  unfold sensorSize, sensorSizes. cbn [lookup].
  repeat match goal with |- context [if ?c then _ else _] => destruct c end.
  all: vm_compute; repeat split; discriminate.
Qed.

Lemma streamLoop_delivers (fuel : nat) (done : nat -> bool) (i : nat) (ch : Stream)
  (m : MI48) (data rest : list byte) (t0 t1 t2 t3 : byte) :
  done i = false ->
  readMutex m = false ->
  rx (serialPort m) = reply "GFRA" data [t0; t1; t2; t3] ++ rest ->
  (List.length (image.Pix (image.NewGray16 (sensorSize (cameraType m))))
   <= List.length data)%nat ->
  blen data <= 65527 ->
  (List.length (videoStream ch) < 10)%nat ->
  videoStream (snd (fst (streamLoop (S (S fuel)) done i ch m)))
  = videoStream ch
    ++ [image.mkGray16
          (skipn (List.length data
                  - List.length (image.Pix (image.NewGray16 (sensorSize (cameraType m)))))
                 data)
          (2 * image.Dx (sensorSize (cameraType m)))
          (sensorSize (cameraType m))].
Proof.
  intros Hd Hmx Hrx Hge Hlen Hroom.
  destruct (reply_length_ok data Hlen) as [Hl Hp].
  cbn [streamLoop]. rewrite Hd, Hmx.
  rewrite (readPacket_frame (logEvent EvLock (withMutex true m)) (blen data + 8)
             (list_byte_of_string "GFRA") data rest t0 t1 t2 t3 Hl eq_refl Hp Hrx).
  rewrite string_of_list_byte_of_string. rewrite String.eqb_refl.
  change (cameraType (afterReads rest (frameReads data)
                        (logEvent EvLock (withMutex true m))))
    with (cameraType m).
  assert (C : (blen data <? blen (image.Pix (image.NewGray16 (sensorSize (cameraType m)))))
              = false) by (apply Z.ltb_ge; unfold blen; lia).
  rewrite C.
  assert (R : (List.length (videoStream ch) <? 10)%nat = true)
    by (apply Nat.ltb_lt; exact Hroom).
  rewrite R.
  change (readMutex (afterReads rest (frameReads data)
                       (logEvent EvLock (withMutex true m))))
    with true.
  destruct (done (S i)); unfold close; cbn [videoStream closed fst snd]; reflexivity.
Qed.

(** X19: from [StartStream] to the pixels. On a session whose device
    acknowledges the frame-mode write and then sends a GFRA frame with at
    least the bytes of the session's geometry, [StartStream] writes the one
    frame "   #000CWREGB102XXXX" (frame mode 2, continuous) and returns an
    empty channel; the goroutine puts one frame into it; and [cv.Read] on
    that channel makes its calls to [SetShortAt] row by row over the
    sensor's width and height with the pixels taken from the last bytes of
    the payload: the header bytes in front never reach the matrix. *)
Theorem X19_stream_end_to_end (fuel : nat) (done : nat -> bool) (m : MI48)
  (a : answer) (data rest : list byte) (t0 t1 t2 t3 : byte) :
  wfail (serialPort m) = false ->
  readMutex m = false ->
  blen (fst a) <= 65527 ->
  rx (serialPort m) = ackFrame a ++ reply "GFRA" data [t0; t1; t2; t3] ++ rest ->
  (List.length (image.Pix (image.NewGray16 (sensorSize (cameraType m))))
   <= List.length data)%nat ->
  blen data <= 65527 ->
  done 0%nat = false ->
  let w := image.Dx (sensorSize (cameraType m)) in
  let h := image.Dy (sensorSize (cameraType m)) in
  exists m1,
    StartStream m = (Ok (mkStream [] false), m1)
    /\ tx (serialPort m1)
       = tx (serialPort m) ++ [list_byte_of_string "   #000CWREGB102XXXX"]
    /\ fst (cv.Read (snd (fst (streamLoop (S (S fuel)) done 0 (mkStream [] false) m1))))
       = Ok (rowMajorCalls (skipn (List.length data - Z.to_nat (2 * w * h)) data) w h).
Proof.
  intros Hw Hmx Ha Hrx Hge Hlen Hd w h.
  pose proof (writeRegister_ackFrame m FRAME_MODE (uint8 CONTNIUOUS_STREAM) a
                (reply "GFRA" data [t0; t1; t2; t3] ++ rest) eq_refl Hw Hmx Ha Hrx) as E.
  eexists. split; [|split].
  - unfold StartStream, bind, wrap, ret. rewrite E. reflexivity.
  - session_simpl. reflexivity.
  - match goal with |- context [streamLoop _ _ _ _ ?m1] => set (s1 := m1) end.
    assert (Hc : cameraType s1 = cameraType m) by reflexivity.
    pose proof (streamLoop_delivers fuel done 0 (mkStream [] false) s1 data rest
                  t0 t1 t2 t3 Hd eq_refl eq_refl) as D.
    rewrite Hc in D. specialize (D Hge Hlen ltac:(cbn; lia)).
    cbn [videoStream app] in D.
    destruct (sensorSize_origin (cameraType m)) as (Ho & Hw0 & Hh0).
    fold w h in Ho, Hw0, Hh0.
    assert (Hpix : List.length (image.Pix (image.NewGray16 (sensorSize (cameraType m))))
                   = Z.to_nat (2 * w * h)).
    { unfold image.NewGray16. cbn [image.Pix]. rewrite repeat_length. reflexivity. }
    rewrite Hpix in D, Hge.
    apply (Read_oldest_frame _
             (image.mkGray16 (skipn (List.length data - Z.to_nat (2 * w * h)) data)
                (2 * w) (sensorSize (cameraType m)))
             [] w h).
    + exact D.
    + exact Ho.
    + reflexivity.
    + cbn [image.Pix]. rewrite length_skipn. lia.
    + exact Hw0.
    + exact Hh0.
Qed.

Lemma X19_stream_end_to_end_witness :
  exists m1,
    StartStream
      (setCameraType 2
         (session0 (ackFrame ([], (x43, x52, x43, x5f))
                    ++ reply "GFRA" (repeat x41 4 ++ repeat x30 2048)
                         [x43; x52; x43; x5f] ++ [])))
    = (Ok (mkStream [] false), m1)
    /\ fst (cv.Read (snd (fst (streamLoop 2 (fun _ => false) 0 (mkStream [] false) m1))))
       = Ok (rowMajorCalls
               (skipn (List.length (repeat x41 4 ++ repeat x30 2048)
                       - Z.to_nat (2 * image.Dx (sensorSize 2) * image.Dy (sensorSize 2)))
                      (repeat x41 4 ++ repeat x30 2048))
               (image.Dx (sensorSize 2)) (image.Dy (sensorSize 2))).
Proof.
  destruct (X19_stream_end_to_end 0 (fun _ => false)
              (setCameraType 2
                 (session0 (ackFrame ([], (x43, x52, x43, x5f))
                            ++ reply "GFRA" (repeat x41 4 ++ repeat x30 2048)
                                 [x43; x52; x43; x5f] ++ [])))
              ([], (x43, x52, x43, x5f)) (repeat x41 4 ++ repeat x30 2048) []
              x43 x52 x43 x5f) as (m1 & S1 & _ & R1).
  - reflexivity.
  - reflexivity.
  - vm_compute. discriminate.
  - reflexivity.
  - vm_compute. lia.
  - vm_compute. discriminate.
  - reflexivity.
  - exists m1. split; [exact S1 | exact R1].
Defined.

(** * A port that refuses writes *)

Lemma sendCommand_refused (cmd : string) (m : MI48) :
  (4 <= String.length cmd)%nat ->
  wfail (serialPort m) = true ->
  sendCommand cmd m
  = (Err (Wrapf "failed to write to serial port" ErrPortWrite), logEvent EvWrite m).
Proof.
  intros Hcmd Hw. unfold sendCommand.
  assert (C : (String.length cmd <? 4)%nat = false) by (apply Nat.ltb_ge; exact Hcmd).
  rewrite C. unfold port_Write. cbn [logEvent serialPort]. rewrite Hw. reflexivity.
Qed.

Lemma writeRegister_refused (reg : register) (value : Z) (m : MI48) :
  ReadOnly reg = false ->
  wfail (serialPort m) = true ->
  writeRegister reg value m
  = (Err (Wrapf "failed to write register"
            (Wrapf "failed to write to serial port" ErrPortWrite)),
     logEvent EvWrite m).
Proof.
  intros Hro Hw. unfold writeRegister. rewrite Hro. unfold bind, wrap.
  rewrite (sendCommand_refused _ m (wregCommand_length _ _) Hw). reflexivity.
Qed.

Lemma readRegister_refused (reg : register) (m : MI48) :
  0 < uint8 (Length reg) ->
  wfail (serialPort m) = true ->
  readRegister reg m
  = (Err (Wrapf "failed to read register"
            (Wrapf "failed to write to serial port" ErrPortWrite)),
     logEvent EvWrite m).
Proof.
  intros Hl Hw. unfold readRegister, bind. cbn [readRegister_loop].
  assert (C : (0 <? uint8 (Length reg)) = true) by (apply Z.ltb_lt; exact Hl).
  rewrite C. unfold bind, wrap.
  rewrite (sendCommand_refused _ m (rregCommand_length _) Hw). reflexivity.
Qed.

(** X20: a port that refuses writes. Every operation of the session then
    ends at its first command: the write is attempted once, nothing is read
    from the port, the mutex is not taken, and the error names the failed
    step around the cause "failed to write to serial port". This holds for
    [sendCommand] with any command of four characters or more, for
    [writeRegister] on a writable register, for [readRegister] on a register
    of at least one byte, and for [SetFilters], [SetNETD],
    [SetTemperatureOffset], [StartStream] (which then starts no goroutine)
    and [GetFramerate]. *)
Theorem X20_refused_write (m : MI48) :
  wfail (serialPort m) = true ->
  let cause := Wrapf "failed to write to serial port" ErrPortWrite in
  let written := Wrapf "failed to write register" cause in
  let m' := logEvent EvWrite m in
  (forall cmd : string, (4 <= String.length cmd)%nat ->
     sendCommand cmd m = (Err cause, m'))
  /\ (forall (reg : register) (value : Z), ReadOnly reg = false ->
        writeRegister reg value m = (Err written, m'))
  /\ (forall reg : register, 0 < uint8 (Length reg) ->
        readRegister reg m = (Err (Wrapf "failed to read register" cause), m'))
  /\ (forall fs : FilterSettings,
        SetFilters fs m = (Err (Wrapf "failed to set filter settings" written), m'))
  /\ (forall c : NETDConfig,
        SetNETD c m = (Err (Wrapf "failed to set NETD factor" written), m'))
  /\ (forall offset : float, SetTemperatureOffset offset m = (Err written, m'))
  /\ StartStream m = (Err (Wrapf "failed to start stream" written), m')
  /\ GetFramerate m
     = (Err (Wrapf "failed to read frame rate" (Wrapf "failed to read register" cause)),
        m')
  /\ rx (serialPort m') = rx (serialPort m)
  /\ tx (serialPort m') = tx (serialPort m)
  /\ readMutex m' = readMutex m
  /\ events m' = events m ++ [EvWrite].
Proof.
  intros Hw cause written m'.
  split; [intros cmd Hcmd; apply sendCommand_refused; assumption|].
  split; [intros reg value Hro; apply writeRegister_refused; assumption|].
  split; [intros reg Hl; apply readRegister_refused; assumption|].
  split.
  { intros fs. unfold SetFilters.
    destruct (0 <? Temporal fs); destruct (0 <? RollingAverage fs);
      cbv beta iota zeta; unfold bind, wrap;
      rewrite (writeRegister_refused FILTER_SETTING_1_LSB _ m eq_refl Hw);
      reflexivity. }
  split.
  { intros c. unfold SetNETD, bind, wrap.
    rewrite (writeRegister_refused NETD_FACTOR _ m eq_refl Hw). reflexivity. }
  split.
  { intros offset. unfold SetTemperatureOffset.
    destruct (offset / f0_05 <? 0)%float;
      apply (writeRegister_refused OFFSET_CORR _ m eq_refl Hw). }
  split.
  { unfold StartStream, bind, wrap.
    rewrite (writeRegister_refused FRAME_MODE _ m eq_refl Hw). reflexivity. }
  split.
  { unfold GetFramerate, bind, wrap.
    rewrite (readRegister_refused FRAME_RATE m ltac:(vm_compute; reflexivity) Hw).
    reflexivity. }
  repeat split.
Qed.

Lemma X20_refused_write_witness :
  StartStream (mkMI48 (mkPort [] [] true) "" "" "" 0%float 0 false [])
  = (Err (Wrapf "failed to start stream"
            (Wrapf "failed to write register"
               (Wrapf "failed to write to serial port" ErrPortWrite))),
     logEvent EvWrite (mkMI48 (mkPort [] [] true) "" "" "" 0%float 0 false [])).
Proof.
  destruct (X20_refused_write (mkMI48 (mkPort [] [] true) "" "" "" 0%float 0 false []))
    as (_ & _ & _ & _ & _ & _ & S & _).
  - reflexivity.
  - exact S.
Defined.

(** * Indexing the value of a register *)

Lemma payloads_length (rs : list answer) :
  Forall answerOk rs -> (List.length rs <= List.length (payloads rs))%nat.
Proof.
  induction 1 as [|a rs [Hne _] _ IH]; [apply Nat.le_refl|].
  unfold payloads in *. cbn [map List.concat]. rewrite length_app.
  destruct (fst a) as [|b p]; [contradiction|]. cbn [List.length]. lia.
Qed.

Lemma decoded_length (rs : list answer) (value : list byte) :
  Forall answerOk rs ->
  hexDecode (payloads rs) = inl value ->
  (List.length rs <= 2 * List.length value)%nat.
Proof.
  intros Hok H.
  rewrite <- (hexDecode_length (List.length (payloads rs)) (payloads rs) value
                (Nat.le_refl _) H).
  apply payloads_length. exact Hok.
Qed.

(** X21: [getFirmwareVersion] indexes the register value without looking at
    its length. [readRegister] takes any answer that is not empty, so when
    the device answers the two reads of the firmware register with one hex
    digit each, the two digits decode to a single byte, [readRegister]
    succeeds with it, and [firmwareVersion[1]] panics (index out of range)
    after the two exchanges. *)
Theorem X21_getFirmwareVersion_short_answers_panic (v : Z) (c0 c1 : byte)
  (tr0 tr1 : byte * byte * byte * byte) (rest : list byte) (m : MI48) :
  0 <= v < 256 ->
  list_byte_of_string (fmt0X 2 v) = [c0; c1] ->
  wfail (serialPort m) = false ->
  readMutex m = false ->
  rx (serialPort m) = answers [([c0], tr0); ([c1], tr1)] ++ rest ->
  readRegister FW_VERSION m
  = (Ok [zbyte v],
     afterExchange (readFrames 0xB2 0 2) rest
       (answerEvents [([c0], tr0); ([c1], tr1)]) m)
  /\ getFirmwareVersion m
     = (Panic,
        afterExchange (readFrames 0xB2 0 2) rest
          (answerEvents [([c0], tr0); ([c1], tr1)]) m).
Proof.
  intros Hv Hc Hw Hmx Hrx.
  assert (Hok : Forall answerOk [([c0], tr0); ([c1], tr1)]).
  { repeat constructor; cbn [fst]; try discriminate; vm_compute; discriminate. }
  pose proof (readRegister_answers FW_VERSION [([c0], tr0); ([c1], tr1)] rest m
                eq_refl Hok Hw Hmx Hrx) as E.
  destruct (hexByte_decode v Hv) as (d0 & d1 & Hd & _ & D).
  rewrite Hc in Hd. injection Hd as <- <-.
  change (payloads [([c0], tr0); ([c1], tr1)]) with [c0; c1] in E.
  rewrite (D []) in E. cbn [hexDecode] in E.
  change (Address FW_VERSION) with 0xB2 in E.
  change (List.length [([c0], tr0); ([c1], tr1)]) with 2%nat in E.
  split; [exact E|].
  unfold getFirmwareVersion, bind, wrap. rewrite E. reflexivity.
Qed.

Lemma X21_getFirmwareVersion_short_answers_panic_witness :
  fst (getFirmwareVersion
         (session0 (answers [([x31], crc0); ([x32], crc0)] ++ [])))
  = Panic.
Proof.
  destruct (X21_getFirmwareVersion_short_answers_panic 0x12 x31 x32 crc0 crc0 []
              (session0 (answers [([x31], crc0); ([x32], crc0)] ++ [])))
    as (_ & P).
  - split; [discriminate | reflexivity].
  - reflexivity.
  - reflexivity.
  - reflexivity.
  - reflexivity.
  - rewrite P. reflexivity.
Defined.

(** X22: where the index is safe. [getCameraID] reads six addresses and
    [getCameraType] one; each answer [readRegister] accepts has at least one
    byte, and a hex string that decodes has two digits for each byte, so the
    camera ID has at least three bytes and the camera type at least one
    whenever [readRegister] succeeds. Whatever the device puts into its
    answers, the two calls return a value or the decoding error of
    [readRegister] under their own message; they never panic on an index. *)
Theorem X22_camera_id_and_type_never_panic (m : MI48) :
  wfail (serialPort m) = false ->
  readMutex m = false ->
  (forall (rs : list answer) (rest : list byte),
      List.length rs = 6%nat -> Forall answerOk rs ->
      rx (serialPort m) = answers rs ++ rest ->
      (exists s, fst (getCameraID m) = Ok s)
      \/ (exists e, fst (getCameraID m)
                    = Err (Wrapf "failed to read camera ID"
                             (Wrapf "failed to decode register value" e))))
  /\ (forall (a : answer) (rest : list byte),
        answerOk a ->
        rx (serialPort m) = answers [a] ++ rest ->
        (exists t, fst (getCameraType m) = Ok t /\ 0 <= t < 256)
        \/ (exists e, fst (getCameraType m)
                      = Err (Wrapf "failed to get camera type"
                               (Wrapf "failed to decode register value" e)))).
Proof.
  intros Hw Hmx. split.
  - intros rs rest Hn Hok Hrx.
    pose proof (readRegister_answers SENXOR_ID rs rest m Hn Hok Hw Hmx Hrx) as E.
    unfold getCameraID, bind, wrap. rewrite E.
    destruct (hexDecode (payloads rs)) as [value|e] eqn:D.
    + left. pose proof (decoded_length rs value Hok D) as L. rewrite Hn in L.
      destruct value as [|s0 [|s1 [|s2 more]]]; cbn [List.length] in L; try lia.
      unfold index. cbn [nth_error]. unfold ret. cbn [fst]. eexists. reflexivity.
    + right. exists e. reflexivity.
  - intros a rest Hok Hrx.
    pose proof (readRegister_answers SENXOR_TYPE [a] rest m eq_refl
                  (Forall_cons a Hok (Forall_nil _)) Hw Hmx Hrx) as E.
    unfold getCameraType, bind, wrap. rewrite E.
    destruct (hexDecode (payloads [a])) as [value|e] eqn:D.
    + left.
      pose proof (decoded_length [a] value (Forall_cons a Hok (Forall_nil _)) D) as L.
      destruct value as [|s0 more]; cbn [List.length] in L; try lia.
      unfold index. cbn [nth_error]. unfold ret. cbn [fst].
      exists (byteZ s0). split; [reflexivity|].
      unfold byteZ. pose proof (Byte.to_N_bounded s0). lia.
    + right. exists e. reflexivity.
Qed.

Lemma X22_camera_id_and_type_never_panic_witness :
  (exists t, fst (getCameraType (session0 (answers [([x30; x32], crc0)] ++ []))) = Ok t
             /\ 0 <= t < 256)
  \/ (exists e, fst (getCameraType (session0 (answers [([x30; x32], crc0)] ++ [])))
                = Err (Wrapf "failed to get camera type"
                         (Wrapf "failed to decode register value" e))).
Proof.
  destruct (X22_camera_id_and_type_never_panic
              (session0 (answers [([x30; x32], crc0)] ++ []))) as (_ & T).
  - reflexivity.
  - reflexivity.
  - apply (T ([x30; x32], crc0) []).
    + split; [discriminate | vm_compute; discriminate].
    + reflexivity.
Defined.
